(** * vmaf.core.executor: the per-asset orchestration of an Executor

    A shallow embedding of [python/src/vmaf/core/executor.py].  Python
    objects become records, [None]-able attributes become [option]s,
    dictionaries become finite maps or association lists, exceptions become
    the [Raise] outcome of a state-and-exception monad, and the file system,
    the result store and the clock are components of an explicit state.

    Of [python/train_test_model.py], the module [train_test_model] below
    embeds the bookkeeping of trained models. *)

From stdpp Require Import base decidable option list gmap strings sorting pretty.
From Stdlib Require Import ZArith Ascii.

Local Open Scope Z_scope.

(** ** Python values and exceptions *)

(** Values stored in parameter and asset dictionaries. *)
Inductive pyval :=
  | PyInt (z : Z)
  | PyStr (s : string)
  | PyBool (b : bool).

(** [str(v)], as used by ['{}'.format(v)]. *)
Definition py_str (v : pyval) : string :=
  match v with
  | PyInt z => pretty z
  | PyStr s => s
  | PyBool true => "True"
  | PyBool false => "False"
  end.

(** Parameter dictionaries, in insertion order; their keys are distinct. *)
Abbreviation pydict := (list (string * pyval)).

(** The exception classes the module raises or catches. *)
Inductive exn :=
  | AssertionError (msg : string)
  | RuntimeError (msg : string)
  | OSError (errno : Z)
  | IOError (errno : Z)
  | KeyError (key : string)
  | TypeError
  | NotImplementedError
  | HookError (msg : string).

(** The outcome of a call: a value, or a raised exception. *)
Inductive outcome (A : Type) :=
  | Return (v : A)
  | Raise (e : exn).
Arguments Return {A} v.
Arguments Raise {A} e.

#[global] Instance outcome_ret : MRet outcome := λ A v, Return v.
#[global] Instance outcome_bind : MBind outcome := λ A B f o,
  match o with
  | Return v => f v
  | Raise e => Raise e
  end.

(** [assert cond, msg]; a bare [assert cond] carries the empty message. *)
Definition py_assert (cond : bool) (msg : string) : outcome unit :=
  if cond then Return tt else Raise (AssertionError msg).

(** ** Assets (vmaf.core.asset.Asset, seen through the attributes read here) *)

Record Asset := {
  asset_dict : gmap string pyval;
  workdir : string;
  ref_path : string;
  dis_path : string;
  ref_workfile_path : string;
  dis_workfile_path : string;
  ref_width_height : option (Z * Z);
  dis_width_height : option (Z * Z);
  quality_width_height : option (Z * Z);
  ref_yuv_type : string;
  dis_yuv_type : string;
  workfile_yuv_type : string;
  ref_start_end_frame : option (Z * Z);
  dis_start_end_frame : option (Z * Z);
  crop_cmd : option string;
  pad_cmd : option string;
  resampling_type : string;
  use_path_as_workpath : bool;
}.

#[global] Instance pyval_eq_dec : EqDecision pyval.
Proof. solve_decision. Defined.
#[global] Instance exn_eq_dec : EqDecision exn.
Proof. solve_decision. Defined.
#[global] Instance Asset_eq_dec : EqDecision Asset.
Proof. solve_decision. Defined.

(** [asset.use_path_as_workpath = b] *)
Definition set_use_path_as_workpath (b : bool) (asset : Asset) : Asset :=
  {| asset_dict := asset_dict asset;
     workdir := workdir asset;
     ref_path := ref_path asset;
     dis_path := dis_path asset;
     ref_workfile_path := ref_workfile_path asset;
     dis_workfile_path := dis_workfile_path asset;
     ref_width_height := ref_width_height asset;
     dis_width_height := dis_width_height asset;
     quality_width_height := quality_width_height asset;
     ref_yuv_type := ref_yuv_type asset;
     dis_yuv_type := dis_yuv_type asset;
     workfile_yuv_type := workfile_yuv_type asset;
     ref_start_end_frame := ref_start_end_frame asset;
     dis_start_end_frame := dis_start_end_frame asset;
     crop_cmd := crop_cmd asset;
     pad_cmd := pad_cmd asset;
     resampling_type := resampling_type asset;
     use_path_as_workpath := b |}.

(** [x is not None] *)
Definition is_not_None {A} (x : option A) : bool :=
  match x with Some _ => true | None => false end.

(** ** The transcode-needed predicate *)

(** [Executor._need_ffmpeg] (lines 150-164). *)
Definition _need_ffmpeg (asset : Asset) : bool :=
  bool_decide (quality_width_height asset ≠ ref_width_height asset)
  || bool_decide (quality_width_height asset ≠ dis_width_height asset)
  || is_not_None (crop_cmd asset)
  || is_not_None (pad_cmd asset)
  || bool_decide (ref_yuv_type asset = "notyuv")
  || bool_decide (dis_yuv_type asset = "notyuv")
  || is_not_None (ref_start_end_frame asset)
  || is_not_None (dis_start_end_frame asset).

(** [NorefExecutorMixin._need_ffmpeg] (lines 640-652). *)
Definition Noref_need_ffmpeg (asset : Asset) : bool :=
  bool_decide (quality_width_height asset ≠ dis_width_height asset)
  || is_not_None (crop_cmd asset)
  || is_not_None (pad_cmd asset)
  || bool_decide (dis_yuv_type asset = "notyuv")
  || is_not_None (dis_start_end_frame asset).

(** ** The workfile pixel format *)

(** [Executor._get_workfile_yuv_type] (lines 190-207). *)
Definition _get_workfile_yuv_type (asset : Asset) : outcome string :=
  if bool_decide (ref_yuv_type asset = "notyuv")
     && bool_decide (dis_yuv_type asset = "notyuv") then
    Return (workfile_yuv_type asset)
  else if bool_decide (ref_yuv_type asset = "notyuv")
          && bool_decide (dis_yuv_type asset ≠ "notyuv") then
    Return (dis_yuv_type asset)
  else if bool_decide (ref_yuv_type asset ≠ "notyuv")
          && bool_decide (dis_yuv_type asset = "notyuv") then
    Return (ref_yuv_type asset)
  else
    py_assert (bool_decide (ref_yuv_type asset = dis_yuv_type asset))
      "YUV types for ref and dis do not match.";;
    Return (ref_yuv_type asset).

(** [NorefExecutorMixin._get_workfile_yuv_type] (lines 672-680). *)
Definition Noref_get_workfile_yuv_type (asset : Asset) : outcome string :=
  if bool_decide (dis_yuv_type asset = "notyuv") then
    Return (workfile_yuv_type asset)
  else
    Return (dis_yuv_type asset).

(** ** The file system *)

(** Directory entries by path: plain files, named pipes and directories. *)
Inductive node := File | Fifo | Dir.

#[global] Instance node_eq_dec : EqDecision node.
Proof. solve_decision. Defined.

Abbreviation FS := (gmap string node).

Fixpoint has_slash (s : string) : bool :=
  match s with
  | EmptyString => false
  | String c rest => if Ascii.eqb c "/"%char then true else has_slash rest
  end.

(** Modelled from the spec: [vmaf.tools.misc.get_dir_without_last_slash] is
    not part of the sources at hand; the log artifact's "parent directory"
    is the part of the path before its last slash (empty when there is
    none). *)
Fixpoint get_dir_without_last_slash (path : string) : string :=
  match path with
  | EmptyString => EmptyString
  | String c rest =>
      if has_slash rest then String c (get_dir_without_last_slash rest)
      else EmptyString
  end.

(** errno values (Linux). *)
Definition ENOENT : Z := 2.
Definition EACCES : Z := 13.
Definition EEXIST : Z := 17.
Definition ENOTDIR : Z := 20.
Definition EISDIR : Z := 21.
Definition ENOTEMPTY : Z := 39.

(** Producer processes started in fifo mode: the target and its asset
    argument ([fifo_mode] is always [True] there). *)
Inductive child :=
  | OpenRefWorkfile (asset : Asset)
  | OpenDisWorkfile (asset : Asset).

(** ** Collaborators that live outside this module *)

Class Environment := {
  (** [str(asset)] (vmaf.core.asset) *)
  asset_str : Asset → string;
  (** [hashlib.sha1(s.encode("utf-8")).hexdigest()] *)
  sha1_hexdigest : string → string;
  (** [TypeVersionEnabled.get_type_version_string], from TYPE and VERSION *)
  get_type_version_string : string → string → string;
  (** [TypeVersionEnabled.get_cozy_type_version_string] *)
  get_cozy_type_version_string : string → string → string;
  (** [VmafExternalConfig.get_and_assert_ffmpeg()] *)
  get_and_assert_ffmpeg : outcome string;
  (** [vmaf.tools.misc]: glob matching, file name extension, subprocess *)
  match_any_files : string → FS → bool;
  get_file_name_extension : string → string;
  run_process : string → FS → FS * outcome unit;
  (** Results, with the asset and executor id they are filed under, and
      the result store (vmaf.core.result, vmaf.core.result_store) *)
  Result : Type;
  result_asset : Result → Asset;
  result_executor_id : Result → string;
  ResultStore : Type;
  store_load : Asset → string → ResultStore → option Result;
  store_save : Result → ResultStore → ResultStore;
  store_delete : Asset → string → ResultStore → ResultStore;
  (** Whether the process may add or remove entries of a directory. *)
  may_write : string → bool;
  (** What concurrently running processes (the producers started in fifo
      mode among them) do to the file system while this process sleeps;
      the first argument is the clock, in milliseconds, when the sleep
      starts. *)
  background : Z → list child → FS → FS;
}.

Section os.
Context `{Environment}.

Definition os_path_exists (m : FS) (p : string) : bool :=
  bool_decide (is_Some (m !! p)).

(** Why an entry cannot be added to or removed from the directory of [p];
    the empty directory name stands for the current or root directory. *)
Definition parent_error (m : FS) (p : string) : option Z :=
  let d := get_dir_without_last_slash p in
  if bool_decide (d = "") then
    if may_write "" then None else Some EACCES
  else
    match m !! d with
    | None => Some ENOENT
    | Some Dir => if may_write d then None else Some EACCES
    | Some _ => Some ENOTDIR
    end.

Definition has_entries (m : FS) (d : string) : bool :=
  bool_decide (Exists (λ p, p ≠ d ∧ get_dir_without_last_slash p = d)
                 (map_to_list m).*1).

(** [os.remove(p)] *)
Definition fs_remove (p : string) (m : FS) : FS * outcome unit :=
  match m !! p with
  | None => (m, Raise (OSError ENOENT))
  | Some Dir => (m, Raise (OSError EISDIR))
  | Some _ =>
      match parent_error m p with
      | Some e => (m, Raise (OSError e))
      | None => (delete p m, Return tt)
      end
  end.

(** [os.rmdir(d)] *)
Definition fs_rmdir (d : string) (m : FS) : FS * outcome unit :=
  match m !! d with
  | None => (m, Raise (OSError ENOENT))
  | Some Dir =>
      match parent_error m d with
      | Some e => (m, Raise (OSError e))
      | None =>
          if has_entries m d then (m, Raise (OSError ENOTEMPTY))
          else (delete d m, Return tt)
      end
  | Some _ => (m, Raise (OSError ENOTDIR))
  end.

(** Creating a new entry of kind [n] at [p]. *)
Definition fs_create (n : node) (p : string) (m : FS) : FS * outcome unit :=
  if bool_decide (p = "") then (m, Raise (OSError ENOENT))
  else
    match m !! p with
    | Some _ => (m, Raise (OSError EEXIST))
    | None =>
        match parent_error m p with
        | Some e => (m, Raise (OSError e))
        | None => (<[p := n]> m, Return tt)
        end
    end.

(** [os.mkfifo(p)] *)
Definition fs_mkfifo (p : string) (m : FS) : FS * outcome unit :=
  fs_create Fifo p m.

(** [os.makedirs(d)]: missing ancestors first, then the leaf. *)
Fixpoint fs_makedirs_fuel (fuel : nat) (d : string) (m : FS)
  : FS * outcome unit :=
  match fuel with
  | O => fs_create Dir d m
  | S fuel' =>
      let head := get_dir_without_last_slash d in
      if bool_decide (head ≠ "") && negb (os_path_exists m head) then
        match fs_makedirs_fuel fuel' head m with
        | (m', Return _) => fs_create Dir d m'
        | (m', Raise (OSError e)) =>
            if bool_decide (e = EEXIST) then fs_create Dir d m'
            else (m', Raise (OSError e))
        | (m', Raise e) => (m', Raise e)
        end
      else fs_create Dir d m
  end.

Definition fs_makedirs (d : string) (m : FS) : FS * outcome unit :=
  fs_makedirs_fuel (String.length d) d m.

(** [with open(p, 'wt') as f: f.write(...)], as far as directory entries
    are concerned. *)
Definition fs_open_write (p : string) (m : FS) : FS * outcome unit :=
  match m !! p with
  | Some Dir => (m, Raise (IOError EISDIR))
  | Some _ => (m, Return tt)
  | None =>
      if bool_decide (p = "") then (m, Raise (IOError ENOENT))
      else
        match parent_error m p with
        | Some e => (m, Raise (IOError e))
        | None => (<[p := File]> m, Return tt)
        end
  end.

End os.

(** ** The state-and-exception monad *)

(** What a run leaves in its call log: entries into the housekeeping
    methods and hooks, log records, result-store traffic, system calls. *)
Inductive event :=
  | EvCall (method : string)
  | EvInfo (msg : string)
  | EvLoad (executor_id : string)
  | EvSave
  | EvRemove (p : string)
  | EvRmdir (p : string)
  | EvMakedirs (p : string)
  | EvMkfifo (p : string)
  | EvWrite (p data : string)
  | EvSleep (ms : Z)
  | EvStart (c : child)
  | EvRunProcess (cmd : string).

#[global] Instance child_eq_dec : EqDecision child.
Proof. solve_decision. Defined.
#[global] Instance event_eq_dec : EqDecision event.
Proof. solve_decision. Defined.

Section monad.
Context `{Environment}.

(** The asset object being processed (its one mutable attribute is
    [use_path_as_workpath]), the file system, the contents of the result
    store, the producers started so far, the clock in milliseconds, and
    the call log. *)
Record state := State {
  asset : Asset;
  fs : FS;
  store : ResultStore;
  children : list child;
  clock : Z;
  trace : list event;
}.

Definition set_asset (a : Asset) (s : state) : state :=
  State a (fs s) (store s) (children s) (clock s) (trace s).
Definition set_fs (m : FS) (s : state) : state :=
  State (asset s) m (store s) (children s) (clock s) (trace s).
Definition set_store (st : ResultStore) (s : state) : state :=
  State (asset s) (fs s) st (children s) (clock s) (trace s).
Definition set_children (cs : list child) (s : state) : state :=
  State (asset s) (fs s) (store s) cs (clock s) (trace s).
Definition set_clock (t : Z) (s : state) : state :=
  State (asset s) (fs s) (store s) (children s) t (trace s).
Definition set_trace (tr : list event) (s : state) : state :=
  State (asset s) (fs s) (store s) (children s) (clock s) tr.

Definition M (A : Type) : Type := state → state * outcome A.

#[global] Instance M_ret : MRet M := λ A v s, (s, Return v).
#[global] Instance M_bind : MBind M := λ A B f m s,
  match m s with
  | (s', Return v) => f v s'
  | (s', Raise e) => (s', Raise e)
  end.

Definition raise {A} (e : exn) : M A := λ s, (s, Raise e).
Definition lift {A} (o : outcome A) : M A := λ s, (s, o).
Definition emit (e : event) : M unit :=
  λ s, (set_trace (trace s ++ [e]) s, Return tt).
Definition modify (f : state → state) : M unit := λ s, (f s, Return tt).
Definition get_asset : M Asset := λ s, (s, Return (asset s)).
Definition get_fs : M FS := λ s, (s, Return (fs s)).
Definition get_store : M ResultStore := λ s, (s, Return (store s)).
Definition fs_call {A} (f : FS → FS * outcome A) : M A :=
  λ s, (set_fs (f (fs s)).1 s, (f (fs s)).2).

(** [if cond: body] *)
Definition when (cond : bool) (body : M unit) : M unit :=
  if cond then body else mret tt.

(** [try: body / except ...: handler]; [handler e] is [None] when no
    except clause matches [e]. *)
Definition try_except {A} (body : M A) (handler : exn → option (M A)) : M A :=
  λ s, match body s with
       | (s', Raise e) =>
           match handler e with
           | Some h => h s'
           | None => (s', Raise e)
           end
       | (s', Return v) => (s', Return v)
       end.

Definition exists_ (p : string) : M bool :=
  m ← get_fs; mret (os_path_exists m p).
Definition os_remove (p : string) : M unit :=
  emit (EvRemove p);; fs_call (fs_remove p).
Definition os_rmdir (d : string) : M unit :=
  emit (EvRmdir d);; fs_call (fs_rmdir d).
Definition os_mkfifo (p : string) : M unit :=
  emit (EvMkfifo p);; fs_call (fs_mkfifo p).
Definition os_makedirs (d : string) : M unit :=
  emit (EvMakedirs d);; fs_call (fs_makedirs d).
Definition open_write (p data : string) : M unit :=
  emit (EvWrite p data);; fs_call (fs_open_write p).

(** [sleep(ms / 1000.)]: the other processes run meanwhile. *)
Definition sleep (ms : Z) : M unit :=
  emit (EvSleep ms);;
  modify (λ s, set_clock (clock s + ms)
                 (set_fs (background (clock s) (children s) (fs s)) s)).

(** [multiprocessing.Process(target=..., args=...).start()] *)
Definition process_start (c : child) : M unit :=
  emit (EvStart c);;
  modify (λ s, set_children (children s ++ [c]) s).

(** [run_process(cmd, shell=True)] *)
Definition call_run_process (cmd : string) : M unit :=
  emit (EvRunProcess cmd);; fs_call (run_process cmd).

(** Modelled from the spec: [vmaf.tools.misc.make_parent_dirs_if_nonexist]
    is not part of the sources at hand; it creates the parent directory of
    a path when that directory does not exist yet. *)
Definition make_parent_dirs_if_nonexist (path : string) : M unit :=
  let dst_dir := get_dir_without_last_slash path in
  b ← exists_ dst_dir;
  if (b : bool) then mret tt else os_makedirs dst_dir.

(** ** Executor classes and instances *)

(** A concrete executor class: its TYPE and VERSION, whether
    [NorefExecutorMixin] precedes [Executor] in its method resolution
    order, and its implementations of the hooks. *)
Record ExecutorClass := {
  TYPE : string;
  VERSION : string;
  noref : bool;
  _generate_result : Asset → FS → FS * outcome unit;
  _read_result : Asset → FS → FS * outcome Result;
  _post_process_result : Result → outcome Result;
}.

(** Method resolution: the mixin's override when the class has it. *)
Definition resolve {T} (cls : ExecutorClass) (base mixin : T) : T :=
  if noref cls then mixin else base.

Record Executor := {
  cls : ExecutorClass;
  assets : list Asset;
  logger : bool;
  fifo_mode : bool;
  delete_workdir : bool;
  results : list Result;
  result_store : bool;
  optional_dict : option pydict;
  optional_dict2 : option pydict;
}.

(** ** Identity *)

Definition key_le (x y : string * pyval) : Prop := String.leb x.1 y.1 = true.

#[global] Instance key_le_dec : RelDecision key_le.
Proof. intros x y. unfold key_le. apply _. Defined.

(** Modelled from the spec: [vmaf.tools.misc.get_normalized_string_from_dict]
    is not part of the sources at hand; section 4.1 has the parameter set
    canonicalised by sorting its keys and rendering each entry in a stable
    string form before concatenation. *)
Definition get_normalized_string_from_dict (d : pydict) : string :=
  String.concat "_"
    ((λ kv, kv.1 +:+ "_" +:+ py_str kv.2) <$> merge_sort key_le d).

(** [Executor.executor_id] (lines 75-83). *)
Definition executor_id (self : Executor) : string :=
  let executor_id_ :=
    get_type_version_string (TYPE (cls self)) (VERSION (cls self)) in
  match optional_dict self with
  | Some d =>
      if bool_decide (0 < length d)%nat then
        executor_id_ +:+ "_" +:+ get_normalized_string_from_dict d
      else executor_id_
  | None => executor_id_
  end.

End monad.

Section executor.
Context `{Environment}.

(** ** Asset precondition validation *)

Definition explicit_quality_size (asset : Asset) : bool :=
  bool_decide ("quality_width" ∈ dom (asset_dict asset))
  && bool_decide ("quality_height" ∈ dom (asset_dict asset)).

Definition crop_msg : string :=
  "If crop_cmd is specified, must also EXPLICITLY specify quality_width and quality_height.".
Definition pad_msg : string :=
  "If pad_cmd is specified, must also EXPLICITLY specify quality_width and quality_height.".

(** [Executor._assert_an_asset] (lines 166-188). *)
Definition _assert_an_asset (cls : ExecutorClass) (asset : Asset)
  : outcome unit :=
  py_assert (is_not_None (quality_width_height asset)) "";;
  (if resolve cls _need_ffmpeg Noref_need_ffmpeg asset
   then get_and_assert_ffmpeg;; mret tt else mret tt);;
  py_assert
    ((bool_decide (ref_yuv_type asset = "notyuv")
      || bool_decide (dis_yuv_type asset = "notyuv"))
     || bool_decide (ref_yuv_type asset = dis_yuv_type asset)) "";;
  (if is_not_None (crop_cmd asset)
   then py_assert (explicit_quality_size asset) crop_msg else mret tt);;
  (if is_not_None (pad_cmd asset)
   then py_assert (explicit_quality_size asset) pad_msg else mret tt).

(** [NorefExecutorMixin._assert_an_asset] (lines 654-670). *)
Definition Noref_assert_an_asset (cls : ExecutorClass) (asset : Asset)
  : outcome unit :=
  py_assert (is_not_None (quality_width_height asset)) "";;
  (if resolve cls _need_ffmpeg Noref_need_ffmpeg asset
   then get_and_assert_ffmpeg;; mret tt else mret tt);;
  (if is_not_None (crop_cmd asset)
   then py_assert (explicit_quality_size asset) crop_msg else mret tt);;
  (if is_not_None (pad_cmd asset)
   then py_assert (explicit_quality_size asset) pad_msg else mret tt).

(** [Executor._assert_assets] (lines 143-148): the loop over [self.assets]. *)
Fixpoint _assert_assets (cls : ExecutorClass) (assets : list Asset)
  : outcome unit :=
  match assets with
  | [] => mret tt
  | asset :: rest =>
      resolve cls _assert_an_asset Noref_assert_an_asset cls asset;;
      _assert_assets cls rest
  end.

(** [Executor.__init__] (lines 40-70); [_assert_class], [_assert_args] and
    [_custom_init] do nothing. *)
Definition __init__ (cls : ExecutorClass) (assets : list Asset) (logger : bool)
    (fifo_mode delete_workdir result_store : bool)
    (optional_dict optional_dict2 : option pydict) : outcome Executor :=
  let self :=
    {| cls := cls; assets := assets; logger := logger;
       fifo_mode := fifo_mode; delete_workdir := delete_workdir;
       results := []; result_store := result_store;
       optional_dict := optional_dict; optional_dict2 := optional_dict2 |} in
  _assert_assets cls assets;;
  mret self.

(** ** The per-asset lock registry *)

(** A [multiprocessing.Lock()] object, identified by its allocation number. *)
Abbreviation lock := nat.

Record registry := Registry {
  map_asset_lock : gmap string lock;
  locks : list lock;
  allocated : nat;
}.

(** The body of the loop at lines 104-108 (and 602-606). *)
Definition add_lock (r : registry) (asset : Asset) : outcome registry :=
  let asset_str_ := asset_str asset in
  let '(map_asset_lock_, allocated_) :=
    if bool_decide (asset_str_ ∉ dom (map_asset_lock r))
    then (<[asset_str_ := allocated r]> (map_asset_lock r), S (allocated r))
    else (map_asset_lock r, allocated r) in
  match map_asset_lock_ !! asset_str_ with
  | Some l => Return (Registry map_asset_lock_ (locks r ++ [l]) allocated_)
  | None => Raise (KeyError asset_str_)
  end.

Fixpoint add_locks (r : registry) (assets : list Asset) : outcome registry :=
  match assets with
  | [] => Return r
  | asset :: rest => r' ← add_lock r asset; add_locks r' rest
  end.

Definition create_locks (assets : list Asset) : outcome registry :=
  add_locks (Registry ∅ [] 0) assets.

(** [list_args] of [Executor.run] (lines 100-114): each asset with its lock. *)
Definition run_list_args (self : Executor) : outcome (list (Asset * lock)) :=
  r ← create_locks (assets self);
  mret (zip (assets self) (locks r)).

(** [run_executors_in_parallel] up to its [list_args] (lines 573-613): an
    executor is constructed for the sake of its validation (with
    [delete_workdir=True]), then the locks are created; of each entry of
    [list_args] the asset and the lock are kept. *)
Definition run_executors_in_parallel_list_args (executor_class : ExecutorClass)
    (assets : list Asset) (fifo_mode delete_workdir logger result_store : bool)
    (optional_dict optional_dict2 : option pydict)
  : outcome (list (Asset * lock)) :=
  __init__ executor_class assets logger fifo_mode true result_store
    optional_dict optional_dict2;;
  r ← create_locks assets;
  mret (zip assets (locks r)).

End executor.

Section workfiles.
Context `{Environment}.

(** Tuple unpacking [x, y = t]: a [TypeError] when [t] is [None]. *)
Definition unpack {A} (t : option A) : outcome A :=
  match t with
  | Some v => Return v
  | None => Raise TypeError
  end.

(** ** Building the transcoder command *)

Definition _get_resampling_type (asset : Asset) : string :=
  resampling_type asset.

Definition _get_quality_width_height (asset : Asset) : option (Z * Z) :=
  quality_width_height asset.

(** [Executor._get_yuv_src_fmt_cmd] (lines 490-500). *)
Definition _get_yuv_src_fmt_cmd (asset : Asset) (height width : Z)
    (ref_or_dis : string) : outcome string :=
  yuv_type ←
    (if bool_decide (ref_or_dis = "ref") then Return (ref_yuv_type asset)
     else if bool_decide (ref_or_dis = "dis") then Return (dis_yuv_type asset)
     else Raise (AssertionError ("Unknown ref_or_dis: " +:+ ref_or_dis)));
  mret ("-f rawvideo -pix_fmt " +:+ yuv_type +:+ " -s "
        +:+ pretty width +:+ "x" +:+ pretty height).

(** [Executor._get_notyuv_src_fmt_cmd] (lines 502-515). *)
Definition _get_notyuv_src_fmt_cmd (asset : Asset) (ref_or_dis : string)
  : outcome string :=
  path ←
    (if bool_decide (ref_or_dis = "ref") then Return (ref_path asset)
     else if bool_decide (ref_or_dis = "dis") then Return (dis_path asset)
     else Raise (AssertionError ("ref_or_dis cannot be " +:+ ref_or_dis)));
  if bool_decide ("icpf" = get_file_name_extension path)
     || bool_decide ("j2c" = get_file_name_extension path)
  then mret "-start_number_range 2147483647"
  else mret "".

(** [Executor._get_crop_cmd] and [Executor._get_pad_cmd] (lines 517-525). *)
Definition _get_crop_cmd (asset : Asset) : string :=
  match crop_cmd asset with
  | Some c => "crop=" +:+ c +:+ ","
  | None => ""
  end.

Definition _get_pad_cmd (asset : Asset) : string :=
  match pad_cmd asset with
  | Some p => "pad=" +:+ p +:+ ","
  | None => ""
  end.

(** [Executor._get_vframes_cmd] (lines 527-542). *)
Definition _get_vframes_cmd (asset : Asset) (ref_or_dis : string)
  : outcome (string * string) :=
  start_end_frame ←
    (if bool_decide (ref_or_dis = "ref") then Return (ref_start_end_frame asset)
     else if bool_decide (ref_or_dis = "dis")
          then Return (dis_start_end_frame asset)
     else Raise (AssertionError ("Unknown ref_or_dis: " +:+ ref_or_dis)));
  match start_end_frame with
  | None => mret ("", "")
  | Some (start_frame, end_frame) =>
      let num_frames := end_frame - start_frame + 1 in
      mret ("-vframes " +:+ pretty num_frames,
            "select='gte(n\," +:+ pretty start_frame +:+ ")*gte("
            +:+ pretty end_frame +:+ "\,n)',setpts=PTS-STARTPTS,")
  end.

(** The command template of lines 413-415 and 465-467, filled in. *)
Definition ffmpeg_cmd_format (ffmpeg src_fmt_cmd src yuv_type vframes_cmd
    select_cmd crop_cmd pad_cmd : string) (width height : Z)
    (resampling_type dst : string) : string :=
  ffmpeg +:+ " " +:+ src_fmt_cmd +:+ " -i " +:+ src +:+ " -an -vsync 0 "
  +:+ "-pix_fmt " +:+ yuv_type +:+ " " +:+ vframes_cmd +:+ " -vf "
  +:+ select_cmd +:+ crop_cmd +:+ pad_cmd +:+ "scale=" +:+ pretty width
  +:+ "x" +:+ pretty height +:+ " -f rawvideo "
  +:+ "-sws_flags " +:+ resampling_type +:+ " -y " +:+ dst.

(** ** Opening workfiles *)

(** [Executor._open_ref_workfile] (lines 384-434). *)
Definition _open_ref_workfile (self : Executor) (fifo_mode : bool) : M unit :=
  emit (EvCall "_open_ref_workfile");;
  asset ← get_asset;
  lift (py_assert (negb (use_path_as_workpath asset)
                   && bool_decide (ref_path asset ≠ ref_workfile_path asset))
          "");;
  when fifo_mode (os_mkfifo (ref_workfile_path asset));;
  quality ← lift (unpack (_get_quality_width_height asset));
  let yuv_type := ref_yuv_type asset in
  let resampling_type := _get_resampling_type asset in
  src_fmt_cmd ← lift
    (if bool_decide (yuv_type ≠ "notyuv") then
       size ← unpack (ref_width_height asset);
       _get_yuv_src_fmt_cmd asset (size : Z * Z).2 size.1 "ref"
     else _get_notyuv_src_fmt_cmd asset "ref");
  workfile_yuv_type ← lift
    (resolve (cls self) _get_workfile_yuv_type Noref_get_workfile_yuv_type
       asset);
  let crop_cmd := _get_crop_cmd asset in
  let pad_cmd := _get_pad_cmd asset in
  vframes ← lift (_get_vframes_cmd asset "ref");
  ffmpeg ← lift get_and_assert_ffmpeg;
  let ffmpeg_cmd :=
    ffmpeg_cmd_format ffmpeg src_fmt_cmd (ref_path asset) workfile_yuv_type
      (vframes : string * string).1 vframes.2 crop_cmd pad_cmd
      (quality : Z * Z).1 quality.2 resampling_type
      (ref_workfile_path asset) in
  when (logger self) (emit (EvInfo ffmpeg_cmd));;
  call_run_process ffmpeg_cmd.

(** [Executor._open_dis_workfile] (lines 436-482). *)
Definition _open_dis_workfile (self : Executor) (fifo_mode : bool) : M unit :=
  emit (EvCall "_open_dis_workfile");;
  asset ← get_asset;
  lift (py_assert (negb (use_path_as_workpath asset)
                   && bool_decide (dis_path asset ≠ dis_workfile_path asset))
          "");;
  when fifo_mode (os_mkfifo (dis_workfile_path asset));;
  quality ← lift (unpack (_get_quality_width_height asset));
  let yuv_type := dis_yuv_type asset in
  let resampling_type := _get_resampling_type asset in
  src_fmt_cmd ← lift
    (if bool_decide (yuv_type ≠ "notyuv") then
       size ← unpack (dis_width_height asset);
       _get_yuv_src_fmt_cmd asset (size : Z * Z).2 size.1 "dis"
     else _get_notyuv_src_fmt_cmd asset "dis");
  workfile_yuv_type ← lift
    (resolve (cls self) _get_workfile_yuv_type Noref_get_workfile_yuv_type
       asset);
  let crop_cmd := _get_crop_cmd asset in
  let pad_cmd := _get_pad_cmd asset in
  vframes ← lift (_get_vframes_cmd asset "dis");
  ffmpeg ← lift get_and_assert_ffmpeg;
  let ffmpeg_cmd :=
    ffmpeg_cmd_format ffmpeg src_fmt_cmd (dis_path asset) workfile_yuv_type
      (vframes : string * string).1 vframes.2 crop_cmd pad_cmd
      (quality : Z * Z).1 quality.2 resampling_type
      (dis_workfile_path asset) in
  when (logger self) (emit (EvInfo ffmpeg_cmd));;
  call_run_process ffmpeg_cmd.

(** [Executor.open_workfiles] (lines 336-338). *)
Definition open_workfiles (self : Executor) : M unit :=
  _open_ref_workfile self false;;
  _open_dis_workfile self false.

(** [NorefExecutorMixin.open_workfiles] (lines 698-699). *)
Definition Noref_open_workfiles (self : Executor) : M unit :=
  _open_dis_workfile self false.

(** ** Waiting for the pipes *)

(** [for i in range(n): if ready: break / sleep(0.1)]; the value tells
    whether the loop was left through [break]. *)
Fixpoint poll (n : nat) (ready : M bool) : M bool :=
  match n with
  | O => mret false
  | S n' =>
      b ← ready;
      if (b : bool) then mret true else sleep 100;; poll n' ready
  end.

Definition missing_msg (asset : Asset) : string :=
  "ref or dis video workfile path " +:+ ref_workfile_path asset +:+ " or "
  +:+ dis_workfile_path asset +:+ " is missing.".

Definition Noref_missing_msg (asset : Asset) : string :=
  "dis video workfile path " +:+ dis_workfile_path asset +:+ " is missing.".

(** [Executor._wait_for_workfiles] (lines 209-217). *)
Definition _wait_for_workfiles : M unit :=
  emit (EvCall "_wait_for_workfiles");;
  asset ← get_asset;
  found ← poll 10
    (r ← exists_ (ref_workfile_path asset);
     if (r : bool) then exists_ (dis_workfile_path asset) else mret false);
  if (found : bool) then mret tt
  else raise (RuntimeError (missing_msg asset)).

(** [NorefExecutorMixin._wait_for_workfiles] (lines 682-691). *)
Definition Noref_wait_for_workfiles : M unit :=
  emit (EvCall "_wait_for_workfiles");;
  asset ← get_asset;
  found ← poll 10 (exists_ (dis_workfile_path asset));
  if (found : bool) then mret tt
  else raise (RuntimeError (Noref_missing_msg asset)).

(** [Executor._open_workfiles_in_fifo_mode] (lines 340-347). *)
Definition _open_workfiles_in_fifo_mode (self : Executor) : M unit :=
  asset ← get_asset;
  process_start (OpenRefWorkfile asset);;
  process_start (OpenDisWorkfile asset);;
  resolve (cls self) _wait_for_workfiles Noref_wait_for_workfiles.

(** [NorefExecutorMixin._open_workfiles_in_fifo_mode] (lines 701-705). *)
Definition Noref_open_workfiles_in_fifo_mode (self : Executor) : M unit :=
  asset ← get_asset;
  process_start (OpenDisWorkfile asset);;
  resolve (cls self) _wait_for_workfiles Noref_wait_for_workfiles.

(** ** Closing workfiles *)

(** [Executor._close_ref_workfile] (lines 544-552). *)
Definition _close_ref_workfile : M unit :=
  emit (EvCall "_close_ref_workfile");;
  asset ← get_asset;
  lift (py_assert (negb (use_path_as_workpath asset)
                   && bool_decide (ref_path asset ≠ ref_workfile_path asset))
          "");;
  b ← exists_ (ref_workfile_path asset);
  when b (os_remove (ref_workfile_path asset)).

(** [Executor._close_dis_workfile] (lines 554-562). *)
Definition _close_dis_workfile : M unit :=
  emit (EvCall "_close_dis_workfile");;
  asset ← get_asset;
  lift (py_assert (negb (use_path_as_workpath asset)
                   && bool_decide (dis_path asset ≠ dis_workfile_path asset))
          "");;
  b ← exists_ (dis_workfile_path asset);
  when b (os_remove (dis_workfile_path asset)).

(** [Executor._close_workfiles] (lines 349-352). *)
Definition _close_workfiles : M unit :=
  _close_ref_workfile;;
  _close_dis_workfile.

(** [NorefExecutorMixin._close_workfiles] (lines 707-710). *)
Definition Noref_close_workfiles : M unit :=
  _close_dis_workfile.

(** [Executor._refresh_workfiles_before_additional_pass] (lines 354-359). *)
Definition _refresh_workfiles_before_additional_pass (self : Executor)
  : M unit :=
  asset ← get_asset;
  when (fifo_mode self && negb (use_path_as_workpath asset))
    (resolve (cls self) _close_workfiles Noref_close_workfiles;;
     resolve (cls self) _open_workfiles_in_fifo_mode
       Noref_open_workfiles_in_fifo_mode self).

End workfiles.

Section orchestrator.
Context `{Environment}.

Definition newline : string := String (ascii_of_nat 10) EmptyString.

(** [Executor._get_log_file_path] (lines 377-380). *)
Definition _get_log_file_path (self : Executor) : M string :=
  asset ← get_asset;
  mret (workdir asset +:+ "/" +:+ executor_id self +:+ "_"
        +:+ sha1_hexdigest (asset_str asset)).

(** [Executor._prepare_log_file] (lines 219-229). *)
Definition _prepare_log_file (self : Executor) : M unit :=
  emit (EvCall "_prepare_log_file");;
  log_file_path ← _get_log_file_path self;
  make_parent_dirs_if_nonexist log_file_path;;
  open_write log_file_path
    (get_cozy_type_version_string (TYPE (cls self)) (VERSION (cls self))
     +:+ newline +:+ newline).

(** [Executor._assert_paths] (lines 231-235). *)
Definition _assert_paths : M unit :=
  emit (EvCall "_assert_paths");;
  asset ← get_asset;
  m ← get_fs;
  lift (py_assert (os_path_exists m (ref_path asset)
                   || match_any_files (ref_path asset) m)
          ("Reference path " +:+ ref_path asset +:+ " does not exist."));;
  lift (py_assert (os_path_exists m (dis_path asset)
                   || match_any_files (dis_path asset) m)
          ("Distorted path " +:+ dis_path asset +:+ " does not exist.")).

(** [NorefExecutorMixin._assert_paths] (lines 693-696). *)
Definition Noref_assert_paths : M unit :=
  emit (EvCall "_assert_paths");;
  asset ← get_asset;
  m ← get_fs;
  lift (py_assert (os_path_exists m (dis_path asset)
                   || match_any_files (dis_path asset) m)
          ("Distorted path " +:+ dis_path asset +:+ " does not exist.")).

(** [Executor._set_asset_use_path_as_workpath] (lines 365-370). *)
Definition _set_asset_use_path_as_workpath (cls : ExecutorClass) : M unit :=
  emit (EvCall "_set_asset_use_path_as_workpath");;
  asset ← get_asset;
  when (negb (resolve cls _need_ffmpeg Noref_need_ffmpeg asset))
    (modify (set_asset (set_use_path_as_workpath true asset))).

(** [Executor._save_result] (lines 361-363). *)
Definition _save_result (self : Executor) (result : Result) : M Result :=
  emit (EvCall "_save_result");;
  emit EvSave;;
  modify (λ s, set_store (store_save result (store s)) s);;
  mret result.

(** [Executor._remove_log] (lines 564-567). *)
Definition _remove_log (self : Executor) : M unit :=
  emit (EvCall "_remove_log");;
  log_file_path ← _get_log_file_path self;
  b ← exists_ log_file_path;
  when b (os_remove log_file_path).

(** [Executor._remove_result] (lines 569-571). *)
Definition _remove_result (self : Executor) : M unit :=
  asset ← get_asset;
  when (result_store self)
    (modify (λ s, set_store (store_delete asset (executor_id self) (store s)) s)).

(** The hooks, entered through [self]. *)
Definition call_generate_result (self : Executor) : M unit :=
  emit (EvCall "_generate_result");;
  asset ← get_asset;
  fs_call (_generate_result (cls self) asset).

Definition call_read_result (self : Executor) : M Result :=
  emit (EvCall "_read_result");;
  asset ← get_asset;
  fs_call (_read_result (cls self) asset).

Definition call_post_process_result (self : Executor) (result : Result)
  : M Result :=
  emit (EvCall "_post_process_result");;
  lift (_post_process_result (cls self) result).

(** The except clause of lines 323-330: [except OSError as e:] with the
    body [if e.errno == 39: pass]. *)
Definition rmdir_handler (e : exn) : option (M unit) :=
  match e with
  | OSError errno => Some (when (bool_decide (errno = 39)) (mret tt))
  | _ => None
  end.

Definition exists_msg (id : string) : string :=
  id +:+ " result exists. Skip " +:+ id +:+ " run.".
Definition missing_result_msg (id : string) : string :=
  id +:+ " result does't exist. Perform " +:+ id +:+ " calculation.".
Definition read_msg (id : string) : string :=
  "Read " +:+ id +:+ " log file, get scores...".

(** [Executor._run_on_asset] (lines 237-334). *)
Definition _run_on_asset (self : Executor) : M Result :=
  asset ← get_asset;
  result ←
    (if result_store self then
       emit (EvLoad (executor_id self));;
       st ← get_store;
       mret (store_load asset (executor_id self) st)
     else mret None);
  result ←
    match result with
    | Some result =>
        when (logger self) (emit (EvInfo (exists_msg (executor_id self))));;
        mret result
    | None =>
        when (logger self)
          (emit (EvInfo (missing_result_msg (executor_id self))));;
        resolve (cls self) _assert_paths Noref_assert_paths;;
        _set_asset_use_path_as_workpath (cls self);;
        asset ← get_asset;
        (if use_path_as_workpath asset then mret tt
         else resolve (cls self) _close_workfiles Noref_close_workfiles);;
        log_file_path ← _get_log_file_path self;
        make_parent_dirs_if_nonexist log_file_path;;
        asset ← get_asset;
        (if use_path_as_workpath asset then mret tt
         else if fifo_mode self then
           resolve (cls self) _open_workfiles_in_fifo_mode
             Noref_open_workfiles_in_fifo_mode self
         else resolve (cls self) open_workfiles Noref_open_workfiles self);;
        _prepare_log_file self;;
        call_generate_result self;;
        when (delete_workdir self)
          (asset ← get_asset;
           if use_path_as_workpath asset then mret tt
           else resolve (cls self) _close_workfiles Noref_close_workfiles);;
        when (logger self) (emit (EvInfo (read_msg (executor_id self))));;
        result ← call_read_result self;
        result ←
          (if result_store self then _save_result self result
           else mret result);
        when (delete_workdir self)
          (_remove_log self;;
           log_file_path ← _get_log_file_path self;
           let log_dir := get_dir_without_last_slash log_file_path in
           try_except (os_rmdir log_dir) rmdir_handler);;
        mret result
    end;
  call_post_process_result self result.

End orchestrator.

Section removal.
Context `{Environment}.

(** [Executor.remove_results] (lines 127-134): the loop over
    [self.assets]; each asset in turn is the one at hand. *)
Fixpoint remove_results_from (self : Executor) (assets : list Asset)
  : M unit :=
  match assets with
  | [] => mret tt
  | asset :: rest =>
      modify (set_asset asset);;
      _remove_result self;;
      remove_results_from self rest
  end.

Definition remove_results (self : Executor) : M unit :=
  remove_results_from self (assets self).

End removal.

(** ** Observations on runs *)

(** Two parameter dictionaries with the same entries. *)
Definition same_dict (d1 d2 : option pydict) : Prop :=
  match d1, d2 with
  | Some l1, Some l2 => l1 ≡ₚ l2
  | None, None => True
  | _, _ => False
  end.

Definition keys_distinct (d : option pydict) : Prop :=
  match d with
  | Some l => NoDup l.*1
  | None => True
  end.

Definition assertion_failure {A} (o : outcome A) : Prop :=
  ∃ msg, o = Raise (AssertionError msg).

(** Locks in the registry were allocated, and no lock serves two strings. *)
Definition registry_ok (r : registry) : Prop :=
  (∀ k l, map_asset_lock r !! k = Some l → (l < allocated r)%nat)
  ∧ (∀ k1 k2 l, map_asset_lock r !! k1 = Some l →
       map_asset_lock r !! k2 = Some l → k1 = k2).

(** [r'] has every entry of [r]. *)
Definition registry_extends (r r' : registry) : Prop :=
  ∀ k l, map_asset_lock r !! k = Some l → map_asset_lock r' !! k = Some l.

Section observations.
Context `{Environment}.

(** The transcoder lookup either succeeds or fails an assertion. *)
Definition ffmpeg_lookup_asserts : Prop :=
  ∀ e, get_and_assert_ffmpeg = Raise e → ∃ msg, e = AssertionError msg.

(** What a cache hit leaves in the call log. *)
Definition hit_events (self : Executor) : list event :=
  [EvLoad (executor_id self)]
  ++ (if logger self then [EvInfo (exists_msg (executor_id self))] else [])
  ++ [EvCall "_post_process_result"].

(** The steps a run performs on a miss, by the name they are logged under
    (validation is logged by no run: it belongs to the constructor). *)
Definition miss_steps : list string :=
  ["_assert_an_asset"; "_assert_paths"; "_set_asset_use_path_as_workpath";
   "_close_ref_workfile"; "_close_dis_workfile"; "_open_ref_workfile";
   "_open_dis_workfile"; "_wait_for_workfiles"; "_prepare_log_file";
   "_generate_result"; "_read_result"; "_save_result"; "_remove_log"].

(** Creation or teardown of a workfile or pipe. *)
Definition is_workfile_event (e : event) : bool :=
  match e with
  | EvCall m =>
      bool_decide (m ∈ ["_open_ref_workfile"; "_open_dis_workfile";
                        "_close_ref_workfile"; "_close_dis_workfile";
                        "_wait_for_workfiles"])
  | EvMkfifo _ | EvStart _ | EvRunProcess _ => true
  | _ => false
  end.

Definition any_event (e : event) : Prop := True.
Definition not_workfile (e : event) : Prop := is_workfile_event e = false.

Definition not_save (e : event) : Prop := e ≠ EvSave.

(** No workfile event unless the asset object [ob] has its
    use-path-as-workpath flag unset. *)
Definition guarded (ob : Asset) (e : event) : Prop :=
  use_path_as_workpath ob = true → is_workfile_event e = false.

(** A store that hands back what was saved, under the asset and executor
    id of the saved result. *)
Definition lawful_store : Prop :=
  ∀ (r : Result) (st : ResultStore),
    store_load (result_asset r) (result_executor_id r) (store_save r st)
    = Some r.

(** A read hook that files its results under the asset it was given and
    the executor's own id. *)
Definition read_hook_tags (self : Executor) : Prop :=
  ∀ (a : Asset) (m m' : FS) (r : Result),
    _read_result (cls self) a m = (m', Return r) →
    result_asset r = a ∧ result_executor_id r = executor_id self.

(** The state after [k] sleeps of 100 ms. *)
Definition after_sleeps (k : nat) (s : state) : state :=
  Nat.iter k (λ s, (sleep 100 s).1) s.

Definition both_present (a : Asset) (m : FS) : bool :=
  os_path_exists m (ref_workfile_path a)
  && os_path_exists m (dis_workfile_path a).

(** What [_wait_for_workfiles] of the class polls for, the message of its
    timeout, and the producers its fifo mode starts. *)
Definition pipes_ready (cls : ExecutorClass) (a : Asset) (m : FS) : bool :=
  if noref cls then os_path_exists m (dis_workfile_path a)
  else both_present a m.

Definition timeout_msg (cls : ExecutorClass) (a : Asset) : string :=
  if noref cls then Noref_missing_msg a else missing_msg a.

Definition producers (cls : ExecutorClass) (a : Asset) : list child :=
  if noref cls then [OpenDisWorkfile a]
  else [OpenRefWorkfile a; OpenDisWorkfile a].

(** The state in which the polling loop is entered, when the producers
    are started in state [s]. *)
Definition polling_start (cls : ExecutorClass) (s : state) : state :=
  set_trace (trace s ++ (EvStart <$> producers cls (asset s))
               ++ [EvCall "_wait_for_workfiles"])
    (set_children (children s ++ producers cls (asset s)) s).

(** The state of a run on a miss, once the lookup is logged. *)
Definition after_lookup (self : Executor) (s : state) : state :=
  set_trace
    (trace s
     ++ (if result_store self then [EvLoad (executor_id self)] else [])
     ++ (if logger self
         then [EvInfo (missing_result_msg (executor_id self))] else []))
    s.

(** The result store, if any, has nothing for the asset of [s]. *)
Definition cache_miss (self : Executor) (s : state) : Prop :=
  result_store self = true →
  store_load (asset s) (executor_id self) (store s) = None.

(** The log artifact of asset [a]. *)
Definition log_file_path_of (self : Executor) (a : Asset) : string :=
  workdir a +:+ "/" +:+ executor_id self +:+ "_"
  +:+ sha1_hexdigest (asset_str a).

(** [m'] is [m], or [m] without its entry at [p]. *)
Definition deletes_at_most (p : string) (m m' : FS) : Prop :=
  m' = m ∨ (is_Some (m !! p) ∧ m' = delete p m).

(** The shape shared by [_close_ref_workfile] and [_close_dis_workfile]:
    the same steps on the source path [src] and the workfile path [wf] of
    one side, logged under [name]. *)
Definition close_side (name : string) (src wf : Asset → string) : M unit :=
  emit (EvCall name);;
  asset ← get_asset;
  lift (py_assert (negb (use_path_as_workpath asset)
                   && bool_decide (src asset ≠ wf asset)) "");;
  b ← exists_ (wf asset);
  when b (os_remove (wf asset)).

(** What teardown of one side does to state [s]: the assertion that the
    flag is unset and the workfile path is not the source path comes
    first; only when it passes, and the workfile path exists, is that
    path (and nothing else) removed. *)
Definition teardown_spec (name : string) (src wf : Asset → string)
    (close : M unit) (s : state) : Prop :=
  let a := asset s in
  deletes_at_most (wf a) (fs s) (fs (close s).1)
  ∧ fs (close s).1 !! src a = fs s !! src a
  ∧ (use_path_as_workpath a = true ∨ src a = wf a →
     close s = (set_trace (trace s ++ [EvCall name]) s,
                Raise (AssertionError "")))
  ∧ (use_path_as_workpath a = false → src a ≠ wf a → fs s !! wf a = None →
     close s = (set_trace (trace s ++ [EvCall name]) s, Return tt)).

(** [m], started in [s], ends in a state and outcome that satisfy [Q]. *)
Definition wp {A} (m : M A) (Q : state → outcome A → Prop) (s : state)
  : Prop :=
  Q (m s).1 (m s).2.

(** From any state whose asset object is [a0], [m] leaves that object as it
    is and logs only events that satisfy [Q]. *)
Definition holds {A} (a0 : Asset) (Q : event → Prop) (m : M A) : Prop :=
  ∀ s, asset s = a0 →
    asset (m s).1 = a0
    ∧ ∃ evs, trace (m s).1 = trace s ++ evs ∧ Forall Q evs.

(** [m] changes neither the asset object nor the result store. *)
Definition keeps {A} (m : M A) : Prop :=
  ∀ s, asset (m s).1 = asset s ∧ store (m s).1 = store s.

(** [m], started in [s], extends the call log, and with no workfile event
    when it leaves the asset object with its flag set. *)
Definition run_quiet {A} (m : M A) (s : state) : Prop :=
  ∃ evs, trace (m s).1 = trace s ++ evs
    ∧ (use_path_as_workpath (asset (m s).1) = true →
       Forall not_workfile evs).

(** The state holds a result for its asset under [id]. *)
Definition cached (id : string) (s : state) : Prop :=
  is_Some (store_load (asset s) id (store s)).

End observations.

(** ** Further observations on runs *)

Section frames.
Context `{Environment}.

(** [os.path.exists(p) or match_any_files(p)] *)
Definition source_present (p : string) (m : FS) : bool :=
  os_path_exists m p || match_any_files p m.

(** The state in which a run that fails its path assertion ends. *)
Definition after_assert_paths (self : Executor) (s : state) : state :=
  set_trace (trace (after_lookup self s) ++ [EvCall "_assert_paths"]) s.

(** [m], started in [s], leaves the asset object as it is but for its
    use-path-as-workpath flag, which it may set. *)
Definition marks {A} (m : M A) (s : state) : Prop :=
  asset (m s).1 = asset s
  ∨ asset (m s).1 = set_use_path_as_workpath true (asset s).

(** [m] leaves the result store as it is. *)
Definition keeps_store {A} (m : M A) : Prop :=
  ∀ s, store (m s).1 = store s.

(** [m] logs only events that satisfy [Q]. *)
Definition logs {A} (Q : event → Prop) (m : M A) : Prop :=
  ∀ s, ∃ evs, trace (m s).1 = trace s ++ evs ∧ Forall Q evs.

(** Neither the removal of a log file nor that of a directory. *)
Definition not_log_removal (e : event) : Prop :=
  e ≠ EvCall "_remove_log" ∧ ∀ d, e ≠ EvRmdir d.

(** A store whose [delete] removes the entry it is asked to remove and
    adds none. *)
Definition store_forgets : Prop :=
  (∀ (a : Asset) (id : string) (st : ResultStore),
     store_load a id (store_delete a id st) = None)
  ∧ (∀ (a a' : Asset) (id id' : string) (st : ResultStore),
       store_load a id st = None →
       store_load a id (store_delete a' id' st) = None).

(** The shape shared by [_open_ref_workfile] and [_open_dis_workfile]: the
    same steps on the source path [src], the workfile path [wf], the pixel
    format [yuv] and the native size [size] of one side, which the
    command builders know as [side], logged under [name]. *)
Definition open_side (name side : string) (src wf yuv : Asset → string)
    (size : Asset → option (Z * Z)) (self : Executor) (fifo_mode : bool)
  : M unit :=
  emit (EvCall name);;
  asset ← get_asset;
  lift (py_assert (negb (use_path_as_workpath asset)
                   && bool_decide (src asset ≠ wf asset)) "");;
  when fifo_mode (os_mkfifo (wf asset));;
  quality ← lift (unpack (_get_quality_width_height asset));
  let yuv_type := yuv asset in
  let resampling_type := _get_resampling_type asset in
  src_fmt_cmd ← lift
    (if bool_decide (yuv_type ≠ "notyuv") then
       size ← unpack (size asset);
       _get_yuv_src_fmt_cmd asset (size : Z * Z).2 size.1 side
     else _get_notyuv_src_fmt_cmd asset side);
  workfile_yuv_type ← lift
    (resolve (cls self) _get_workfile_yuv_type Noref_get_workfile_yuv_type
       asset);
  let crop_cmd := _get_crop_cmd asset in
  let pad_cmd := _get_pad_cmd asset in
  vframes ← lift (_get_vframes_cmd asset side);
  ffmpeg ← lift get_and_assert_ffmpeg;
  let ffmpeg_cmd :=
    ffmpeg_cmd_format ffmpeg src_fmt_cmd (src asset) workfile_yuv_type
      (vframes : string * string).1 vframes.2 crop_cmd pad_cmd
      (quality : Z * Z).1 quality.2 resampling_type (wf asset) in
  when (logger self) (emit (EvInfo ffmpeg_cmd));;
  call_run_process ffmpeg_cmd.

(** If [e] is a transcoder command, it reads [src], writes to [dst], which
    is another path, and scales to the quality size of [a] with its
    crop, pad and resampling settings. *)
Definition transcodes (src dst : string) (a : Asset) (e : event) : Prop :=
  ∀ cmd, e = EvRunProcess cmd →
    src ≠ dst
    ∧ ∃ ffmpeg src_fmt_cmd yuv_type vframes_cmd select_cmd width height,
        quality_width_height a = Some (width, height)
        ∧ cmd = ffmpeg_cmd_format ffmpeg src_fmt_cmd src yuv_type
                  vframes_cmd select_cmd (_get_crop_cmd a) (_get_pad_cmd a)
                  width height (resampling_type a) dst.

(** The asset object is that of [s0], and the call log that of [s0]
    extended by events that satisfy [Q]. *)
Definition since (s0 : state) (Q : event → Prop) (s1 : state) : Prop :=
  asset s1 = asset s0 ∧ ∃ evs, trace s1 = trace s0 ++ evs ∧ Forall Q evs.

End frames.

(** ** A concrete environment, assets and executors *)

Module Scenario.

Record scores := Scores {
  sc_asset : Asset;
  sc_executor_id : string;
  sc_vmaf : Z;
}.

(** The collaborators, with the writable directories and the behaviour of
    the concurrently running processes left open. *)
Definition env (writable : string → bool)
    (bg : Z → list child → FS → FS) : Environment :=
  {| asset_str a := ref_path a +:+ "_vs_" +:+ dis_path a;
     sha1_hexdigest _ := "0beec7b5";
     get_type_version_string t v := t +:+ "_V" +:+ v;
     get_cozy_type_version_string t v := t +:+ " VERSION " +:+ v;
     get_and_assert_ffmpeg := Return "ffmpeg";
     match_any_files _ _ := false;
     get_file_name_extension _ := "yuv";
     run_process cmd m := (m, Return tt);
     Result := scores;
     result_asset := sc_asset;
     result_executor_id := sc_executor_id;
     ResultStore := gmap (string * string) scores;
     store_load a id st := st !! (ref_path a +:+ "_vs_" +:+ dis_path a, id);
     store_save r st :=
       <[(ref_path (sc_asset r) +:+ "_vs_" +:+ dis_path (sc_asset r),
          sc_executor_id r) := r]> st;
     store_delete a id st :=
       delete (ref_path a +:+ "_vs_" +:+ dis_path a, id) st;
     may_write := writable;
     background := bg |}.

(** Everything writable; producers that never create their pipes. *)
Definition env_idle : Environment := env (λ _, true) (λ _ _ m, m).

(** Producers that create their pipe during the first sleep they get. *)
Definition make_pipes (cs : list child) (m : FS) : FS :=
  foldr (λ c m, match c with
                | OpenRefWorkfile a => <[ref_workfile_path a := Fifo]> m
                | OpenDisWorkfile a => <[dis_workfile_path a := Fifo]> m
                end) m cs.
Definition env_pipes : Environment := env (λ _, true) (λ _ cs m, make_pipes cs m).

(** The directory [ro] may not be modified. *)
Definition env_ro : Environment :=
  env (λ d, bool_decide (d ≠ "ro")) (λ _ _ m, m).

(** A 1080p pair scored at 540p: transcoding is needed. *)
Definition scaled : Asset :=
  {| asset_dict := ∅; workdir := "w";
     ref_path := "ref.yuv"; dis_path := "dis.yuv";
     ref_workfile_path := "w/ref"; dis_workfile_path := "w/dis";
     ref_width_height := Some (1920, 1080);
     dis_width_height := Some (1920, 1080);
     quality_width_height := Some (960, 540);
     ref_yuv_type := "yuv420p"; dis_yuv_type := "yuv420p";
     workfile_yuv_type := "yuv420p";
     ref_start_end_frame := None; dis_start_end_frame := None;
     crop_cmd := None; pad_cmd := None; resampling_type := "bicubic";
     use_path_as_workpath := false |}.

(** The same pair scored at its native size: nothing to transcode. *)
Definition native : Asset :=
  {| asset_dict := ∅; workdir := "w";
     ref_path := "ref.yuv"; dis_path := "dis.yuv";
     ref_workfile_path := "w/ref"; dis_workfile_path := "w/dis";
     ref_width_height := Some (1920, 1080);
     dis_width_height := Some (1920, 1080);
     quality_width_height := Some (1920, 1080);
     ref_yuv_type := "yuv420p"; dis_yuv_type := "yuv420p";
     workfile_yuv_type := "yuv420p";
     ref_start_end_frame := None; dis_start_end_frame := None;
     crop_cmd := None; pad_cmd := None; resampling_type := "bicubic";
     use_path_as_workpath := false |}.

(** A crop without explicit quality_width and quality_height. *)
Definition cropped : Asset :=
  {| asset_dict := {["width" := PyInt 1920]}; workdir := "w";
     ref_path := "ref.yuv"; dis_path := "dis.yuv";
     ref_workfile_path := "w/ref"; dis_workfile_path := "w/dis";
     ref_width_height := Some (1920, 1080);
     dis_width_height := Some (1920, 1080);
     quality_width_height := Some (1920, 1080);
     ref_yuv_type := "yuv420p"; dis_yuv_type := "yuv420p";
     workfile_yuv_type := "yuv420p";
     ref_start_end_frame := None; dis_start_end_frame := None;
     crop_cmd := Some "288:162:16:8"; pad_cmd := None;
     resampling_type := "bicubic";
     use_path_as_workpath := false |}.

(** A reference workfile path that is the reference itself. *)
Definition aliased : Asset :=
  {| asset_dict := ∅; workdir := "w";
     ref_path := "ref.yuv"; dis_path := "dis.yuv";
     ref_workfile_path := "ref.yuv"; dis_workfile_path := "w/dis";
     ref_width_height := Some (1920, 1080);
     dis_width_height := Some (1920, 1080);
     quality_width_height := Some (960, 540);
     ref_yuv_type := "yuv420p"; dis_yuv_type := "yuv420p";
     workfile_yuv_type := "yuv420p";
     ref_start_end_frame := None; dis_start_end_frame := None;
     crop_cmd := None; pad_cmd := None; resampling_type := "bicubic";
     use_path_as_workpath := false |}.

(** A reference workfile path that is the distorted source. *)
Definition crossed : Asset :=
  {| asset_dict := ∅; workdir := "w";
     ref_path := "ref.yuv"; dis_path := "dis.yuv";
     ref_workfile_path := "dis.yuv"; dis_workfile_path := "w/dis";
     ref_width_height := Some (1920, 1080);
     dis_width_height := Some (1920, 1080);
     quality_width_height := Some (960, 540);
     ref_yuv_type := "yuv420p"; dis_yuv_type := "yuv420p";
     workfile_yuv_type := "yuv420p";
     ref_start_end_frame := None; dis_start_end_frame := None;
     crop_cmd := None; pad_cmd := None; resampling_type := "bicubic";
     use_path_as_workpath := false |}.

(** A compressed reference against a raw distorted clip. *)
Definition mixed : Asset :=
  {| asset_dict := ∅; workdir := "w";
     ref_path := "ref.mp4"; dis_path := "dis.yuv";
     ref_workfile_path := "w/ref"; dis_workfile_path := "w/dis";
     ref_width_height := None;
     dis_width_height := Some (1920, 1080);
     quality_width_height := Some (1920, 1080);
     ref_yuv_type := "notyuv"; dis_yuv_type := "yuv422p";
     workfile_yuv_type := "yuv420p";
     ref_start_end_frame := None; dis_start_end_frame := None;
     crop_cmd := None; pad_cmd := None; resampling_type := "bicubic";
     use_path_as_workpath := false |}.

(** The scaled pair with its working directory inside [ro]. *)
Definition scaled_ro : Asset :=
  {| asset_dict := ∅; workdir := "ro/work";
     ref_path := "ref.yuv"; dis_path := "dis.yuv";
     ref_workfile_path := "tmp/ref"; dis_workfile_path := "tmp/dis";
     ref_width_height := Some (1920, 1080);
     dis_width_height := Some (1920, 1080);
     quality_width_height := Some (960, 540);
     ref_yuv_type := "yuv420p"; dis_yuv_type := "yuv420p";
     workfile_yuv_type := "yuv420p";
     ref_start_end_frame := None; dis_start_end_frame := None;
     crop_cmd := None; pad_cmd := None; resampling_type := "bicubic";
     use_path_as_workpath := false |}.

(** Executor classes of type T, version 1, with the given hooks. *)
Definition quality_runner (E : Environment) (mixin : bool)
    (generate : Asset → FS → FS * outcome unit)
    (read : Asset → FS → FS * outcome (@Result E)) : @ExecutorClass E :=
  {| TYPE := "T"; VERSION := "1"; noref := mixin;
     _generate_result := generate;
     _read_result := read;
     _post_process_result r := Return r |}.

(** A generate hook that leaves the file system alone, one that leaves a
    note next to the log file, and a read hook. *)
Definition generate_quietly (a : Asset) (m : FS) : FS * outcome unit :=
  (m, Return tt).

Definition generate_with_notes (a : Asset) (m : FS) : FS * outcome unit :=
  (<[workdir a +:+ "/notes.txt" := File]> m, Return tt).

Definition read_scores (a : Asset) (m : FS) : FS * outcome scores :=
  (m, Return (Scores a "T_V1" 90)).

Definition runner (E : Environment)
    (generate : Asset → FS → FS * outcome unit)
    (read : Asset → FS → FS * outcome (@Result E)) (fifo : bool)
    (d d2 : option pydict) : @Executor E :=
  {| cls := quality_runner E false generate read; assets := [scaled];
     logger := true; fifo_mode := fifo; delete_workdir := true;
     results := []; result_store := true;
     optional_dict := d; optional_dict2 := d2 |}.

Definition direct_runner : @Executor env_idle :=
  runner env_idle generate_quietly read_scores false None None.
Definition fifo_runner : @Executor env_idle :=
  runner env_idle generate_quietly read_scores true None None.
Definition noting_runner : @Executor env_idle :=
  runner env_idle generate_with_notes read_scores false None None.
Definition ro_runner : @Executor env_ro :=
  runner env_ro generate_quietly read_scores false None None.

(** Two executors that differ in the insertion order of their
    impacts-result parameters and in their does-not-impact-result ones. *)
Definition tuned_runner : @Executor env_idle :=
  runner env_idle generate_quietly read_scores false
    (Some [("model", PyStr "v1"); ("patch", PyInt 8)])
    (Some [("cache", PyStr "tmp/a")]).
Definition retuned_runner : @Executor env_idle :=
  runner env_idle generate_quietly read_scores true
    (Some [("patch", PyInt 8); ("model", PyStr "v1")])
    None.

Definition batch_runner : @Executor env_idle :=
  {| cls := quality_runner env_idle false generate_quietly read_scores;
     assets := [scaled; mixed; scaled];
     logger := false; fifo_mode := true; delete_workdir := true;
     results := []; result_store := false;
     optional_dict := None; optional_dict2 := None |}.

Definition sources : FS :=
  list_to_map [("ref.yuv", File); ("dis.yuv", File)].

(** The sources, a stale reference workfile, and the working directory. *)
Definition stale : FS :=
  list_to_map [("ref.yuv", File); ("dis.yuv", File); ("w", Dir);
               ("w/ref", File)].

(** The sources, with a working directory inside [ro]. *)
Definition ro_tree : FS :=
  list_to_map [("ref.yuv", File); ("dis.yuv", File); ("ro", Dir);
               ("ro/work", Dir); ("tmp", Dir)].

Definition no_results : gmap (string * string) scores := ∅.

Definition one_result : gmap (string * string) scores :=
  {[("ref.yuv_vs_dis.yuv", "T_V1") := Scores scaled "T_V1" 90]}.

Definition start (E : Environment) (st : @ResultStore E) (a : Asset) (m : FS)
  : @state E :=
  @State E a m st [] 0 [].

Definition fresh : @state env_idle := start env_idle no_results scaled sources.
Definition cached_state : @state env_idle :=
  start env_idle one_result scaled sources.

(** A no-reference class of the same type and version. *)
Definition noref_class : @ExecutorClass env_idle :=
  quality_runner env_idle true generate_quietly read_scores.

(** An executor that keeps its working directory. *)
Definition keeping_runner : @Executor env_idle :=
  {| cls := quality_runner env_idle false generate_quietly read_scores;
     assets := [scaled];
     logger := true; fifo_mode := false; delete_workdir := false;
     results := []; result_store := true;
     optional_dict := None; optional_dict2 := None |}.

(** The scaled pair, with its producers started and their pipes not yet
    there. *)
Definition waiting : @state env_pipes :=
  @State env_pipes scaled sources no_results
    [OpenRefWorkfile scaled; OpenDisWorkfile scaled] 0 [].

(** The scaled pair, marked by an earlier run as needing no workfiles. *)
Definition marked : Asset := set_use_path_as_workpath true scaled.

End Scenario.

(** ** train_test_model: the bookkeeping of trained models

    Of [python/train_test_model.py], the parts that work on dictionaries
    and lists; the numerical parts (numpy, scipy, the learners) are not
    embedded. *)

Module train_test_model.

(** The exceptions raised here. *)
Inductive error :=
  | AssertionError (msg : string)
  | ValueError (msg : string)
  | KeyError (key : string).

Inductive result (A : Type) :=
  | Ok (v : A)
  | Fail (e : error).
Arguments Ok {A} v.
Arguments Fail {A} e.

#[global] Instance result_ret : MRet result := λ A v, Ok v.
#[global] Instance result_bind : MBind result := λ A B f o,
  match o with
  | Ok v => f v
  | Fail e => Fail e
  end.

(** [assert cond, msg]; a bare [assert cond] carries the empty message. *)
Definition assert_ (cond : bool) (msg : string) : result unit :=
  if cond then Ok tt else Fail (AssertionError msg).

(** Values of a model dictionary: strings, and objects of other types
    (lists of names, arrays, learners), which equal no string. *)
Inductive value :=
  | Str (s : string)
  | Other (id : nat).

(** [v == s] for a string literal [s]. *)
Definition eq_str (v : value) (s : string) : bool :=
  match v with
  | Str s' => bool_decide (s' = s)
  | Other _ => false
  end.

(** [d[k]] *)
Definition getitem (d : gmap string value) (k : string) : result value :=
  match d !! k with
  | Some v => Ok v
  | None => Fail (KeyError k)
  end.

(** [k in d] *)
Definition has (d : gmap string value) (k : string) : bool :=
  bool_decide (k ∈ dom d).

(** [l.remove(x)]: the first occurrence goes; [ValueError] without one. *)
Fixpoint list_remove (x : string) (l : list string) : result (list string) :=
  match l with
  | [] => Fail (ValueError "list.remove(x): x not in list")
  | y :: rest =>
      if bool_decide (y = x) then Ok rest
      else rest' ← list_remove x rest; mret (y :: rest')
  end.

Definition name_le (x y : string) : Prop := String.leb x y = true.

#[global] Instance name_le_dec : RelDecision name_le.
Proof. intros x y. unfold name_le. apply _. Defined.

(** [sorted(d.keys())] *)
Definition sorted_keys (d : gmap string value) : list string :=
  merge_sort name_le (map_to_list d).*1.

Module TrainTestModel.

(** [TrainTestModel._assert_trained] (lines 24-43). *)
Definition _assert_trained (model_dict : gmap string value) : result unit :=
  assert_ (has model_dict "feature_names") "";;
  assert_ (has model_dict "model") "";;
  assert_ (has model_dict "norm_type") "";;
  norm_type ← getitem model_dict "norm_type";
  assert_ (eq_str norm_type "none"
           || eq_str norm_type "normalize"
           || eq_str norm_type "clip_0to1"
           || eq_str norm_type "clip_minus1to1") "";;
  (if eq_str norm_type "normal" then
     assert_ (has model_dict "mu") "";;
     assert_ (has model_dict "sd") ""
   else mret tt);;
  (if eq_str norm_type "clipped" then
     assert_ (has model_dict "fmin") "";;
     assert_ (has model_dict "fmax") ""
   else mret tt).

End TrainTestModel.

Module TrainTestModel2.

(** [TrainTestModel2._assert_trained] (lines 591-614); the attribute
    [model_dict] is [None] as long as it has not been set. *)
Definition _assert_trained (model_dict : option (gmap string value))
  : result unit :=
  match model_dict with
  | None => Fail (AssertionError "Must train first to generate model_dict.")
  | Some model_dict =>
      assert_ (has model_dict "ordered_feature_names") "";;
      assert_ (has model_dict "model") "";;
      assert_ (has model_dict "norm_type") "";;
      norm_type ← getitem model_dict "norm_type";
      assert_ (eq_str norm_type "none"
               || eq_str norm_type "normal"
               || eq_str norm_type "clipped") "";;
      (if eq_str norm_type "normal" then
         assert_ (has model_dict "mus") "";;
         assert_ (has model_dict "sds") ""
       else mret tt);;
      (if eq_str norm_type "clipped" then
         assert_ (has model_dict "fmins") "";;
         assert_ (has model_dict "fmaxs") ""
       else mret tt)
  end.

(** [TrainTestModel2.train] (lines 778-792). *)
Definition train (xys : gmap string value) : result unit :=
  assert_ (has xys "label") "";;
  ys_vec ← getitem xys "label";
  let feature_names := sorted_keys xys in
  feature_names ← list_remove "label" feature_names;
  feature_names ← list_remove "content_id" feature_names;
  mret tt.

End TrainTestModel2.

End train_test_model.

(** * Properties *)

Lemma is_not_None_true {A} (x : option A) : is_not_None x = true ↔ x ≠ None.
Proof. destruct x; simpl; split; congruence. Qed.

Lemma is_not_None_false {A} (x : option A) : is_not_None x = false ↔ x = None.
Proof. destruct x; simpl; split; congruence. Qed.

(** ** The transcode-needed predicate *)

(** C3: [_need_ffmpeg] holds exactly when the quality size differs from the
    reference's or the distorted side's native size, or a crop or a pad is
    requested, or either side's frame range is restricted, or either side's
    pixel format is ['notyuv']; the no-reference override is the same
    condition on the distorted side alone. *)
Theorem need_ffmpeg_iff (asset : Asset) :
  (_need_ffmpeg asset = true ↔
     quality_width_height asset ≠ ref_width_height asset
     ∨ quality_width_height asset ≠ dis_width_height asset
     ∨ crop_cmd asset ≠ None
     ∨ pad_cmd asset ≠ None
     ∨ ref_start_end_frame asset ≠ None
     ∨ dis_start_end_frame asset ≠ None
     ∨ ref_yuv_type asset = "notyuv"
     ∨ dis_yuv_type asset = "notyuv")
  ∧ (Noref_need_ffmpeg asset = true ↔
       quality_width_height asset ≠ dis_width_height asset
       ∨ crop_cmd asset ≠ None
       ∨ pad_cmd asset ≠ None
       ∨ dis_start_end_frame asset ≠ None
       ∨ dis_yuv_type asset = "notyuv").
Proof.
  unfold _need_ffmpeg, Noref_need_ffmpeg.
  rewrite !orb_true_iff, !bool_decide_eq_true, !is_not_None_true.
  tauto.
Qed.

(** ** The workfile pixel format *)

(** C10: with exactly one side ['notyuv'] the workfile format is the other
    side's; with both it is the asset's configured workfile format; with
    neither it is the common format of the two sides, whose equality is
    asserted; the no-reference override looks at the distorted side only. *)
Theorem workfile_yuv_type_resolution (asset : Asset) :
  let r := ref_yuv_type asset in
  let d := dis_yuv_type asset in
  (r = "notyuv" → d ≠ "notyuv" → _get_workfile_yuv_type asset = Return d)
  ∧ (r ≠ "notyuv" → d = "notyuv" → _get_workfile_yuv_type asset = Return r)
  ∧ (r = "notyuv" → d = "notyuv" →
     _get_workfile_yuv_type asset = Return (workfile_yuv_type asset))
  ∧ (r ≠ "notyuv" → d ≠ "notyuv" → r = d →
     _get_workfile_yuv_type asset = Return r
     ∧ _get_workfile_yuv_type asset = Return d)
  ∧ (r ≠ "notyuv" → d ≠ "notyuv" → r ≠ d →
     _get_workfile_yuv_type asset
     = Raise (AssertionError "YUV types for ref and dis do not match."))
  ∧ (d = "notyuv" →
     Noref_get_workfile_yuv_type asset = Return (workfile_yuv_type asset))
  ∧ (d ≠ "notyuv" → Noref_get_workfile_yuv_type asset = Return d).
Proof.
  intros r d. subst r d.
  unfold _get_workfile_yuv_type, Noref_get_workfile_yuv_type, py_assert.
  repeat split; intros;
    repeat (case_bool_decide; simpl; try congruence).
Qed.

(** ** Asset precondition validation *)

Section validation_facts.
Context `{Environment}.

Lemma explicit_quality_size_false (asset : Asset) :
  ¬ ("quality_width" ∈ dom (asset_dict asset)
     ∧ "quality_height" ∈ dom (asset_dict asset)) →
  explicit_quality_size asset = false.
Proof.
  intros Hno. unfold explicit_quality_size.
  apply andb_false_iff.
  destruct (decide ("quality_width" ∈ dom (asset_dict asset))) as [Hw|Hw].
  - right. apply bool_decide_eq_false. tauto.
  - left. by apply bool_decide_eq_false.
Qed.

Lemma ffmpeg_step_cases (cls : ExecutorClass) (asset : Asset) :
  ffmpeg_lookup_asserts →
  let step : outcome unit :=
    if resolve cls _need_ffmpeg Noref_need_ffmpeg asset
    then get_and_assert_ffmpeg;; mret tt else mret tt in
  step = Return tt ∨ assertion_failure step.
Proof.
  intros Hff step. subst step.
  destruct (resolve cls _need_ffmpeg Noref_need_ffmpeg asset); [|by left].
  destruct get_and_assert_ffmpeg as [path|e] eqn:Hlookup; [by left|].
  right. destruct (Hff e Hlookup) as [msg ->]. by exists msg.
Qed.

Lemma assert_an_asset_fails (cls : ExecutorClass) (asset : Asset) :
  ffmpeg_lookup_asserts →
  crop_cmd asset ≠ None ∨ pad_cmd asset ≠ None →
  explicit_quality_size asset = false →
  assertion_failure (_assert_an_asset cls asset)
  ∧ assertion_failure (Noref_assert_an_asset cls asset).
Proof.
  intros Hff Hgeom Hexp.
  pose proof (ffmpeg_step_cases cls asset Hff) as Hstep. simpl in Hstep.
  unfold _assert_an_asset, Noref_assert_an_asset.
  assert (is_not_None (crop_cmd asset) = true
          ∨ is_not_None (pad_cmd asset) = true) as Hb.
  { rewrite !is_not_None_true. tauto. }
  rewrite Hexp.
  destruct (quality_width_height asset); simpl; [|split; by eexists].
  destruct Hstep as [->|[msg ->]]; simpl; [|split; by eexists].
  split.
  - destruct (_ || _ || _); simpl; [|by eexists].
    destruct Hb as [->| ->]; simpl; [by eexists|].
    destruct (is_not_None (crop_cmd asset)); simpl; by eexists.
  - destruct Hb as [->| ->]; simpl; [by eexists|].
    destruct (is_not_None (crop_cmd asset)); simpl; by eexists.
Qed.

Lemma assert_an_asset_raises_assertions (cls : ExecutorClass) (asset : Asset) e :
  ffmpeg_lookup_asserts →
  resolve cls _assert_an_asset Noref_assert_an_asset cls asset = Raise e →
  ∃ msg, e = AssertionError msg.
Proof.
  intros Hff.
  pose proof (ffmpeg_step_cases cls asset Hff) as Hstep. simpl in Hstep.
  unfold resolve at 1, _assert_an_asset, Noref_assert_an_asset, py_assert.
  destruct (noref cls);
    destruct (is_not_None (quality_width_height asset)); simpl;
    try (intros [= <-]; by eexists);
    destruct Hstep as [->|[msg ->]]; simpl;
    try (intros [= <-]; by eexists);
    repeat (match goal with
            | |- context [if ?b then _ else _] => destruct b; simpl
            end);
    intros [= <-] || discriminate; by eexists.
Qed.

Lemma assert_assets_fails (cls : ExecutorClass) (asset : Asset) assets :
  ffmpeg_lookup_asserts →
  asset ∈ assets →
  assertion_failure
    (resolve cls _assert_an_asset Noref_assert_an_asset cls asset) →
  assertion_failure (_assert_assets cls assets).
Proof.
  intros Hff Hin [msg Hbad].
  induction assets as [|a rest IH]; [by apply elem_of_nil in Hin|].
  simpl.
  destruct (resolve cls _assert_an_asset Noref_assert_an_asset cls a)
    as [[]|e] eqn:Hhead; simpl.
  - apply elem_of_cons in Hin as [->|Hin]; [congruence|by apply IH].
  - destruct (assert_an_asset_raises_assertions cls a e Hff Hhead) as [m ->].
    by exists m.
Qed.

(** C7: an asset that requests a crop or a pad without [quality_width] and
    [quality_height] both present in its asset dictionary fails validation
    with an assertion error, under the base validator and under the
    no-reference one; the constructor, which validates every asset before
    an executor exists that could run one, fails the same way, so no
    transcoder command is ever issued for it. *)
Theorem crop_or_pad_requires_explicit_quality_size
    (cls : ExecutorClass) (asset : Asset) (assets : list Asset)
    (logger fifo_mode delete_workdir result_store : bool)
    (optional_dict optional_dict2 : option pydict) :
  ffmpeg_lookup_asserts →
  crop_cmd asset ≠ None ∨ pad_cmd asset ≠ None →
  ¬ ("quality_width" ∈ dom (asset_dict asset)
     ∧ "quality_height" ∈ dom (asset_dict asset)) →
  asset ∈ assets →
  assertion_failure (_assert_an_asset cls asset)
  ∧ assertion_failure (Noref_assert_an_asset cls asset)
  ∧ assertion_failure
      (__init__ cls assets logger fifo_mode delete_workdir result_store
         optional_dict optional_dict2).
Proof.
  intros Hff Hgeom Hdict Hin.
  apply explicit_quality_size_false in Hdict.
  destruct (assert_an_asset_fails cls asset Hff Hgeom Hdict) as [Hbase Hnoref].
  repeat split; [done..|].
  unfold __init__.
  destruct (assert_assets_fails cls asset assets Hff Hin) as [msg Hfail].
  { unfold resolve. by destruct (noref cls). }
  rewrite Hfail. by exists msg.
Qed.

End validation_facts.

(** ** The per-asset lock registry *)

Section lock_facts.
Context `{Environment}.

Lemma add_lock_ok (r : registry) (a : Asset) :
  registry_ok r →
  ∃ r' l, add_lock r a = Return r'
    ∧ locks r' = locks r ++ [l]
    ∧ map_asset_lock r' !! asset_str a = Some l
    ∧ registry_ok r' ∧ registry_extends r r'.
Proof.
  intros [Hlt Hinj]. unfold add_lock.
  case_bool_decide as Hdom; simpl.
  - apply not_elem_of_dom in Hdom.
    rewrite lookup_insert_eq.
    eexists _, _. split; [reflexivity|]. simpl.
    split; [done|]. split; [by rewrite lookup_insert_eq|].
    split; [split|].
    + simpl. intros k l. rewrite lookup_insert. case_decide.
      * intros [= <-]. lia.
      * intros Hk. apply Hlt in Hk. lia.
    + simpl. intros k1 k2 l. rewrite !lookup_insert.
      repeat case_decide; simplify_eq; try done.
      * intros [= <-] Hk. apply Hlt in Hk. lia.
      * intros Hk [= <-]. apply Hlt in Hk. lia.
      * apply Hinj.
    + intros k l Hk. simpl. rewrite lookup_insert_ne; [done|congruence].
  - apply elem_of_dom in Hdom as [l Hl].
    rewrite Hl. eexists _, _. split; [reflexivity|]. simpl.
    split; [done|]. split; [done|]. split; [by split|]. by intros k l0.
Qed.

Lemma add_locks_ok (assets : list Asset) (r : registry) :
  registry_ok r →
  ∃ r' ls, add_locks r assets = Return r'
    ∧ locks r' = locks r ++ ls
    ∧ registry_ok r' ∧ registry_extends r r'
    ∧ Forall2 (λ a l, map_asset_lock r' !! asset_str a = Some l) assets ls.
Proof.
  revert r. induction assets as [|a rest IH]; intros r Hok.
  - exists r, []. simpl. rewrite app_nil_r.
    split; [done|]. split; [done|]. split; [done|].
    split; [by intros k l|constructor].
  - destruct (add_lock_ok r a Hok) as (r1 & l & Hadd & Hlocks & Hl & Hok1 & Hext1).
    destruct (IH r1 Hok1) as (r2 & ls & Hrest & Hlocks2 & Hok2 & Hext2 & Hall).
    exists r2, (l :: ls). simpl. rewrite Hadd. simpl.
    split; [done|]. split; [by rewrite Hlocks2, Hlocks, <-app_assoc|].
    split; [done|]. split; [intros k l0 Hk; by apply Hext2, Hext1|].
    constructor; [by apply Hext2|done].
Qed.

Lemma create_locks_ok (assets : list Asset) :
  ∃ r, create_locks assets = Return r
    ∧ registry_ok r
    ∧ Forall2 (λ a l, map_asset_lock r !! asset_str a = Some l)
        assets (locks r).
Proof.
  destruct (add_locks_ok assets (Registry ∅ [] 0))
    as (r & ls & Hrun & Hlocks & Hok & _ & Hall).
  { split; simpl; intros *; by rewrite lookup_empty. }
  exists r. simpl in Hlocks. by subst ls.
Qed.

(** C9: [list_args] pairs each asset with a lock, and the locks at two
    positions are one and the same lock exactly when the assets there have
    the same string form; [Executor.run] and, for assets that pass the
    validation of the constructor, [run_executors_in_parallel] build the
    same list. *)
Theorem locks_shared_by_equal_strings (self : Executor) (i j : nat)
    (a b : Asset) :
  assets self !! i = Some a →
  assets self !! j = Some b →
  _assert_assets (cls self) (assets self) = Return tt →
  ∃ list_args li lj,
    run_list_args self = Return list_args
    ∧ run_executors_in_parallel_list_args (cls self) (assets self)
        (fifo_mode self) (delete_workdir self) (logger self)
        (result_store self) (optional_dict self) (optional_dict2 self)
      = Return list_args
    ∧ length list_args = length (assets self)
    ∧ list_args !! i = Some (a, li)
    ∧ list_args !! j = Some (b, lj)
    ∧ (asset_str a = asset_str b → li = lj)
    ∧ (li = lj → asset_str a = asset_str b).
Proof.
  intros Hi Hj Hvalid.
  destruct (create_locks_ok (assets self)) as (r & Hrun & [_ Hinj] & Hall).
  destruct (Forall2_lookup_l _ _ _ _ _ Hall Hi) as (li & Hli & Hmi).
  destruct (Forall2_lookup_l _ _ _ _ _ Hall Hj) as (lj & Hlj & Hmj).
  exists (zip (assets self) (locks r)), li, lj.
  unfold run_list_args, run_executors_in_parallel_list_args, __init__.
  rewrite Hrun, Hvalid. simpl.
  split; [done|]. split; [done|].
  split.
  { rewrite length_zip_with. apply Forall2_length in Hall. lia. }
  split; [by apply lookup_zip_with_Some; eauto 6|].
  split; [by apply lookup_zip_with_Some; eauto 6|].
  split.
  - intros Heq. rewrite Heq in Hmi. congruence.
  - intros <-. by eapply Hinj.
Qed.

End lock_facts.

(** ** Identity *)

Lemma ascii_compare_refl (c : ascii) : Ascii.compare c c = Eq.
Proof. unfold Ascii.compare. apply N.compare_refl. Qed.

Lemma ascii_compare_lt_trans (c1 c2 c3 : ascii) :
  Ascii.compare c1 c2 = Lt → Ascii.compare c2 c3 = Lt →
  Ascii.compare c1 c3 = Lt.
Proof.
  unfold Ascii.compare. rewrite !N.compare_lt_iff. lia.
Qed.

Lemma string_compare_trans (s1 s2 s3 : string) :
  String.compare s1 s2 ≠ Gt → String.compare s2 s3 ≠ Gt →
  String.compare s1 s3 ≠ Gt.
Proof.
  revert s2 s3. induction s1 as [|c1 s1 IH]; intros [|c2 s2] [|c3 s3];
    simpl; try done.
  destruct (Ascii.compare c1 c2) eqn:H12; [| |done];
    destruct (Ascii.compare c2 c3) eqn:H23; try done.
  - apply Ascii.compare_eq_iff in H12, H23. subst.
    rewrite ascii_compare_refl. apply IH.
  - apply Ascii.compare_eq_iff in H12. subst. by rewrite H23.
  - apply Ascii.compare_eq_iff in H23. subst. by rewrite H12.
  - by rewrite (ascii_compare_lt_trans _ _ _ H12 H23).
Qed.

Lemma leb_compare (s1 s2 : string) :
  String.leb s1 s2 = true ↔ String.compare s1 s2 ≠ Gt.
Proof. unfold String.leb. destruct (String.compare s1 s2); split; done. Qed.

#[global] Instance key_le_trans : Transitive key_le.
Proof.
  intros x y z. unfold key_le. rewrite !leb_compare.
  apply string_compare_trans.
Qed.

#[global] Instance key_le_total : Total key_le.
Proof. intros x y. unfold key_le. apply String.leb_total. Qed.

Lemma distinct_keys_determine_entry (d : pydict) (x y : string * pyval) :
  NoDup d.*1 → x ∈ d → y ∈ d → x.1 = y.1 → x = y.
Proof.
  induction d as [|e d IH]; simpl; intros Hnd Hx Hy Hkey.
  { by apply elem_of_nil in Hx. }
  apply NoDup_cons in Hnd as [Hfresh Hnd].
  apply elem_of_cons in Hx as [->|Hx]; apply elem_of_cons in Hy as [->|Hy].
  - done.
  - destruct Hfresh. rewrite Hkey. by apply list_elem_of_fmap_2.
  - destruct Hfresh. rewrite <-Hkey. by apply list_elem_of_fmap_2.
  - by apply IH.
Qed.

(** Sorting by key forgets the insertion order of a dictionary. *)
Lemma merge_sort_canonical (d1 d2 : pydict) :
  NoDup d1.*1 → d1 ≡ₚ d2 → merge_sort key_le d1 = merge_sort key_le d2.
Proof.
  intros Hnd Hperm.
  apply (Sorted_unique_strong key_le).
  - intros x1 x2 Hx1 Hx2 H12 H21.
    rewrite merge_sort_Permutation in Hx1, Hx2. rewrite <-Hperm in Hx2.
    apply (distinct_keys_determine_entry d1); [done..|].
    by apply String.leb_antisym.
  - apply Sorted_merge_sort, _.
  - apply Sorted_merge_sort, _.
  - by rewrite !merge_sort_Permutation.
Qed.

Lemma normalized_string_canonical (d1 d2 : pydict) :
  NoDup d1.*1 → d1 ≡ₚ d2 →
  get_normalized_string_from_dict d1 = get_normalized_string_from_dict d2.
Proof.
  intros Hnd Hperm. unfold get_normalized_string_from_dict.
  by rewrite (merge_sort_canonical d1 d2).
Qed.

Section identity_facts.
Context `{Environment}.

(** The identity reads the class's TYPE and VERSION and [optional_dict],
    and nothing else of the executor. *)
Lemma executor_id_reads (e1 e2 : Executor) :
  TYPE (cls e1) = TYPE (cls e2) →
  VERSION (cls e1) = VERSION (cls e2) →
  optional_dict e1 = optional_dict e2 →
  executor_id e1 = executor_id e2.
Proof. unfold executor_id. by intros -> -> ->. Qed.

(** C8: two executors of the same type and version whose impacts-result
    dictionaries hold the same entries, in whatever order they were
    inserted, have the same identity string, whatever their
    does-not-impact-result dictionaries (and every other attribute) are. *)
Theorem executor_id_ignores_optional_dict2 (e1 e2 : Executor) :
  TYPE (cls e1) = TYPE (cls e2) →
  VERSION (cls e1) = VERSION (cls e2) →
  keys_distinct (optional_dict e1) →
  same_dict (optional_dict e1) (optional_dict e2) →
  executor_id e1 = executor_id e2.
Proof.
  unfold executor_id, keys_distinct, same_dict. intros -> -> Hnd Hsame.
  destruct (optional_dict e1) as [d1|], (optional_dict e2) as [d2|];
    try done.
  rewrite (Permutation_length Hsame).
  by rewrite (normalized_string_canonical d1 d2).
Qed.

End identity_facts.

(** ** Reasoning about runs *)

(** Unfolds the monad's operations and its state primitives. *)
Ltac run_monad :=
  repeat (progress (unfold mbind, M_bind, mret, M_ret, get_asset, get_store,
                      get_fs, emit, when, lift, raise, modify, fs_call;
                    simpl)).

Section run_logic.
Context `{Environment}.

Lemma bind_return {A B} (m : M A) (f : A → M B) s s1 a :
  m s = (s1, Return a) → (m ≫= f) s = f a s1.
Proof. unfold mbind, M_bind. by intros ->. Qed.

Lemma bind_raise {A B} (m : M A) (f : A → M B) s s1 e :
  m s = (s1, Raise e) → (m ≫= f) s = (s1, Raise e).
Proof. unfold mbind, M_bind. by intros ->. Qed.

Lemma bind_get_asset {B} (f : Asset → M B) s :
  (get_asset ≫= f) s = f (asset s) s.
Proof. done. Qed.

Lemma emit_run (e : event) s :
  emit e s = (set_trace (trace s ++ [e]) s, Return tt).
Proof. done. Qed.

Lemma set_trace_twice t1 t2 s : set_trace t2 (set_trace t1 s) = set_trace t2 s.
Proof. done. Qed.

Lemma wp_bind {A B} (m : M A) (f : A → M B) Q s :
  wp m (λ s1 o, match o with
                | Return a => wp (f a) Q s1
                | Raise e => Q s1 (Raise e)
                end) s →
  wp (m ≫= f) Q s.
Proof. unfold wp, mbind, M_bind. by destruct (m s) as [s1 [a|e]]. Qed.

Lemma wp_skip {A B} (m : M A) (f : A → M B) Q s :
  (∀ s1 e, Q s1 (Raise e)) →
  (∀ a s1, wp (f a) Q s1) →
  wp (m ≫= f) Q s.
Proof.
  intros Hraise Hnext. apply wp_bind. unfold wp at 1.
  destruct (m s) as [s1 [a|e]]; simpl; [apply Hnext|apply Hraise].
Qed.

End run_logic.

(** ** Cache hits *)

Section cache_facts.
Context `{Environment}.

Lemma run_on_asset_hit (self : Executor) (s : state) (r : Result) :
  result_store self = true →
  store_load (asset s) (executor_id self) (store s) = Some r →
  _run_on_asset self s
  = (set_trace (trace s ++ hit_events self) s,
     _post_process_result (cls self) r).
Proof.
  intros Hstore Hload.
  unfold _run_on_asset, hit_events, call_post_process_result.
  rewrite Hstore. run_monad. rewrite Hload.
  destruct (logger self); run_monad; unfold set_trace; simpl;
    by rewrite <-!app_assoc.
Qed.

End cache_facts.

(** ** What the steps of a run log *)

Section holds_facts.
Context `{Environment}.

Implicit Types (ob : Asset) (Q : event → Prop).

Lemma holds_ret {A} ob Q (v : A) : holds ob Q (mret v).
Proof. intros s Hs. split; [done|]. exists []. by rewrite app_nil_r. Qed.

Lemma holds_raise {A} ob Q e : holds ob Q (raise e : M A).
Proof. intros s Hs. split; [done|]. exists []. by rewrite app_nil_r. Qed.

Lemma holds_lift {A} ob Q (o : outcome A) : holds ob Q (lift o).
Proof. intros s Hs. split; [done|]. exists []. by rewrite app_nil_r. Qed.

Lemma holds_emit ob Q e : Q e → holds ob Q (emit e).
Proof. intros He s Hs. split; [done|]. exists [e]. by repeat constructor. Qed.

Lemma holds_fs_call {A} ob Q (f : FS → FS * outcome A) : holds ob Q (fs_call f).
Proof. intros s Hs. split; [done|]. exists []. by rewrite app_nil_r. Qed.

Lemma holds_get_fs ob Q : holds ob Q get_fs.
Proof. intros s Hs. split; [done|]. exists []. by rewrite app_nil_r. Qed.

Lemma holds_get_store ob Q : holds ob Q get_store.
Proof. intros s Hs. split; [done|]. exists []. by rewrite app_nil_r. Qed.

Lemma holds_modify ob Q (f : state → state) :
  (∀ s, asset (f s) = asset s) → (∀ s, trace (f s) = trace s) →
  holds ob Q (modify f).
Proof.
  intros Ha Ht s Hs. simpl. split; [by rewrite Ha|].
  exists []. by rewrite app_nil_r, Ht.
Qed.

Lemma holds_bind {A B} ob Q (m : M A) (f : A → M B) :
  holds ob Q m → (∀ a, holds ob Q (f a)) → holds ob Q (m ≫= f).
Proof.
  intros Hm Hf s Hs. unfold mbind, M_bind.
  destruct (Hm s Hs) as (Ha1 & evs1 & Ht1 & HQ1).
  destruct (m s) as [s1 [a|e]]; simpl in *.
  - destruct (Hf a s1 Ha1) as (Ha2 & evs2 & Ht2 & HQ2).
    split; [done|]. exists (evs1 ++ evs2).
    split; [by rewrite Ht2, Ht1, app_assoc|by apply Forall_app].
  - split; [done|]. by exists evs1.
Qed.

Lemma holds_get_asset {B} ob Q (f : Asset → M B) :
  holds ob Q (f ob) → holds ob Q (get_asset ≫= f).
Proof. intros Hf s Hs. unfold mbind, M_bind, get_asset. rewrite Hs. by apply Hf. Qed.

Lemma holds_when ob Q (b : bool) (m : M unit) :
  holds ob Q m → holds ob Q (when b m).
Proof. destruct b; [done|]. intros _. apply holds_ret. Qed.

Lemma holds_try_except {A} ob Q (body : M A) handler :
  holds ob Q body →
  (∀ e h, handler e = Some h → holds ob Q h) →
  holds ob Q (try_except body handler).
Proof.
  intros Hbody Hh s Hs. unfold try_except.
  destruct (Hbody s Hs) as (Ha1 & evs1 & Ht1 & HQ1).
  destruct (body s) as [s1 [v|e]]; simpl in *.
  - split; [done|]. by exists evs1.
  - destruct (handler e) as [h|] eqn:Hhandler; simpl.
    + destruct (Hh e h Hhandler s1 Ha1) as (Ha2 & evs2 & Ht2 & HQ2).
      split; [done|]. exists (evs1 ++ evs2).
      split; [by rewrite Ht2, Ht1, app_assoc|by apply Forall_app].
    + split; [done|]. by exists evs1.
Qed.

Lemma holds_weaken {A} ob Q Q' (m : M A) :
  (∀ e, Q e → Q' e) → holds ob Q m → holds ob Q' m.
Proof.
  intros HQ Hm s Hs. destruct (Hm s Hs) as (Ha & evs & Ht & Hevs).
  split; [done|]. exists evs. split; [done|].
  eapply Forall_impl; [exact Hevs|done].
Qed.

End holds_facts.

(** Decomposes a [holds] goal along the structure of the computation; the
    events met on the way are left to [tac]. *)
Ltac holds_step tac :=
  lazymatch goal with
  | |- holds _ _ (get_asset ≫= _) => apply holds_get_asset
  | |- holds _ _ (_ ≫= _) => apply holds_bind; [|intros ?]
  | |- holds _ _ (mret _) => apply holds_ret
  | |- holds _ _ (raise _) => apply holds_raise
  | |- holds _ _ (lift _) => apply holds_lift
  | |- holds _ _ (emit _) => apply holds_emit; tac
  | |- holds _ _ (fs_call _) => apply holds_fs_call
  | |- holds _ _ get_fs => apply holds_get_fs
  | |- holds _ _ get_store => apply holds_get_store
  | |- holds _ _ (modify _) => apply holds_modify; done
  | |- holds _ _ (when _ _) => apply holds_when
  | |- holds _ _ (try_except _ _) => apply holds_try_except
  | |- holds _ _ (if ?b then _ else _) => destruct b eqn:?
  | |- holds _ _ (match ?x with _ => _ end) => destruct x
  end.

Ltac holds_auto tac := repeat (cbn beta iota; holds_step tac).

Section step_facts.
Context `{Environment}.

Implicit Types (ob : Asset) (Q : event → Prop).

Lemma holds_any_guarded {A} ob (m : M A) :
  use_path_as_workpath ob = false → holds ob any_event m →
  holds ob (guarded ob) m.
Proof.
  intros Hflag. apply holds_weaken. intros e _. unfold guarded. congruence.
Qed.

Lemma holds_quiet_guarded {A} ob (m : M A) :
  holds ob not_workfile m → holds ob (guarded ob) m.
Proof. apply holds_weaken. by intros e He _. Qed.

Lemma holds_exists ob Q p : holds ob Q (exists_ p).
Proof. unfold exists_. holds_auto idtac. Qed.

Lemma holds_sleep ob Q ms : Q (EvSleep ms) → holds ob Q (sleep ms).
Proof. intros HQ. unfold sleep. holds_auto ltac:(exact HQ). Qed.

Lemma holds_poll ob Q n (ready : M bool) :
  Q (EvSleep 100) → holds ob Q ready → holds ob Q (poll n ready).
Proof.
  intros HQ Hready. induction n as [|n IH]; simpl.
  - apply holds_ret.
  - apply holds_bind; [done|]. intros [|]; [apply holds_ret|].
    apply holds_bind; [by apply holds_sleep|done].
Qed.

Lemma holds_wait_any ob (cls : ExecutorClass) :
  holds ob any_event (resolve cls _wait_for_workfiles Noref_wait_for_workfiles).
Proof.
  unfold resolve, _wait_for_workfiles, Noref_wait_for_workfiles.
  destruct (noref cls).
  - apply holds_bind; [by apply holds_emit|intros _].
    apply holds_get_asset. apply holds_bind.
    + apply holds_poll; [done|apply holds_exists].
    + intros [|]; [apply holds_ret|apply holds_raise].
  - apply holds_bind; [by apply holds_emit|intros _].
    apply holds_get_asset. apply holds_bind.
    + apply holds_poll; [done|].
      apply holds_bind; [apply holds_exists|].
      intros [|]; [apply holds_exists|apply holds_ret].
    + intros [|]; [apply holds_ret|apply holds_raise].
Qed.

Lemma holds_close_any ob (cls : ExecutorClass) :
  holds ob any_event (resolve cls _close_workfiles Noref_close_workfiles).
Proof.
  unfold resolve, _close_workfiles, Noref_close_workfiles,
    _close_ref_workfile, _close_dis_workfile, os_remove, exists_.
  destruct (noref cls); holds_auto ltac:(exact I).
Qed.

Lemma holds_open_ref_any ob (self : Executor) b :
  holds ob any_event (_open_ref_workfile self b).
Proof.
  unfold _open_ref_workfile, os_mkfifo, call_run_process.
  holds_auto ltac:(exact I).
Qed.

Lemma holds_open_dis_any ob (self : Executor) b :
  holds ob any_event (_open_dis_workfile self b).
Proof.
  unfold _open_dis_workfile, os_mkfifo, call_run_process.
  holds_auto ltac:(exact I).
Qed.

Lemma holds_open_fifo_any ob (self : Executor) :
  holds ob any_event (_open_workfiles_in_fifo_mode self)
  ∧ holds ob any_event (Noref_open_workfiles_in_fifo_mode self).
Proof.
  pose proof (holds_wait_any ob (cls self)) as Hwait.
  unfold _open_workfiles_in_fifo_mode, Noref_open_workfiles_in_fifo_mode,
    process_start.
  split; repeat first [exact Hwait | holds_step ltac:(exact I)].
Qed.

Lemma holds_open_direct_any ob (self : Executor) :
  holds ob any_event (open_workfiles self)
  ∧ holds ob any_event (Noref_open_workfiles self).
Proof.
  unfold open_workfiles, Noref_open_workfiles. split.
  - apply holds_bind; [exact (holds_open_ref_any ob self false)|intros _].
    exact (holds_open_dis_any ob self false).
  - exact (holds_open_dis_any ob self false).
Qed.

Lemma holds_open_any ob (self : Executor) :
  holds ob any_event
    (if fifo_mode self then
       resolve (cls self) _open_workfiles_in_fifo_mode
         Noref_open_workfiles_in_fifo_mode self
     else resolve (cls self) open_workfiles Noref_open_workfiles self).
Proof.
  destruct (holds_open_fifo_any ob self), (holds_open_direct_any ob self).
  unfold resolve. by destruct (fifo_mode self), (noref (cls self)).
Qed.

End step_facts.

(** ** The use-path-as-workpath flag *)

Section workpath_facts.
Context `{Environment}.

Lemma quiet_get_asset {B} (f : Asset → M B) s :
  run_quiet (f (asset s)) s → run_quiet (get_asset ≫= f) s.
Proof. done. Qed.

Lemma quiet_bind_l {A B} (m : M A) (f : A → M B) s :
  holds (asset s) not_workfile m →
  (∀ a s1, run_quiet (f a) s1) →
  run_quiet (m ≫= f) s.
Proof.
  intros Hm Hf. unfold run_quiet, mbind, M_bind.
  destruct (Hm s eq_refl) as (Ha1 & evs1 & Ht1 & HQ1).
  destruct (m s) as [s1 [a|e]]; simpl in *.
  - destruct (Hf a s1) as (evs2 & Ht2 & HQ2).
    exists (evs1 ++ evs2). split; [by rewrite Ht2, Ht1, app_assoc|].
    intros Hflag. apply Forall_app. auto.
  - by exists evs1.
Qed.

Lemma quiet_bind_r {A B} (m : M A) (f : A → M B) s :
  run_quiet m s →
  (∀ a ob, holds ob (guarded ob) (f a)) →
  run_quiet (m ≫= f) s.
Proof.
  intros (evs1 & Ht1 & HQ1) Hf. unfold run_quiet, mbind, M_bind.
  destruct (m s) as [s1 [a|e]]; simpl in *.
  - destruct (Hf a (asset s1) s1 eq_refl) as (Ha2 & evs2 & Ht2 & HQ2).
    exists (evs1 ++ evs2). split; [by rewrite Ht2, Ht1, app_assoc|].
    rewrite Ha2. intros Hflag. apply Forall_app. split; [auto|].
    eapply Forall_impl; [exact HQ2|]. intros e He. by apply He.
  - by exists evs1.
Qed.

Lemma quiet_of_holds {A} (m : M A) s :
  holds (asset s) not_workfile m → run_quiet m s.
Proof.
  intros Hm. destruct (Hm s eq_refl) as (Ha & evs & Ht & HQ).
  exists evs. auto.
Qed.

(** The decision step: the flag is set exactly when no transcoding is
    needed, and otherwise left as it was. *)
Lemma set_asset_use_path_as_workpath_run (cls : ExecutorClass) s :
  _set_asset_use_path_as_workpath cls s
  = (set_trace (trace s ++ [EvCall "_set_asset_use_path_as_workpath"])
       (if resolve cls _need_ffmpeg Noref_need_ffmpeg (asset s) then s
        else set_asset (set_use_path_as_workpath true (asset s)) s),
     Return tt).
Proof.
  unfold _set_asset_use_path_as_workpath. run_monad.
  by destruct (resolve cls _need_ffmpeg Noref_need_ffmpeg (asset s)).
Qed.

Lemma quiet_set_asset_use_path_as_workpath (cls : ExecutorClass) s :
  run_quiet (_set_asset_use_path_as_workpath cls) s.
Proof.
  unfold run_quiet. rewrite set_asset_use_path_as_workpath_run. simpl.
  eexists. split; [reflexivity|]. intros _. by repeat constructor.
Qed.

End workpath_facts.

Section flag_facts.
Context `{Environment}.

Lemma holds_housekeeping ob Q (self : Executor) :
  (∀ e, is_workfile_event e = false → Q e) →
  holds ob Q (_get_log_file_path self)
  ∧ (∀ p, holds ob Q (make_parent_dirs_if_nonexist p))
  ∧ holds ob Q (_prepare_log_file self)
  ∧ holds ob Q (call_generate_result self)
  ∧ holds ob Q (call_read_result self)
  ∧ (∀ r, holds ob Q (_save_result self r))
  ∧ holds ob Q (_remove_log self)
  ∧ (∀ d, holds ob Q (try_except (os_rmdir d) rmdir_handler))
  ∧ (∀ r, holds ob Q (call_post_process_result self r))
  ∧ holds ob Q (resolve (cls self) _assert_paths Noref_assert_paths).
Proof.
  intros HQ.
  assert (holds ob Q (_get_log_file_path self)) as Hpath.
  { unfold _get_log_file_path. holds_auto idtac. }
  assert (∀ p, holds ob Q (make_parent_dirs_if_nonexist p)) as Hdirs.
  { intros p. unfold make_parent_dirs_if_nonexist, exists_, os_makedirs.
    holds_auto ltac:(by apply HQ). }
  split; [done|]. split; [done|].
  split.
  { unfold _prepare_log_file, open_write.
    repeat first [exact Hpath | apply Hdirs | holds_step ltac:(by apply HQ)]. }
  split.
  { unfold call_generate_result. holds_auto ltac:(by apply HQ). }
  split.
  { unfold call_read_result. holds_auto ltac:(by apply HQ). }
  split.
  { intros r. unfold _save_result. holds_auto ltac:(by apply HQ). }
  split.
  { unfold _remove_log, exists_, os_remove.
    repeat first [exact Hpath | holds_step ltac:(by apply HQ)]. }
  split.
  { intros d. apply holds_try_except.
    - unfold os_rmdir. holds_auto ltac:(by apply HQ).
    - intros [] h; simpl; try done. intros [= <-]. holds_auto idtac. }
  split.
  { intros r. unfold call_post_process_result. holds_auto ltac:(by apply HQ). }
  unfold resolve, _assert_paths, Noref_assert_paths.
  destruct (noref (cls self)); holds_auto ltac:(by apply HQ).
Qed.

(** Everything a miss does after the decision step leaves the asset object
    alone and touches workfiles only when its flag is unset. *)
Lemma run_on_asset_quiet (self : Executor) (s : state) :
  run_quiet (_run_on_asset self) s.
Proof.
  unfold _run_on_asset.
  apply quiet_get_asset.
  apply quiet_bind_l.
  { holds_auto ltac:(reflexivity). }
  intros result s1.
  apply quiet_bind_r.
  2:{ intros r ob.
      by apply (holds_housekeeping ob (guarded ob) self); intros e He _. }
  destruct result as [r|].
  { apply quiet_of_holds. holds_auto ltac:(reflexivity). }
  apply quiet_bind_l.
  { holds_auto ltac:(reflexivity). }
  intros _ s2.
  apply quiet_bind_l.
  { by apply (holds_housekeeping (asset s2) not_workfile self). }
  intros _ s3.
  apply quiet_bind_r; [apply quiet_set_asset_use_path_as_workpath|].
  intros _ ob.
  destruct (holds_housekeeping ob (guarded ob) self)
    as (Hpath & Hdirs & Hlog & Hgen & Hread & Hsave & Hrm & Hrmdir & _);
    [by intros e He _|].
  pose proof (holds_close_any ob (cls self)) as Hclose.
  pose proof (holds_open_any ob self) as Hopen.
  repeat (cbn beta iota;
          first [ exact Hpath | apply Hdirs | exact Hlog | exact Hgen
                | exact Hread | apply Hsave | exact Hrm | apply Hrmdir
                | by apply holds_any_guarded
                | holds_step ltac:(by intros _) ]).
Qed.

(** C4: starting from an unset flag, the decision step sets it exactly
    when the transcode-needed predicate is false; a run that leaves the
    asset with its flag set has logged no workfile creation, no pipe, no
    producer, no transcoder command and no workfile teardown; and with the
    flag set a refresh before an additional pass does nothing. *)
Theorem use_path_as_workpath_iff_no_transcode (self : Executor) (s : state) :
  (use_path_as_workpath (asset s) = false →
   (use_path_as_workpath
      (asset (_set_asset_use_path_as_workpath (cls self) s).1) = true
    ↔ resolve (cls self) _need_ffmpeg Noref_need_ffmpeg (asset s) = false))
  ∧ (use_path_as_workpath (asset (_run_on_asset self s).1) = true →
     ∃ evs, trace (_run_on_asset self s).1 = trace s ++ evs
       ∧ Forall (λ e, is_workfile_event e = false) evs)
  ∧ (use_path_as_workpath (asset s) = true →
     _refresh_workfiles_before_additional_pass self s = (s, Return tt)).
Proof.
  split; [|split].
  - intros Hunset. rewrite set_asset_use_path_as_workpath_run. simpl.
    destruct (resolve (cls self) _need_ffmpeg Noref_need_ffmpeg (asset s));
      simpl; [rewrite Hunset|]; split; congruence.
  - intros Hflag.
    destruct (run_on_asset_quiet self s) as (evs & Htrace & Hquiet).
    exists evs. split; [done|]. by apply Hquiet.
  - intros Hflag. unfold _refresh_workfiles_before_additional_pass.
    run_monad. rewrite Hflag. by rewrite andb_false_r.
Qed.

End flag_facts.

(** ** The result store across a run *)

Section keeps_facts.
Context `{Environment}.

Lemma keeps_ret {A} (v : A) : keeps (mret v).
Proof. done. Qed.

Lemma keeps_lift {A} (o : outcome A) : keeps (lift o).
Proof. done. Qed.

Lemma keeps_emit e : keeps (emit e).
Proof. done. Qed.

Lemma keeps_fs_call {A} (f : FS → FS * outcome A) : keeps (fs_call f).
Proof. done. Qed.

Lemma keeps_get_asset : keeps get_asset.
Proof. done. Qed.

Lemma keeps_get_fs : keeps get_fs.
Proof. done. Qed.

Lemma keeps_bind {A B} (m : M A) (f : A → M B) :
  keeps m → (∀ a, keeps (f a)) → keeps (m ≫= f).
Proof.
  intros Hm Hf s. unfold mbind, M_bind.
  destruct (Hm s) as [Ha1 Hs1].
  destruct (m s) as [s1 [a|e]]; simpl in *; [|done].
  destruct (Hf a s1) as [Ha2 Hs2]. split; congruence.
Qed.

Lemma keeps_when (b : bool) (m : M unit) : keeps m → keeps (when b m).
Proof. by destruct b. Qed.

Lemma keeps_try_except {A} (body : M A) handler :
  keeps body → (∀ e h, handler e = Some h → keeps h) →
  keeps (try_except body handler).
Proof.
  intros Hbody Hh s. unfold try_except.
  destruct (Hbody s) as [Ha1 Hs1].
  destruct (body s) as [s1 [v|e]]; simpl in *; [done|].
  destruct (handler e) as [h|] eqn:Hhandler; simpl; [|done].
  destruct (Hh e h Hhandler s1) as [Ha2 Hs2]. split; congruence.
Qed.

Lemma wp_keeps {A} (m : M A) (Q : state → outcome A → Prop) s :
  keeps m →
  (∀ s1 o, asset s1 = asset s → store s1 = store s → Q s1 o) →
  wp m Q s.
Proof. intros Hm HQ. destruct (Hm s). by apply HQ. Qed.

End keeps_facts.

Ltac keeps_step :=
  lazymatch goal with
  | |- keeps (_ ≫= _) => apply keeps_bind; [|intros ?]
  | |- keeps (mret _) => apply keeps_ret
  | |- keeps (lift _) => apply keeps_lift
  | |- keeps (emit _) => apply keeps_emit
  | |- keeps (fs_call _) => apply keeps_fs_call
  | |- keeps get_asset => apply keeps_get_asset
  | |- keeps get_fs => apply keeps_get_fs
  | |- keeps (when _ _) => apply keeps_when
  | |- keeps (try_except _ _) => apply keeps_try_except
  | |- keeps (if ?b then _ else _) => destruct b
  end.

Ltac keeps_auto := repeat (cbn beta iota; keeps_step).

Section idempotence_facts.
Context `{Environment}.

Lemma keeps_cleanup (self : Executor) (r : Result) :
  keeps (when (delete_workdir self)
           (_remove_log self;;
            log_file_path ← _get_log_file_path self;
            let log_dir := get_dir_without_last_slash log_file_path in
            try_except (os_rmdir log_dir) rmdir_handler);;
         mret r).
Proof.
  unfold _remove_log, _get_log_file_path, exists_, os_remove, os_rmdir.
  keeps_auto.
  intros [] h; simpl; try done. intros [= <-]. keeps_auto.
Qed.

Lemma keeps_post_process (self : Executor) (r : Result) :
  keeps (call_post_process_result self r).
Proof. unfold call_post_process_result. keeps_auto. Qed.

Lemma call_read_result_run (self : Executor) s :
  call_read_result self s
  = (set_fs (_read_result (cls self) (asset s) (fs s)).1
       (set_trace (trace s ++ [EvCall "_read_result"]) s),
     (_read_result (cls self) (asset s) (fs s)).2).
Proof. done. Qed.

Lemma save_result_run (self : Executor) (r : Result) s :
  _save_result self r s
  = (set_store (store_save r (store s))
       (set_trace (trace s ++ [EvCall "_save_result"; EvSave]) s),
     Return r).
Proof.
  unfold _save_result. run_monad. unfold set_store, set_trace. simpl.
  by rewrite <-app_assoc.
Qed.

(** A run that returns leaves a result for its asset in the store. *)
Lemma run_on_asset_caches (self : Executor) (s : state) :
  result_store self = true → lawful_store → read_hook_tags self →
  wp (_run_on_asset self)
     (λ s1 o, (∃ r1, o = Return r1) → cached (executor_id self) s1) s.
Proof.
  intros Hstore Hlaw Htags.
  destruct (store_load (asset s) (executor_id self) (store s)) as [r|]
    eqn:Hload.
  { unfold wp. rewrite (run_on_asset_hit self s r Hstore Hload). simpl.
    intros _. unfold cached. simpl. by rewrite Hload. }
  unfold _run_on_asset. rewrite Hstore.
  apply wp_bind. unfold wp at 1. cbn [get_asset fst snd].
  apply wp_bind. unfold wp at 1.
  change ((emit (EvLoad (executor_id self));;
           st ← get_store; mret (store_load (asset s) (executor_id self) st)) s)
    with (set_trace (trace s ++ [EvLoad (executor_id self)]) s,
          Return (store_load (asset s) (executor_id self) (store s))).
  cbn [fst snd]. rewrite Hload.
  apply wp_bind.
  do 13 (apply wp_skip; [by intros ? ? [? [=]]|intros ? ?]).
  apply wp_bind. unfold wp at 1. rewrite call_read_result_run. cbn [fst snd].
  match goal with
  | |- context [_read_result (cls self) (asset ?s0) (fs ?s0')] =>
      destruct (_read_result (cls self) (asset s0) (fs s0')) as [m' [r|e]]
        eqn:Hread
  end; cbn [fst snd]; [|by intros [? [=]]].
  destruct (Htags _ _ _ _ Hread) as [Hasset Hid].
  apply wp_bind. unfold wp at 1. rewrite save_result_run. cbn [fst snd].
  apply wp_keeps; [apply keeps_cleanup|].
  intros sa [ra|e] Haa Hsa; [|by intros [? [=]]].
  apply wp_keeps; [apply keeps_post_process|].
  intros sb o Hab Hsb _. unfold cached.
  rewrite Hab, Hsb, Haa, Hsa. simpl.
  rewrite <-Hasset, <-Hid. rewrite Hlaw. by eexists.
Qed.

(** C1: with a result store whose [load] returns a stored result, a run
    only logs the lookup, the log record (when there is a logger) and the
    post-process step, changes nothing else of the state, and returns the
    post-processed cached result: no path assertion, workfile creation or
    teardown, log-file preparation, generate, read or save takes place
    (and validation is no step of a run at all).  Consequently, with a
    store that hands back what was saved and a read hook that files its
    results under the asset and executor id, running again after a run
    that returned is such a hit: the generate hook is not entered again. *)
Theorem cache_hit_short_circuits (self : Executor) :
  result_store self = true →
  (∀ s r, store_load (asset s) (executor_id self) (store s) = Some r →
     _run_on_asset self s
     = (set_trace (trace s ++ hit_events self) s,
        _post_process_result (cls self) r))
  ∧ (∀ e, e ∈ hit_events self →
       (∃ id, e = EvLoad id) ∨ (∃ msg, e = EvInfo msg)
       ∨ e = EvCall "_post_process_result")
  ∧ (∀ step, step ∈ miss_steps → EvCall step ∉ hit_events self)
  ∧ (lawful_store → read_hook_tags self →
     ∀ s s1 r1, _run_on_asset self s = (s1, Return r1) →
       ∃ r, _run_on_asset self s1
            = (set_trace (trace s1 ++ hit_events self) s1,
               _post_process_result (cls self) r)).
Proof.
  intros Hstore.
  assert (∀ e, e ∈ hit_events self →
            (∃ id, e = EvLoad id) ∨ (∃ msg, e = EvInfo msg)
            ∨ e = EvCall "_post_process_result") as Hevents.
  { intros e. unfold hit_events. rewrite !elem_of_app, !list_elem_of_singleton.
    intros [->|[Hinfo| ->]]; [by left; eexists| |by right; right].
    destruct (logger self); [|by apply elem_of_nil in Hinfo].
    apply list_elem_of_singleton in Hinfo as ->. right; left. by eexists. }
  split; [intros s r; by apply run_on_asset_hit|].
  split; [done|]. split.
  - intros step Hstep Hin.
    destruct (Hevents _ Hin) as [[id [=]]|[[msg [=]]|[= ->]]].
    revert Hstep. by apply (bool_decide_unpack (_ ∉ miss_steps)).
  - intros Hlaw Htags s s1 r1 Hrun.
    pose proof (run_on_asset_caches self s Hstore Hlaw Htags) as Hcached.
    unfold wp in Hcached. rewrite Hrun in Hcached. simpl in Hcached.
    destruct Hcached as [r Hr]; [by eexists|].
    exists r. by apply run_on_asset_hit.
Qed.

End idempotence_facts.

(** ** Workfile teardown *)

Section teardown_facts.
Context `{Environment}.

Lemma fs_remove_deletes (p : string) (m : FS) :
  deletes_at_most p m (fs_remove p m).1.
Proof.
  unfold fs_remove, deletes_at_most.
  destruct (m !! p) as [[]|] eqn:Hp; simpl; try (by left);
    destruct (parent_error m p); simpl; try (by left);
    right; split; by eauto.
Qed.

Lemma close_side_spec (name : string) (src wf : Asset → string) (s : state) :
  teardown_spec name src wf (close_side name src wf) s.
Proof.
  unfold teardown_spec, close_side, exists_, os_remove. run_monad.
  unfold py_assert.
  destruct (use_path_as_workpath (asset s)) eqn:Hflag; simpl.
  { split; [by left|]. split; [done|]. split; [done|]. congruence. }
  case_bool_decide as Hne; simpl.
  2:{ split; [by left|]. split; [done|]. split; [done|]. intros _ Hne'.
      by destruct Hne. }
  unfold os_path_exists. case_bool_decide as Hex; simpl.
  - pose proof (fs_remove_deletes (wf (asset s)) (fs s)) as Hdel.
    destruct (fs_remove (wf (asset s)) (fs s)) as [m' o] eqn:Hrm.
    simpl in *.
    destruct o as [[]|e]; simpl.
    all: split; [done|]; split;
      [destruct Hdel as [->|[_ ->]]; [done|by rewrite lookup_delete_ne]|];
      split; [by intros [[=]|?]|];
      intros _ _ Hnone; rewrite Hnone in Hex; by destruct Hex as [? [=]].
  - split; [by left|]. split; [done|]. split; [by intros [[=]|?]|]. done.
Qed.

(** C2 (as amended): teardown of a side first asserts that the
    use-path-as-workpath flag is unset and that the workfile path differs
    from the side's source path; when the flag is set or the two paths are
    equal it raises that assertion error and deletes nothing; otherwise it
    removes the workfile path when that path exists, and no other path, so
    the side's source is never deleted. *)
Theorem close_workfile_asserts_before_deleting (s : state) :
  teardown_spec "_close_ref_workfile" ref_path ref_workfile_path
    _close_ref_workfile s
  ∧ teardown_spec "_close_dis_workfile" dis_path dis_workfile_path
      _close_dis_workfile s.
Proof.
  split.
  - exact (close_side_spec "_close_ref_workfile" ref_path ref_workfile_path s).
  - exact (close_side_spec "_close_dis_workfile" dis_path dis_workfile_path s).
Qed.

End teardown_facts.

(** ** Waiting for the pipes *)

Section polling_facts.
Context `{Environment}.

Lemma sleep_run (ms : Z) s :
  sleep ms s
  = (set_clock (clock s + ms)
       (set_fs (background (clock s) (children s) (fs s))
          (set_trace (trace s ++ [EvSleep ms]) s)),
     Return tt).
Proof. done. Qed.

Lemma after_sleeps_S (k : nat) s :
  after_sleeps (S k) s = after_sleeps k (sleep 100 s).1.
Proof. unfold after_sleeps. by rewrite Nat.iter_succ_r. Qed.

Lemma after_sleeps_frame (k : nat) s :
  asset (after_sleeps k s) = asset s
  ∧ store (after_sleeps k s) = store s
  ∧ children (after_sleeps k s) = children s
  ∧ clock (after_sleeps k s) = clock s + 100 * Z.of_nat k
  ∧ trace (after_sleeps k s) = trace s ++ replicate k (EvSleep 100).
Proof.
  revert s. induction k as [|k IH]; intros s.
  - simpl. rewrite app_nil_r. repeat split; lia.
  - rewrite after_sleeps_S.
    destruct (IH (sleep 100 s).1) as (-> & -> & -> & -> & ->).
    rewrite sleep_run. simpl. rewrite <-app_assoc.
    repeat split; lia.
Qed.

(** A loop of [n] attempts that never finds what it polls for sleeps [n]
    times and is left without a [break]. *)
Lemma poll_times_out (test : FS → bool) (ready : M bool) (n : nat) s :
  (∀ s, ready s = (s, Return (test (fs s)))) →
  (∀ k, (k < n)%nat → test (fs (after_sleeps k s)) = false) →
  poll n ready s = (after_sleeps n s, Return false).
Proof.
  intros Hready. revert s. induction n as [|n IH]; intros s Hfail; [done|].
  rewrite after_sleeps_S. cbn [poll].
  erewrite bind_return by apply Hready.
  assert (test (fs s) = false) as -> by (apply (Hfail 0%nat); lia).
  erewrite bind_return by apply sleep_run.
  rewrite sleep_run. apply IH.
  intros k Hk. specialize (Hfail (S k)).
  rewrite after_sleeps_S, sleep_run in Hfail. apply Hfail. lia.
Qed.

(** A loop that finds what it polls for at attempt [k] stops there. *)
Lemma poll_finds (test : FS → bool) (ready : M bool) (n k : nat) s :
  (∀ s, ready s = (s, Return (test (fs s)))) →
  (k < n)%nat →
  (∀ j, (j < k)%nat → test (fs (after_sleeps j s)) = false) →
  test (fs (after_sleeps k s)) = true →
  poll n ready s = (after_sleeps k s, Return true).
Proof.
  intros Hready. revert k s. induction n as [|n IH]; intros k s Hk Hfail Hok.
  { lia. }
  cbn [poll]. erewrite bind_return by apply Hready.
  destruct k as [|k].
  - change (after_sleeps 0 s) with s in *. by rewrite Hok.
  - assert (test (fs s) = false) as -> by (apply (Hfail 0%nat); lia).
    erewrite bind_return by apply sleep_run.
    rewrite after_sleeps_S, sleep_run. apply IH; [lia| |].
    + intros j Hj. specialize (Hfail (S j)).
      rewrite after_sleeps_S, sleep_run in Hfail. apply Hfail. lia.
    + by rewrite after_sleeps_S, sleep_run in Hok.
Qed.

Lemma ready_both (a : Asset) s :
  (r ← exists_ (ref_workfile_path a);
   if (r : bool) then exists_ (dis_workfile_path a) else mret false) s
  = (s, Return (both_present a (fs s))).
Proof.
  unfold both_present, exists_. run_monad.
  by destruct (os_path_exists (fs s) (ref_workfile_path a)).
Qed.

Lemma ready_dis (a : Asset) s :
  exists_ (dis_workfile_path a) s
  = (s, Return (os_path_exists (fs s) (dis_workfile_path a))).
Proof. done. Qed.

(** The wait of either class, from the state [sp] in which its loop is
    entered: ten failed attempts end in the runtime error. *)
Lemma wait_times_out (cls : ExecutorClass) s :
  let sp := set_trace (trace s ++ [EvCall "_wait_for_workfiles"]) s in
  (∀ k, (k < 10)%nat →
     pipes_ready cls (asset s) (fs (after_sleeps k sp)) = false) →
  resolve cls _wait_for_workfiles Noref_wait_for_workfiles s
  = (after_sleeps 10 sp, Raise (RuntimeError (timeout_msg cls (asset s)))).
Proof.
  intros sp Hfail.
  unfold resolve, pipes_ready, timeout_msg in *.
  unfold _wait_for_workfiles, Noref_wait_for_workfiles.
  destruct (noref cls).
  - erewrite bind_return by apply emit_run.
    rewrite bind_get_asset.
    erewrite bind_return
      by (apply (poll_times_out
                   (λ m, os_path_exists m (dis_workfile_path (asset s))));
          [apply ready_dis|done]).
    done.
  - erewrite bind_return by apply emit_run.
    rewrite bind_get_asset.
    erewrite bind_return
      by (apply (poll_times_out (both_present (asset s)));
          [apply ready_both|done]).
    done.
Qed.

End polling_facts.

Section timeout_facts.
Context `{Environment}.

Lemma process_start_run (c : child) s :
  process_start c s
  = (set_children (children s ++ [c]) (set_trace (trace s ++ [EvStart c]) s),
     Return tt).
Proof. done. Qed.

(** Fifo mode starts the producers of the class and then waits. *)
Lemma open_workfiles_in_fifo_mode_run (self : Executor) s :
  resolve (cls self) _open_workfiles_in_fifo_mode
    Noref_open_workfiles_in_fifo_mode self s
  = resolve (cls self) _wait_for_workfiles Noref_wait_for_workfiles
      (set_trace (trace s ++ (EvStart <$> producers (cls self) (asset s)))
         (set_children (children s ++ producers (cls self) (asset s)) s)).
Proof.
  unfold producers, _open_workfiles_in_fifo_mode,
    Noref_open_workfiles_in_fifo_mode. unfold resolve.
  destruct (noref (cls self)) eqn:Hnoref; rewrite bind_get_asset.
  - erewrite bind_return by apply process_start_run.
    unfold set_children, set_trace. simpl. by rewrite Hnoref.
  - erewrite bind_return by apply process_start_run.
    erewrite bind_return by apply process_start_run.
    unfold set_children, set_trace. simpl.
    by rewrite Hnoref, <-!app_assoc.
Qed.

Lemma keeps_before_workfiles (self : Executor) :
  keeps (resolve (cls self) _assert_paths Noref_assert_paths)
  ∧ keeps (resolve (cls self) _close_workfiles Noref_close_workfiles)
  ∧ ∀ p, keeps (make_parent_dirs_if_nonexist p).
Proof.
  unfold resolve, _assert_paths, Noref_assert_paths, _close_workfiles,
    Noref_close_workfiles, _close_ref_workfile, _close_dis_workfile,
    make_parent_dirs_if_nonexist, exists_, os_remove, os_makedirs.
  split; [|split; [|intros p]]; try destruct (noref (cls self)); keeps_auto.
Qed.

Lemma holds_before_workfiles ob (self : Executor) :
  holds ob not_save (resolve (cls self) _assert_paths Noref_assert_paths)
  ∧ holds ob not_save
      (resolve (cls self) _close_workfiles Noref_close_workfiles)
  ∧ ∀ p, holds ob not_save (make_parent_dirs_if_nonexist p).
Proof.
  unfold resolve, _assert_paths, Noref_assert_paths, _close_workfiles,
    Noref_close_workfiles, _close_ref_workfile, _close_dis_workfile,
    make_parent_dirs_if_nonexist, exists_, os_remove, os_makedirs.
  split; [|split; [|intros p]]; try destruct (noref (cls self));
    holds_auto ltac:(done).
Qed.

(** C6: in fifo mode, on a miss for an asset that needs transcoding, once
    the path assertions, the early teardown and the creation of the log
    directory have gone through, the producers are started and the pipes
    are polled every 100 ms.  If at none of the ten attempts the pipes the
    class waits for are there (both for the base class, the distorted one
    for the no-reference mixin), the run is aborted by the runtime error
    of the wait, one second of sleeping after the polling began; the
    result store is as it was and no save is logged. *)
Theorem pipe_wait_times_out (self : Executor) (s s2 s4 s5 : state) :
  fifo_mode self = true →
  cache_miss self s →
  resolve (cls self) _assert_paths Noref_assert_paths (after_lookup self s)
  = (s2, Return tt) →
  use_path_as_workpath (asset s) = false →
  resolve (cls self) _need_ffmpeg Noref_need_ffmpeg (asset s) = true →
  resolve (cls self) _close_workfiles Noref_close_workfiles
    (set_trace (trace s2 ++ [EvCall "_set_asset_use_path_as_workpath"]) s2)
  = (s4, Return tt) →
  make_parent_dirs_if_nonexist (log_file_path_of self (asset s)) s4
  = (s5, Return tt) →
  let sp := polling_start (cls self) s5 in
  (∀ k, (k < 10)%nat →
     pipes_ready (cls self) (asset s) (fs (after_sleeps k sp)) = false) →
  let sf := after_sleeps 10 sp in
  _run_on_asset self s
  = (sf, Raise (RuntimeError (timeout_msg (cls self) (asset s))))
  ∧ clock sf = clock sp + 1000
  ∧ trace sf = trace sp ++ replicate 10 (EvSleep 100)
  ∧ store sf = store s
  ∧ ∃ evs, trace sf = trace s ++ evs ∧ EvSave ∉ evs.
Proof.
  intros Hfifo Hmiss Hpaths Hflag Hneed Hclose Hdirs sp Hfail sf.
  destruct (keeps_before_workfiles self) as (Kpaths & Kclose & Kdirs).
  destruct (Kpaths (after_lookup self s)) as [Ha2 Hs2].
  rewrite Hpaths in Ha2, Hs2. simpl in Ha2, Hs2.
  destruct (Kclose (set_trace (trace s2
              ++ [EvCall "_set_asset_use_path_as_workpath"]) s2))
    as [Ha4 Hs4].
  rewrite Hclose in Ha4, Hs4. simpl in Ha4, Hs4.
  destruct (Kdirs (log_file_path_of self (asset s)) s4) as [Ha5 Hs5].
  rewrite Hdirs in Ha5, Hs5. simpl in Ha5, Hs5.
  assert (asset s5 = asset s) as Hasset by congruence.
  assert (store s5 = store s) as Hstore by congruence.
  destruct (after_sleeps_frame 10 sp) as (Haf & Hsf & _ & Hcf & Htf).
  split; [|split; [exact Hcf|split; [exact Htf|split]]].
  all: subst sf.
  - (* the run, step by step *)
    unfold _run_on_asset. rewrite bind_get_asset.
    erewrite bind_return with
      (s1 := set_trace (trace s
               ++ (if result_store self then [EvLoad (executor_id self)]
                   else [])) s) (a := None).
    2:{ destruct (result_store self) eqn:Hrs; run_monad.
        - by rewrite Hmiss.
        - unfold set_trace. simpl. rewrite app_nil_r. by destruct s. }
    apply bind_raise.
    erewrite bind_return with (s1 := after_lookup self s) (a := tt).
    2:{ unfold after_lookup. destruct (logger self); run_monad;
          unfold set_trace; simpl; by rewrite <-?app_assoc, ?app_nil_r. }
    erewrite bind_return by exact Hpaths.
    erewrite bind_return by apply set_asset_use_path_as_workpath_run.
    rewrite Ha2. cbn [asset after_lookup set_trace]. rewrite Hneed.
    rewrite bind_get_asset. cbn [asset set_trace]. rewrite Ha2.
    cbn [asset after_lookup set_trace]. rewrite Hflag.
    erewrite bind_return by exact Hclose.
    erewrite bind_return with (s1 := s4)
      (a := log_file_path_of self (asset s)).
    2:{ unfold _get_log_file_path, log_file_path_of. rewrite bind_get_asset.
        rewrite Ha4. cbn [asset set_trace]. rewrite Ha2. done. }
    erewrite bind_return by exact Hdirs.
    rewrite bind_get_asset, Hasset, Hflag, Hfifo.
    apply bind_raise.
    rewrite open_workfiles_in_fifo_mode_run.
    rewrite wait_times_out.
    + unfold sp, polling_start. rewrite Hasset.
      do 2 f_equal; unfold set_trace, set_children; simpl;
        by rewrite <-?app_assoc, ?Hasset.
    + intros k Hk. cbn [asset set_trace set_children]. rewrite Hasset.
      specialize (Hfail k Hk). unfold sp, polling_start in Hfail.
      rewrite Hasset in Hfail.
      unfold set_trace, set_children in *. simpl in *.
      by rewrite <-app_assoc.
  - by rewrite Hsf.
  - (* the call log has no save *)
    destruct (holds_before_workfiles (asset s) self) as (Lpaths & Lclose & Ldirs).
    destruct (Lpaths (after_lookup self s) eq_refl) as (_ & e2 & Ht2 & Hq2).
    rewrite Hpaths in Ht2. simpl in Ht2.
    destruct (Lclose (set_trace (trace s2
                ++ [EvCall "_set_asset_use_path_as_workpath"]) s2))
      as (_ & e4 & Ht4 & Hq4); [done|].
    rewrite Hclose in Ht4. simpl in Ht4.
    destruct (Ldirs (log_file_path_of self (asset s)) s4) as (_ & e5 & Ht5 & Hq5);
      [congruence|].
    rewrite Hdirs in Ht5. simpl in Ht5.
    eexists. split.
    { rewrite Htf. unfold sp, polling_start. simpl.
      rewrite Ht5, Ht4, Ht2. rewrite <-!app_assoc. reflexivity. }
    assert (∀ evs : list event, Forall not_save evs → EvSave ∉ evs) as Hno.
    { intros evs Hall Hin. rewrite Forall_forall in Hall.
      by apply (Hall _ Hin). }
    apply Hno.
    repeat (apply Forall_app; split); try done.
    + destruct (result_store self); by repeat constructor.
    + destruct (logger self); by repeat constructor.
    + by repeat constructor.
    + apply Forall_fmap, Forall_true. by intros c.
    + by repeat constructor.
    + by repeat constructor.
Qed.

End timeout_facts.

(** ** Removal of the log directory *)

Section cleanup_facts.
Context `{Environment}.

(** Whatever [OSError] the removal of the log directory raises, errno 39
    or not, the except clause ends normally: nothing re-raises it. *)
Lemma rmdir_oserror_swallowed (d : string) (s : state) (errno : Z) :
  (os_rmdir d s).2 = Raise (OSError errno) →
  try_except (os_rmdir d) rmdir_handler s = ((os_rmdir d s).1, Return tt).
Proof.
  intros Hraise. unfold try_except.
  destruct (os_rmdir d s) as [s1 o]. simpl in Hraise. subst o. simpl.
  unfold when. by destruct (bool_decide (errno = 39)).
Qed.

(** Errors of any other class do leave the try statement. *)
Lemma rmdir_other_error_propagates (d : string) (s : state) (e : exn) :
  (os_rmdir d s).2 = Raise e → (∀ errno, e ≠ OSError errno) →
  try_except (os_rmdir d) rmdir_handler s = ((os_rmdir d s).1, Raise e).
Proof.
  intros Hraise Hclass. unfold try_except.
  destruct (os_rmdir d s) as [s1 o]. simpl in Hraise. subst o.
  destruct e; simpl; try done. by destruct (Hclass errno).
Qed.

End cleanup_facts.

(** ** What validation accepts *)

Section acceptance_facts.
Context `{Environment}.

Lemma py_assert_returns (b : bool) (msg : string) :
  py_assert b msg = Return tt ↔ b = true.
Proof. destruct b; simpl; split; congruence. Qed.

Lemma explicit_quality_size_true (asset : Asset) :
  explicit_quality_size asset = true ↔
  "quality_width" ∈ dom (asset_dict asset)
  ∧ "quality_height" ∈ dom (asset_dict asset).
Proof.
  unfold explicit_quality_size.
  by rewrite andb_true_iff, !bool_decide_eq_true.
Qed.

Lemma ffmpeg_step_returns (cls : ExecutorClass) (asset : Asset) :
  (if resolve cls _need_ffmpeg Noref_need_ffmpeg asset
   then get_and_assert_ffmpeg;; mret tt else mret tt) = Return tt ↔
  (resolve cls _need_ffmpeg Noref_need_ffmpeg asset = true →
   ∃ p, get_and_assert_ffmpeg = Return p).
Proof.
  destruct (resolve cls _need_ffmpeg Noref_need_ffmpeg asset).
  - destruct get_and_assert_ffmpeg as [p|e]; simpl; split; try done.
    + intros _ _. by exists p.
    + intros Hp. by destruct (Hp eq_refl).
  - split; done.
Qed.

Lemma geometry_step_returns (asset : Asset) :
  ((if is_not_None (crop_cmd asset)
    then py_assert (explicit_quality_size asset) crop_msg else mret tt);;
   (if is_not_None (pad_cmd asset)
    then py_assert (explicit_quality_size asset) pad_msg else mret tt))
  = Return tt ↔
  (crop_cmd asset ≠ None ∨ pad_cmd asset ≠ None →
   "quality_width" ∈ dom (asset_dict asset)
   ∧ "quality_height" ∈ dom (asset_dict asset)).
Proof.
  rewrite <-explicit_quality_size_true, <-!is_not_None_true.
  destruct (is_not_None (crop_cmd asset)), (is_not_None (pad_cmd asset)),
    (explicit_quality_size asset); simpl; intuition congruence.
Qed.

Lemma bind_returns (o : outcome unit) (k : outcome unit) :
  (o;; k) = Return tt ↔ o = Return tt ∧ k = Return tt.
Proof.
  destruct o as [[]|e]; simpl; split; try done.
  - by intros [_ ?].
  - by intros [? _].
Qed.

(** X1: the base validator accepts an asset exactly when its quality
    size is set, the transcoder lookup succeeds if the class needs the
    transcoder for it, its two pixel formats agree unless one of them is
    ['notyuv'], and a crop or a pad comes with [quality_width] and
    [quality_height] in the asset dictionary; the no-reference validator
    accepts under the same conditions but for the one on the formats. *)
Theorem assert_an_asset_accepts_iff (cls : ExecutorClass) (asset : Asset) :
  (_assert_an_asset cls asset = Return tt ↔
     quality_width_height asset ≠ None
     ∧ (resolve cls _need_ffmpeg Noref_need_ffmpeg asset = true →
        ∃ p, get_and_assert_ffmpeg = Return p)
     ∧ (ref_yuv_type asset = "notyuv" ∨ dis_yuv_type asset = "notyuv"
        ∨ ref_yuv_type asset = dis_yuv_type asset)
     ∧ (crop_cmd asset ≠ None ∨ pad_cmd asset ≠ None →
        "quality_width" ∈ dom (asset_dict asset)
        ∧ "quality_height" ∈ dom (asset_dict asset)))
  ∧ (Noref_assert_an_asset cls asset = Return tt ↔
       quality_width_height asset ≠ None
       ∧ (resolve cls _need_ffmpeg Noref_need_ffmpeg asset = true →
          ∃ p, get_and_assert_ffmpeg = Return p)
       ∧ (crop_cmd asset ≠ None ∨ pad_cmd asset ≠ None →
          "quality_width" ∈ dom (asset_dict asset)
          ∧ "quality_height" ∈ dom (asset_dict asset))).
Proof.
  unfold _assert_an_asset, Noref_assert_an_asset.
  rewrite !bind_returns, !py_assert_returns, ffmpeg_step_returns.
  pose proof (geometry_step_returns asset) as Hgeom.
  rewrite bind_returns in Hgeom. rewrite Hgeom.
  rewrite is_not_None_true, !orb_true_iff, !bool_decide_eq_true.
  clear Hgeom. split; [|done].
  split; intros (Hq & Hff & Hfmt & Hg);
    (split; [done|]); (split; [done|]); (split; [|done]);
    clear -Hfmt; tauto.
Qed.

Lemma Noref_need_ffmpeg_weaker (asset : Asset) :
  Noref_need_ffmpeg asset = true → _need_ffmpeg asset = true.
Proof.
  unfold _need_ffmpeg, Noref_need_ffmpeg.
  rewrite !orb_true_iff. tauto.
Qed.

(** X2: for an asset that passed the validation of its class, the
    workfile format resolution of that class returns (the assertion in
    [_get_workfile_yuv_type] cannot fail): it is the distorted side's
    format when that is a raw format; otherwise the asset's configured
    workfile format, unless the class is a full-reference one and the
    reference is raw, in which case it is the reference's format. *)
Theorem validated_asset_has_workfile_format (cls : ExecutorClass)
    (asset : Asset) :
  resolve cls _assert_an_asset Noref_assert_an_asset cls asset = Return tt →
  ∃ t,
    resolve cls _get_workfile_yuv_type Noref_get_workfile_yuv_type asset
    = Return t
    ∧ (dis_yuv_type asset ≠ "notyuv" → t = dis_yuv_type asset)
    ∧ (dis_yuv_type asset = "notyuv" →
       noref cls = true ∨ ref_yuv_type asset = "notyuv" →
       t = workfile_yuv_type asset)
    ∧ (dis_yuv_type asset = "notyuv" →
       noref cls = false → ref_yuv_type asset ≠ "notyuv" →
       t = ref_yuv_type asset).
Proof.
  unfold resolve. destruct (noref cls).
  - intros _. unfold Noref_get_workfile_yuv_type.
    case_bool_decide; eexists; (split; [reflexivity|]);
      repeat split; intros; first [done | tauto | congruence].
  - unfold _assert_an_asset.
    rewrite !bind_returns, !py_assert_returns, !orb_true_iff,
      !bool_decide_eq_true.
    intros (_ & _ & Hfmt & _).
    unfold _get_workfile_yuv_type, py_assert.
    repeat (case_bool_decide; simpl);
      first [ eexists; (split; [reflexivity|]); intuition congruence
            | exfalso; intuition congruence ].
Qed.

(** X3: an asset accepted by the validator of a full-reference class is
    accepted by the validator of every executor class, no-reference ones
    included: the mixin's transcode-needed predicate and its validator
    only drop conditions of the base class. *)
Theorem full_reference_acceptance_is_stricter (cls cls' : ExecutorClass)
    (asset : Asset) :
  noref cls = false →
  resolve cls _assert_an_asset Noref_assert_an_asset cls asset = Return tt →
  resolve cls' _assert_an_asset Noref_assert_an_asset cls' asset = Return tt.
Proof.
  intros Hbase Hacc.
  assert (_assert_an_asset cls asset = Return tt) as Hb.
  { unfold resolve in Hacc. by rewrite Hbase in Hacc. }
  clear Hacc. revert Hb.
  pose proof (Noref_need_ffmpeg_weaker asset) as Hweak.
  unfold resolve at 1, _assert_an_asset, Noref_assert_an_asset.
  destruct (noref cls') eqn:Hmixin;
    rewrite !bind_returns, !ffmpeg_step_returns;
    unfold resolve; rewrite Hbase, Hmixin; tauto.
Qed.

End acceptance_facts.

(** ** Edge cases of the identity and of the lock registry *)

Lemma string_length_app (s1 s2 : string) :
  String.length (s1 +:+ s2) = (String.length s1 + String.length s2)%nat.
Proof. induction s1 as [|c s1 IH]; simpl; [done|by rewrite IH]. Qed.

Section identity_edge_facts.
Context `{Environment}.

(** X4: the identity of an executor is the bare type-version string
    exactly when its impacts-result dictionary is [None] or empty; an
    executor with at least one such parameter never shares its identity
    (and so its cached results and log files) with the parameter-free
    one. *)
Theorem executor_id_bare_iff (self : Executor) :
  executor_id self
  = get_type_version_string (TYPE (cls self)) (VERSION (cls self))
  ↔ optional_dict self = None ∨ optional_dict self = Some [].
Proof.
  unfold executor_id.
  destruct (optional_dict self) as [[|kv d]|]; simpl.
  - split; [by right|done].
  - split; [|by intros [|]].
    intros Heq. apply (f_equal String.length) in Heq.
    rewrite !string_length_app in Heq. simpl in Heq. lia.
  - split; [by left|done].
Qed.

End identity_edge_facts.

Section lock_count_facts.
Context `{Environment}.

Lemma add_lock_count (r : registry) (a : Asset) :
  allocated r = size (map_asset_lock r) →
  ∃ r', add_lock r a = Return r'
    ∧ length (locks r') = S (length (locks r))
    ∧ allocated r' = size (map_asset_lock r')
    ∧ dom (map_asset_lock r') = dom (map_asset_lock r) ∪ {[asset_str a]}.
Proof.
  intros Hsize. unfold add_lock.
  case_bool_decide as Hdom; simpl.
  - apply not_elem_of_dom in Hdom.
    rewrite lookup_insert_eq. eexists. split; [reflexivity|]. simpl.
    split; [rewrite length_app; simpl; lia|].
    split; [by rewrite map_size_insert_None, Hsize|].
    rewrite dom_insert_L. apply (comm_L (∪)).
  - apply elem_of_dom in Hdom as [l Hl]. rewrite Hl.
    eexists. split; [reflexivity|]. simpl.
    split; [rewrite length_app; simpl; lia|].
    split; [done|].
    apply elem_of_dom_2 in Hl.
    rewrite (comm_L (∪)), subseteq_union_1_L; [done|].
    by apply singleton_subseteq_l.
Qed.

Lemma add_locks_count (assets : list Asset) (r : registry) :
  allocated r = size (map_asset_lock r) →
  ∃ r', add_locks r assets = Return r'
    ∧ length (locks r') = (length (locks r) + length assets)%nat
    ∧ allocated r' = size (map_asset_lock r')
    ∧ dom (map_asset_lock r')
      = dom (map_asset_lock r) ∪ list_to_set (asset_str <$> assets).
Proof.
  revert r. induction assets as [|a rest IH]; intros r Hsize.
  - exists r. simpl. split; [done|]. split; [lia|]. split; [done|].
    by rewrite (right_id_L ∅ (∪)).
  - destruct (add_lock_count r a Hsize) as (r1 & Hadd & Hlen1 & Hsize1 & Hdom1).
    destruct (IH r1 Hsize1) as (r2 & Hrest & Hlen2 & Hsize2 & Hdom2).
    exists r2. simpl. rewrite Hadd. simpl.
    split; [done|]. split; [lia|]. split; [done|].
    by rewrite Hdom2, Hdom1, <-(assoc_L (∪)).
Qed.

(** X5: the lock registry is always built (no [KeyError]); it hands
    out one lock per asset, holds an entry for exactly the string forms of
    the assets, and has allocated as many locks as there are distinct
    string forms. *)
Theorem one_lock_per_distinct_asset_string (assets : list Asset) :
  ∃ r, create_locks assets = Return r
    ∧ length (locks r) = length assets
    ∧ dom (map_asset_lock r) = list_to_set (asset_str <$> assets)
    ∧ allocated r = size (list_to_set (asset_str <$> assets) : gset string).
Proof.
  destruct (add_locks_count assets (Registry ∅ [] 0))
    as (r & Hrun & Hlen & Hsize & Hdom); [done|].
  exists r. simpl in Hlen, Hdom.
  rewrite dom_empty_L, (left_id_L ∅ (∪)) in Hdom.
  split; [done|]. split; [done|]. split; [done|].
  by rewrite Hsize, <-Hdom, size_dom.
Qed.

End lock_count_facts.

(** ** Opening workfiles and waiting for them *)

Section open_facts.
Context `{Environment}.

(** The shape shared by the two open methods up to the pipe. *)
Lemma open_guard_fails {B} (name : string) (k : Asset → unit → M B)
    (f : Asset → bool) s :
  f (asset s) = false →
  (emit (EvCall name);;
   asset ← get_asset;
   lift (py_assert (f asset) "") ≫= k asset) s
  = (set_trace (trace s ++ [EvCall name]) s, Raise (AssertionError "")).
Proof.
  intros Hf. erewrite bind_return by apply emit_run.
  rewrite bind_get_asset. cbn [asset set_trace]. rewrite Hf. done.
Qed.

(** X6: opening a workfile, in either mode, first asserts that the
    use-path-as-workpath flag is unset and that the workfile path is not
    the source path of its side; when that fails it raises the assertion
    error having logged nothing but its own entry: no pipe is created and
    no transcoder command (which would overwrite its own input) is
    issued. *)
Theorem open_workfile_asserts_first (self : Executor) (b : bool) (s : state) :
  (use_path_as_workpath (asset s) = true
   ∨ ref_path (asset s) = ref_workfile_path (asset s) →
   _open_ref_workfile self b s
   = (set_trace (trace s ++ [EvCall "_open_ref_workfile"]) s,
      Raise (AssertionError "")))
  ∧ (use_path_as_workpath (asset s) = true
     ∨ dis_path (asset s) = dis_workfile_path (asset s) →
     _open_dis_workfile self b s
     = (set_trace (trace s ++ [EvCall "_open_dis_workfile"]) s,
        Raise (AssertionError ""))).
Proof.
  split; intros Hbad.
  - unfold _open_ref_workfile.
    apply (open_guard_fails "_open_ref_workfile" _
             (λ a, negb (use_path_as_workpath a)
                   && bool_decide (ref_path a ≠ ref_workfile_path a))).
    destruct Hbad as [-> | Heq]; [done|].
    rewrite bool_decide_eq_false_2; [apply andb_false_r|]. by intros ?.
  - unfold _open_dis_workfile.
    apply (open_guard_fails "_open_dis_workfile" _
             (λ a, negb (use_path_as_workpath a)
                   && bool_decide (dis_path a ≠ dis_workfile_path a))).
    destruct Hbad as [-> | Heq]; [done|].
    rewrite bool_decide_eq_false_2; [apply andb_false_r|]. by intros ?.
Qed.

Lemma open_guard_mkfifo_exists {B} (name : string) (k : Asset → unit → M B)
    (f : Asset → bool) (wf : Asset → string) s :
  f (asset s) = true →
  wf (asset s) ≠ "" →
  is_Some (fs s !! wf (asset s)) →
  (emit (EvCall name);;
   asset ← get_asset;
   lift (py_assert (f asset) "");;
   when true (os_mkfifo (wf asset)) ≫= k asset) s
  = (set_trace (trace s ++ [EvCall name; EvMkfifo (wf (asset s))]) s,
     Raise (OSError EEXIST)).
Proof.
  intros Hf Hname [n Hn]. erewrite bind_return by apply emit_run.
  rewrite bind_get_asset. cbn [asset set_trace]. rewrite Hf.
  erewrite bind_return by reflexivity.
  apply bind_raise. unfold when, os_mkfifo.
  erewrite bind_return by apply emit_run.
  unfold fs_call, fs_mkfifo, fs_create. cbn [fs set_trace].
  rewrite bool_decide_eq_false_2 by done. rewrite Hn.
  unfold set_fs, set_trace. simpl. by rewrite <-app_assoc.
Qed.

(** X7: in fifo mode the pipe is created before anything else is
    computed: when the workfile path already has an entry, [os.mkfifo]
    fails with EEXIST, and opening raises that [OSError] with the file
    system untouched and no transcoder command issued (hence the early
    teardown of stale workfiles in a run). *)
Theorem fifo_open_refuses_existing_path (self : Executor) (s : state) :
  use_path_as_workpath (asset s) = false →
  (ref_path (asset s) ≠ ref_workfile_path (asset s) →
   ref_workfile_path (asset s) ≠ "" →
   is_Some (fs s !! ref_workfile_path (asset s)) →
   _open_ref_workfile self true s
   = (set_trace
        (trace s ++ [EvCall "_open_ref_workfile";
                     EvMkfifo (ref_workfile_path (asset s))]) s,
      Raise (OSError EEXIST)))
  ∧ (dis_path (asset s) ≠ dis_workfile_path (asset s) →
     dis_workfile_path (asset s) ≠ "" →
     is_Some (fs s !! dis_workfile_path (asset s)) →
     _open_dis_workfile self true s
     = (set_trace
          (trace s ++ [EvCall "_open_dis_workfile";
                       EvMkfifo (dis_workfile_path (asset s))]) s,
        Raise (OSError EEXIST))).
Proof.
  intros Hflag. split; intros Hne Hname Hex.
  - unfold _open_ref_workfile.
    apply (open_guard_mkfifo_exists "_open_ref_workfile" _
             (λ a, negb (use_path_as_workpath a)
                   && bool_decide (ref_path a ≠ ref_workfile_path a))
             ref_workfile_path); [|done..].
    by rewrite Hflag, bool_decide_eq_true_2.
  - unfold _open_dis_workfile.
    apply (open_guard_mkfifo_exists "_open_dis_workfile" _
             (λ a, negb (use_path_as_workpath a)
                   && bool_decide (dis_path a ≠ dis_workfile_path a))
             dis_workfile_path); [|done..].
    by rewrite Hflag, bool_decide_eq_true_2.
Qed.

End open_facts.

Section wait_facts.
Context `{Environment}.

(** X8: the wait returns at the first attempt that finds the pipes its
    class waits for: if that is attempt [k] (counted from 0, [k < 10]), it
    has slept exactly [k] times 100 ms, and nothing else has changed
    since the polling began; pipes that are already there cost no sleep. *)
Theorem wait_returns_at_first_sight (cls : ExecutorClass) (s : state)
    (k : nat) :
  let sp := set_trace (trace s ++ [EvCall "_wait_for_workfiles"]) s in
  (k < 10)%nat →
  (∀ j, (j < k)%nat →
     pipes_ready cls (asset s) (fs (after_sleeps j sp)) = false) →
  pipes_ready cls (asset s) (fs (after_sleeps k sp)) = true →
  resolve cls _wait_for_workfiles Noref_wait_for_workfiles s
  = (after_sleeps k sp, Return tt)
  ∧ clock (after_sleeps k sp) = clock s + 100 * Z.of_nat k
  ∧ trace (after_sleeps k sp) = trace sp ++ replicate k (EvSleep 100).
Proof.
  intros sp Hk Hfail Hok.
  destruct (after_sleeps_frame k sp) as (_ & _ & _ & Hclock & Htrace).
  split; [|by split].
  unfold resolve, pipes_ready in *.
  unfold _wait_for_workfiles, Noref_wait_for_workfiles.
  destruct (noref cls).
  - erewrite bind_return by apply emit_run.
    rewrite bind_get_asset.
    erewrite bind_return
      by (apply (poll_finds
                   (λ m, os_path_exists m (dis_workfile_path (asset s)))
                   _ 10 k);
          [apply ready_dis|done..]).
    done.
  - erewrite bind_return by apply emit_run.
    rewrite bind_get_asset.
    erewrite bind_return
      by (apply (poll_finds (both_present (asset s)) _ 10 k);
          [apply ready_both|done..]).
    done.
Qed.

End wait_facts.

Section command_facts.
Context `{Environment}.

Lemma wp_since_bind {A B} (m : M A) (f : A → M B) Q s0 s :
  since s0 Q s →
  holds (asset s0) Q m →
  (∀ a s1, since s0 Q s1 → wp (f a) (λ s2 _, since s0 Q s2) s1) →
  wp (m ≫= f) (λ s2 _, since s0 Q s2) s.
Proof.
  intros (Ha & evs & Ht & HQ) Hm Hnext. apply wp_bind. unfold wp at 1.
  destruct (Hm s Ha) as (Ha1 & evs1 & Ht1 & HQ1).
  assert (since s0 Q (m s).1) as Hs1.
  { split; [done|]. exists (evs ++ evs1).
    split; [by rewrite Ht1, Ht, app_assoc|by apply Forall_app]. }
  destruct (m s) as [s1 [a|e]]; simpl in *; [by apply Hnext|done].
Qed.

Lemma wp_since_lift {A B} (o : outcome A) (f : A → M B) Q s0 s :
  since s0 Q s →
  (∀ v, o = Return v → wp (f v) (λ s2 _, since s0 Q s2) s) →
  wp (lift o ≫= f) (λ s2 _, since s0 Q s2) s.
Proof.
  intros Hs Hnext. apply wp_bind. unfold wp at 1, lift. simpl.
  destruct o as [v|e]; [by apply Hnext|done].
Qed.

Lemma wp_since_holds {A} (m : M A) Q s0 s :
  since s0 Q s →
  holds (asset s0) Q m →
  wp m (λ s2 _, since s0 Q s2) s.
Proof.
  intros (Ha & evs & Ht & HQ) Hm. unfold wp.
  destruct (Hm s Ha) as (Ha1 & evs1 & Ht1 & HQ1).
  split; [done|]. exists (evs ++ evs1).
  split; [by rewrite Ht1, Ht, app_assoc|by apply Forall_app].
Qed.

Lemma unpack_returns {A} (t : option A) (v : A) :
  unpack t = Return v → t = Some v.
Proof. destruct t; simpl; congruence. Qed.

Lemma open_side_transcodes (name side : string) (src wf yuv : Asset → string)
    (size : Asset → option (Z * Z)) (self : Executor) (b : bool) (s : state) :
  ∃ evs,
    trace (open_side name side src wf yuv size self b s).1 = trace s ++ evs
    ∧ Forall (transcodes (src (asset s)) (wf (asset s)) (asset s)) evs.
Proof.
  set (T := transcodes (src (asset s)) (wf (asset s)) (asset s)).
  assert (wp (open_side name side src wf yuv size self b)
            (λ s1 _, since s T s1) s) as Hwp; [|by destruct Hwp].
  assert (∀ e, (∀ cmd, e ≠ EvRunProcess cmd) → T e) as Tother.
  { intros e He cmd ->. by destruct (He cmd). }
  unfold open_side.
  apply wp_since_bind.
  { split; [done|]. exists []. by rewrite app_nil_r. }
  { apply holds_emit. by apply Tother. }
  intros _ s1 Hs1.
  apply wp_bind. unfold wp at 1. cbn [get_asset fst snd].
  destruct Hs1 as [Ha1 Hs1]. rewrite Ha1.
  assert (since s T s1) as Hsince by done.
  clear Hs1.
  apply wp_since_lift; [done|].
  intros [] Hguard. apply py_assert_returns in Hguard.
  apply andb_true_iff in Hguard as [_ Hne]. apply bool_decide_eq_true in Hne.
  apply wp_since_bind; [done| |].
  { unfold os_mkfifo. holds_auto ltac:(by apply Tother). }
  clear dependent s1. intros _ s1 Hsince.
  apply wp_since_lift; [done|].
  intros [width height] Hquality. apply unpack_returns in Hquality.
  cbv zeta.
  apply wp_since_lift; [done|]. intros src_fmt_cmd _.
  apply wp_since_lift; [done|]. intros workfile_yuv_type _.
  apply wp_since_lift; [done|]. intros [vframes_cmd select_cmd] _.
  apply wp_since_lift; [done|]. intros ffmpeg _.
  apply wp_since_holds; [done|].
  unfold call_run_process.
  holds_auto ltac:(first [ by apply Tother | idtac ]).
  intros cmd [= <-]. split; [done|].
  by exists ffmpeg, src_fmt_cmd, workfile_yuv_type, vframes_cmd, select_cmd,
    width, height.
Qed.

(** X17: whatever opening a workfile logs, every transcoder command
    among it reads the source path of its side, writes (with [-y]) to the
    workfile path of that side, which is another path, and scales to the
    quality size of the asset with the asset's crop, pad and resampling
    settings: a command never overwrites its own input. *)
Theorem open_workfile_transcodes (self : Executor) (b : bool) (s : state) :
  (∃ evs,
     trace (_open_ref_workfile self b s).1 = trace s ++ evs
     ∧ Forall (transcodes (ref_path (asset s)) (ref_workfile_path (asset s))
                 (asset s)) evs)
  ∧ (∃ evs,
       trace (_open_dis_workfile self b s).1 = trace s ++ evs
       ∧ Forall (transcodes (dis_path (asset s))
                   (dis_workfile_path (asset s)) (asset s)) evs).
Proof.
  split.
  - exact (open_side_transcodes "_open_ref_workfile" "ref" ref_path
             ref_workfile_path ref_yuv_type ref_width_height self b s).
  - exact (open_side_transcodes "_open_dis_workfile" "dis" dis_path
             dis_workfile_path dis_yuv_type dis_width_height self b s).
Qed.

End command_facts.

(** ** Teardown, once more *)

Section teardown_again_facts.
Context `{Environment}.

(** A teardown of one side that returns has passed its assertion and
    leaves no entry at the workfile path; every other path, the asset
    object and the call log but for the entry of the method and the
    removal are as before. *)
Lemma close_side_returns (name : string) (src wf : Asset → string)
    (s s' : state) :
  close_side name src wf s = (s', Return tt) →
  fs s' !! wf (asset s) = None
  ∧ asset s' = asset s
  ∧ use_path_as_workpath (asset s) = false
  ∧ src (asset s) ≠ wf (asset s)
  ∧ (∀ p, fs s !! p = None → fs s' !! p = None).
Proof.
  unfold close_side, exists_, os_remove. run_monad. unfold py_assert.
  destruct (use_path_as_workpath (asset s)) eqn:Hflag; simpl; [done|].
  case_bool_decide as Hne; simpl; [|done].
  unfold os_path_exists. case_bool_decide as Hex; simpl.
  - unfold fs_remove.
    destruct (fs s !! wf (asset s)) as [[]|] eqn:Hp; simpl; try done;
      destruct (parent_error (fs s) (wf (asset s))); simpl; try done;
      intros [= <-]; simpl;
      (split; [apply lookup_delete_eq|]); repeat split; try done;
      intros p Hnone; by rewrite lookup_delete_None; right.
  - intros [= <-]. simpl. repeat split; try done.
    by apply eq_None_not_Some.
Qed.

(** A teardown of one side whose assertion passes and whose workfile path
    has no entry returns without touching the file system. *)
Lemma close_side_absent (name : string) (src wf : Asset → string) (s : state) :
  use_path_as_workpath (asset s) = false →
  src (asset s) ≠ wf (asset s) →
  fs s !! wf (asset s) = None →
  close_side name src wf s
  = (set_trace (trace s ++ [EvCall name]) s, Return tt).
Proof.
  intros Hflag Hne Hnone.
  destruct (close_side_spec name src wf s) as (_ & _ & _ & Hrun).
  by apply Hrun.
Qed.

(** X9: a teardown that returns leaves no entry at the distorted
    workfile path nor, for a full-reference class, at the reference
    workfile path; and it is idempotent: run again right away it returns
    again and leaves the file system as it is. *)
Theorem close_workfiles_clears_and_is_idempotent (cls : ExecutorClass)
    (s s' : state) :
  resolve cls _close_workfiles Noref_close_workfiles s = (s', Return tt) →
  fs s' !! dis_workfile_path (asset s) = None
  ∧ (noref cls = false → fs s' !! ref_workfile_path (asset s) = None)
  ∧ (resolve cls _close_workfiles Noref_close_workfiles s').2 = Return tt
  ∧ fs (resolve cls _close_workfiles Noref_close_workfiles s').1 = fs s'.
Proof.
  unfold resolve, _close_workfiles, Noref_close_workfiles.
  change _close_ref_workfile
    with (close_side "_close_ref_workfile" ref_path ref_workfile_path).
  change _close_dis_workfile
    with (close_side "_close_dis_workfile" dis_path dis_workfile_path).
  destruct (noref cls).
  - intros Hrun.
    destruct (close_side_returns _ _ _ _ _ Hrun)
      as (Hnone & Hasset & Hflag & Hne & _).
    split; [done|]. split; [done|].
    rewrite close_side_absent by (rewrite ?Hasset; done). done.
  - intros Hdis. unfold mbind, M_bind in Hdis.
    destruct (close_side "_close_ref_workfile" ref_path ref_workfile_path s)
      as [s1 [[]|e]] eqn:Href; [|done].
    destruct (close_side_returns _ _ _ _ _ Href)
      as (Hnone1 & Hasset1 & Hflag1 & Hne1 & _).
    destruct (close_side_returns _ _ _ _ _ Hdis)
      as (Hnone2 & Hasset2 & Hflag2 & Hne2 & Hkeep).
    rewrite Hasset1 in *.
    split; [done|]. split; [intros _; by apply Hkeep|].
    erewrite bind_return
      by (apply close_side_absent; rewrite ?Hasset2, ?Hasset1;
          [done|done|by apply Hkeep]).
    rewrite close_side_absent; [done|..]; cbn [asset fs set_trace];
      by rewrite ?Hasset2, ?Hasset1.
Qed.

End teardown_again_facts.

(** ** The asset object across a run *)

Section mark_facts.
Context `{Environment}.

Lemma set_use_path_as_workpath_twice (a : Asset) :
  set_use_path_as_workpath true (set_use_path_as_workpath true a)
  = set_use_path_as_workpath true a.
Proof. done. Qed.

Lemma marks_get_asset {B} (f : Asset → M B) s :
  marks (f (asset s)) s → marks (get_asset ≫= f) s.
Proof. done. Qed.

Lemma marks_of_holds {A} (m : M A) s :
  holds (asset s) any_event m → marks m s.
Proof. intros Hm. left. by apply (Hm s). Qed.

Lemma marks_bind_l {A B} (m : M A) (f : A → M B) s :
  holds (asset s) any_event m →
  (∀ a s1, marks (f a) s1) →
  marks (m ≫= f) s.
Proof.
  intros Hm Hf. unfold marks, mbind, M_bind.
  destruct (Hm s eq_refl) as (Ha1 & _).
  destruct (m s) as [s1 [a|e]]; simpl in *; [|by left].
  rewrite <-Ha1. apply Hf.
Qed.

Lemma marks_bind_r {A B} (m : M A) (f : A → M B) s :
  marks m s →
  (∀ a ob, holds ob any_event (f a)) →
  marks (m ≫= f) s.
Proof.
  intros Hm Hf. unfold marks, mbind, M_bind in *.
  destruct (m s) as [s1 [a|e]]; simpl in *; [|done].
  destruct (Hf a (asset s1) s1 eq_refl) as (Ha2 & _).
  by rewrite Ha2.
Qed.

Lemma marks_set_asset_use_path_as_workpath (cls : ExecutorClass) s :
  marks (_set_asset_use_path_as_workpath cls) s.
Proof.
  unfold marks. rewrite set_asset_use_path_as_workpath_run. simpl.
  destruct (resolve cls _need_ffmpeg Noref_need_ffmpeg (asset s));
    [by left|by right].
Qed.

Lemma run_on_asset_marks (self : Executor) (s : state) :
  marks (_run_on_asset self) s.
Proof.
  unfold _run_on_asset.
  apply marks_get_asset.
  apply marks_bind_l.
  { holds_auto ltac:(exact I). }
  intros result s1.
  apply marks_bind_r.
  2:{ intros r ob. by apply (holds_housekeeping ob any_event self). }
  destruct result as [r|].
  { apply marks_of_holds. holds_auto ltac:(exact I). }
  apply marks_bind_l.
  { holds_auto ltac:(exact I). }
  intros _ s2.
  apply marks_bind_l.
  { by apply (holds_housekeeping (asset s2) any_event self). }
  intros _ s3.
  apply marks_bind_r; [apply marks_set_asset_use_path_as_workpath|].
  intros _ ob.
  destruct (holds_housekeeping ob any_event self)
    as (Hpath & Hdirs & Hlog & Hgen & Hread & Hsave & Hrm & Hrmdir & _);
    [done|].
  pose proof (holds_close_any ob (cls self)) as Hclose.
  pose proof (holds_open_any ob self) as Hopen.
  repeat (cbn beta iota;
          first [ exact Hpath | apply Hdirs | exact Hlog | exact Hgen
                | exact Hread | apply Hsave | exact Hrm | apply Hrmdir
                | exact Hclose | exact Hopen
                | holds_step ltac:(exact I) ]).
Qed.

Lemma set_use_path_as_workpath_same (a : Asset) :
  use_path_as_workpath a = true → set_use_path_as_workpath true a = a.
Proof. destruct a. simpl. by intros ->. Qed.

(** X13: a run changes nothing of the asset object but its
    use-path-as-workpath flag, and that only from unset to set: the flag
    is never cleared. *)
Theorem run_changes_only_the_flag (self : Executor) (s : state) :
  asset (_run_on_asset self s).1 = asset s
  ∨ (use_path_as_workpath (asset s) = false
     ∧ asset (_run_on_asset self s).1
       = set_use_path_as_workpath true (asset s)).
Proof.
  destruct (run_on_asset_marks self s) as [Hsame|Hset]; [by left|].
  destruct (use_path_as_workpath (asset s)) eqn:Hflag; [left|by right].
  by rewrite Hset, set_use_path_as_workpath_same.
Qed.

(** X14: the flag is sticky.  A run on an asset object whose flag is
    already set (by an earlier run, of whatever class) leaves the object
    as it is and creates or tears down no workfile, starts no producer and
    issues no transcoder command, even if the transcode-needed predicate
    of the executor's class holds for the asset. *)
Theorem set_flag_is_sticky (self : Executor) (s : state) :
  use_path_as_workpath (asset s) = true →
  asset (_run_on_asset self s).1 = asset s
  ∧ ∃ evs, trace (_run_on_asset self s).1 = trace s ++ evs
      ∧ Forall (λ e, is_workfile_event e = false) evs.
Proof.
  intros Hflag.
  assert (asset (_run_on_asset self s).1 = asset s) as Hend.
  { destruct (run_on_asset_marks self s) as [Hsame|Hset]; [done|].
    by rewrite Hset, set_use_path_as_workpath_same. }
  split; [done|].
  destruct (run_on_asset_quiet self s) as (evs & Htrace & Hquiet).
  exists evs. split; [done|]. apply Hquiet. by rewrite Hend.
Qed.

End mark_facts.

(** ** Missing sources *)

Section early_facts.
Context `{Environment}.

(** A miss reaches the path assertion with nothing but the lookup logged. *)
Lemma run_on_asset_miss (self : Executor) (s : state) s1 e :
  cache_miss self s →
  resolve (cls self) _assert_paths Noref_assert_paths (after_lookup self s)
  = (s1, Raise e) →
  _run_on_asset self s = (s1, Raise e).
Proof.
  intros Hmiss Hpaths.
  unfold _run_on_asset. rewrite bind_get_asset.
  erewrite bind_return with
    (s1 := set_trace (trace s
             ++ (if result_store self then [EvLoad (executor_id self)]
                 else [])) s) (a := None).
  2:{ destruct (result_store self) eqn:Hrs; run_monad.
      - by rewrite Hmiss.
      - unfold set_trace. simpl. rewrite app_nil_r. by destruct s. }
  apply bind_raise.
  erewrite bind_return with (s1 := after_lookup self s) (a := tt).
  2:{ unfold after_lookup. destruct (logger self); run_monad;
        unfold set_trace; simpl; by rewrite <-?app_assoc, ?app_nil_r. }
  by apply bind_raise.
Qed.

(** X10: on a miss the source paths are checked before any work is
    done.  With a full-reference class and no reference source (neither
    the path nor a glob match), or with no distorted source, the run
    raises the assertion error that names the path, and nothing but the
    call log has changed: the flag of the asset is undecided, no directory
    or workfile has been created, nothing is stored. *)
Theorem missing_source_aborts_before_any_work (self : Executor) (s : state) :
  cache_miss self s →
  (noref (cls self) = false →
   source_present (ref_path (asset s)) (fs s) = false →
   _run_on_asset self s
   = (after_assert_paths self s,
      Raise (AssertionError ("Reference path " +:+ ref_path (asset s)
                             +:+ " does not exist."))))
  ∧ (noref (cls self) = true
     ∨ source_present (ref_path (asset s)) (fs s) = true →
     source_present (dis_path (asset s)) (fs s) = false →
     _run_on_asset self s
     = (after_assert_paths self s,
        Raise (AssertionError ("Distorted path " +:+ dis_path (asset s)
                               +:+ " does not exist.")))).
Proof.
  intros Hmiss. unfold source_present, after_assert_paths.
  split.
  - intros Hbase Href. apply run_on_asset_miss; [done|].
    unfold resolve. rewrite Hbase. unfold _assert_paths.
    erewrite bind_return by apply emit_run.
    unfold get_asset, get_fs, lift. unfold mbind, M_bind.
    cbn [asset fs set_trace after_lookup]. by rewrite Href.
  - intros Href Hdis. apply run_on_asset_miss; [done|].
    unfold resolve. destruct (noref (cls self)).
    + unfold Noref_assert_paths.
      erewrite bind_return by apply emit_run.
      unfold get_asset, get_fs, lift. unfold mbind, M_bind.
      cbn [asset fs set_trace after_lookup]. by rewrite Hdis.
    + destruct Href as [?|Href]; [done|]. unfold _assert_paths.
      erewrite bind_return by apply emit_run.
      unfold get_asset, get_fs, lift. unfold mbind, M_bind.
      cbn [asset fs set_trace after_lookup]. by rewrite Href, Hdis.
Qed.

End early_facts.

(** ** The result store across any run *)

Section store_frame_facts.
Context `{Environment}.

Lemma keeps_store_ret {A} (v : A) : keeps_store (mret v).
Proof. done. Qed.

Lemma keeps_store_raise {A} e : keeps_store (raise e : M A).
Proof. done. Qed.

Lemma keeps_store_lift {A} (o : outcome A) : keeps_store (lift o).
Proof. done. Qed.

Lemma keeps_store_emit e : keeps_store (emit e).
Proof. done. Qed.

Lemma keeps_store_fs_call {A} (f : FS → FS * outcome A) :
  keeps_store (fs_call f).
Proof. done. Qed.

Lemma keeps_store_get_asset : keeps_store get_asset.
Proof. done. Qed.

Lemma keeps_store_get_fs : keeps_store get_fs.
Proof. done. Qed.

Lemma keeps_store_modify (f : state → state) :
  (∀ s, store (f s) = store s) → keeps_store (modify f).
Proof. intros Hf s. apply Hf. Qed.

Lemma keeps_store_bind {A B} (m : M A) (f : A → M B) :
  keeps_store m → (∀ a, keeps_store (f a)) → keeps_store (m ≫= f).
Proof.
  intros Hm Hf s. unfold mbind, M_bind.
  pose proof (Hm s) as Hs1.
  destruct (m s) as [s1 [a|e]]; simpl in *; [|done].
  by rewrite Hf.
Qed.

Lemma keeps_store_when (b : bool) (m : M unit) :
  keeps_store m → keeps_store (when b m).
Proof. by destruct b. Qed.

Lemma keeps_store_try_except {A} (body : M A) handler :
  keeps_store body → (∀ e h, handler e = Some h → keeps_store h) →
  keeps_store (try_except body handler).
Proof.
  intros Hbody Hh s. unfold try_except.
  pose proof (Hbody s) as Hs1.
  destruct (body s) as [s1 [v|e]]; simpl in *; [done|].
  destruct (handler e) as [h|] eqn:Hhandler; simpl; [|done].
  by rewrite (Hh e h Hhandler).
Qed.

Lemma keeps_store_poll n (ready : M bool) :
  keeps_store ready → keeps_store (poll n ready).
Proof.
  intros Hready. induction n as [|n IH]; simpl; [done|].
  apply keeps_store_bind; [done|]. intros [|]; [done|].
  apply keeps_store_bind; [|done].
  unfold sleep. apply keeps_store_bind; [done|]. intros _.
  by apply keeps_store_modify.
Qed.

Lemma wp_keeps_store {A B} (m : M A) (f : A → M B) Q s :
  keeps_store m →
  (∀ s1 e, store s1 = store s → Q s1 (Raise e)) →
  (∀ a s1, store s1 = store s → wp (f a) Q s1) →
  wp (m ≫= f) Q s.
Proof.
  intros Hm Hraise Hnext. apply wp_bind. unfold wp at 1.
  pose proof (Hm s) as Hs1.
  destruct (m s) as [s1 [a|e]]; simpl in *; [by apply Hnext|by apply Hraise].
Qed.

End store_frame_facts.

Ltac keeps_store_step :=
  lazymatch goal with
  | |- keeps_store (poll _ _) => apply keeps_store_poll
  | |- keeps_store (_ ≫= _) => apply keeps_store_bind; [|intros ?]
  | |- keeps_store (mret _) => apply keeps_store_ret
  | |- keeps_store (raise _) => apply keeps_store_raise
  | |- keeps_store (lift _) => apply keeps_store_lift
  | |- keeps_store (emit _) => apply keeps_store_emit
  | |- keeps_store (fs_call _) => apply keeps_store_fs_call
  | |- keeps_store get_asset => apply keeps_store_get_asset
  | |- keeps_store get_fs => apply keeps_store_get_fs
  | |- keeps_store (modify _) => apply keeps_store_modify; done
  | |- keeps_store (when _ _) => apply keeps_store_when
  | |- keeps_store (try_except _ _) => apply keeps_store_try_except
  | |- keeps_store (if ?b then _ else _) => destruct b eqn:?
  | |- keeps_store (match ?x with _ => _ end) => destruct x
  end.

Ltac keeps_store_auto := repeat (cbn beta iota; keeps_store_step).

Section store_facts.
Context `{Environment}.

Lemma keeps_store_open (self : Executor) b :
  keeps_store (_open_ref_workfile self b)
  ∧ keeps_store (_open_dis_workfile self b).
Proof.
  unfold _open_ref_workfile, _open_dis_workfile, os_mkfifo, call_run_process.
  split; keeps_store_auto.
Qed.

Lemma keeps_store_wait (cls : ExecutorClass) :
  keeps_store (resolve cls _wait_for_workfiles Noref_wait_for_workfiles).
Proof.
  unfold resolve, _wait_for_workfiles, Noref_wait_for_workfiles, exists_.
  destruct (noref cls); keeps_store_auto.
Qed.

Lemma keeps_store_workfiles (self : Executor) :
  keeps_store (resolve (cls self) _close_workfiles Noref_close_workfiles)
  ∧ keeps_store
      (if fifo_mode self then
         resolve (cls self) _open_workfiles_in_fifo_mode
           Noref_open_workfiles_in_fifo_mode self
       else resolve (cls self) open_workfiles Noref_open_workfiles self).
Proof.
  split.
  { intros s. by destruct (keeps_before_workfiles self) as (_ & Hclose & _),
      (Hclose s). }
  pose proof (keeps_store_wait (cls self)) as Hwait.
  destruct (keeps_store_open self true) as [Href Hdis].
  destruct (keeps_store_open self false) as [Href' Hdis'].
  unfold resolve.
  unfold _open_workfiles_in_fifo_mode, Noref_open_workfiles_in_fifo_mode,
    open_workfiles, Noref_open_workfiles, process_start.
  destruct (fifo_mode self), (noref (cls self));
    repeat first [exact Hwait | exact Href' | exact Hdis'
                 | keeps_store_step].
Qed.

Lemma keeps_store_housekeeping (self : Executor) :
  keeps_store (resolve (cls self) _assert_paths Noref_assert_paths)
  ∧ keeps_store (_set_asset_use_path_as_workpath (cls self))
  ∧ keeps_store (_get_log_file_path self)
  ∧ (∀ p, keeps_store (make_parent_dirs_if_nonexist p))
  ∧ keeps_store (_prepare_log_file self)
  ∧ keeps_store (call_generate_result self).
Proof.
  unfold resolve, _assert_paths, Noref_assert_paths,
    _set_asset_use_path_as_workpath, _prepare_log_file, _get_log_file_path,
    make_parent_dirs_if_nonexist, call_generate_result, exists_,
    os_makedirs, open_write.
  split; [|split; [|split; [|split; [intros p|split]]]];
    try destruct (noref (cls self)); keeps_store_auto.
Qed.

(** X11: whatever a run does, and however it ends, the result store is
    either as it was, or (only for an executor with a result store, on a
    miss) as it was plus one save, of a result that the read hook
    returned.  In particular an executor without a result store, a hit,
    and a run that fails before its result is read leave the store
    untouched. *)
Theorem store_changes_only_by_saving_the_read_result (self : Executor)
    (s : state) :
  store (_run_on_asset self s).1 = store s
  ∨ (result_store self = true
     ∧ store_load (asset s) (executor_id self) (store s) = None
     ∧ ∃ a m r,
         (_read_result (cls self) a m).2 = Return r
         ∧ store (_run_on_asset self s).1 = store_save r (store s)).
Proof.
  change (wp (_run_on_asset self)
            (λ s1 _,
               store s1 = store s
               ∨ (result_store self = true
                  ∧ store_load (asset s) (executor_id self) (store s) = None
                  ∧ ∃ a m r,
                      (_read_result (cls self) a m).2 = Return r
                      ∧ store s1 = store_save r (store s))) s).
  destruct (keeps_store_housekeeping self)
    as (Hpaths & Hflag & Hpath & Hdirs & Hlog & Hgen).
  destruct (keeps_store_workfiles self) as (Hclose & Hopen).
  unfold _run_on_asset.
  apply wp_bind. unfold wp at 1. cbn [get_asset fst snd].
  apply wp_bind. unfold wp at 1.
  set (lookup := if result_store self then _ else _).
  assert (lookup s
          = (set_trace (trace s
               ++ (if result_store self then [EvLoad (executor_id self)]
                   else [])) s,
             Return (if result_store self
                     then store_load (asset s) (executor_id self) (store s)
                     else None))) as ->.
  { subst lookup. destruct (result_store self); run_monad; [done|].
    unfold set_trace. simpl. rewrite app_nil_r. by destruct s. }
  cbn [fst snd].
  set (s0 := set_trace _ s).
  assert (store s0 = store s) as Hs0 by done.
  clearbody s0.
  destruct (if result_store self
            then store_load (asset s) (executor_id self) (store s)
            else None) as [r|] eqn:Hload.
  { apply wp_keeps_store; [keeps_store_auto| |].
    - intros s1 e Hs1. left. congruence.
    - intros r1 s1 Hs1. unfold wp.
      pose proof (keeps_post_process self r1 s1) as [_ Hpost].
      left. congruence. }
  apply wp_bind.
  do 13 (apply wp_keeps_store;
         [ repeat (cbn beta iota;
                   first [ exact Hpaths | exact Hflag | exact Hpath
                         | apply Hdirs | exact Hlog | exact Hgen
                         | exact Hclose | exact Hopen | keeps_store_step ])
         | intros ? ? ?; left; congruence
         | intros ? ? ? ]).
  assert (store s13 = store s) as Hs13 by congruence.
  apply wp_bind. unfold wp at 1. rewrite call_read_result_run.
  cbn [fst snd].
  destruct (_read_result (cls self) (asset s13) (fs s13)) as [m' [r|e]]
    eqn:Hread; cbn [fst snd]; [|by left].
  destruct (result_store self) eqn:Hrs.
  - apply wp_bind. unfold wp at 1. rewrite save_result_run. cbn [fst snd].
    apply wp_keeps; [apply keeps_cleanup|].
    intros sa o _ Hsa.
    assert (store sa = store_save r (store s)) as Hsaved.
    { rewrite Hsa. simpl. by rewrite Hs13. }
    assert (∃ a m r0,
              (_read_result (cls self) a m).2 = Return r0
              ∧ store sa = store_save r0 (store s)) as Hwitness.
    { exists (asset s13), (fs s13), r. by rewrite Hread. }
    destruct o as [ra|e]; [|by right].
    pose proof (keeps_post_process self ra sa) as [_ Hpost].
    right. unfold wp. rewrite Hpost. done.
  - apply wp_bind. unfold wp at 1. cbn [fst snd mret M_ret].
    apply wp_keeps; [apply keeps_cleanup|].
    intros sa o _ Hsa. simpl in Hsa.
    destruct o as [ra|e]; [|left; congruence].
    pose proof (keeps_post_process self ra sa) as [_ Hpost].
    left. unfold wp. rewrite Hpost. congruence.
Qed.


End store_facts.

(** ** What a run returns *)

Section result_facts.
Context `{Environment}.

Lemma keeps_cleanup_steps (self : Executor) :
  keeps (when (delete_workdir self)
           (_remove_log self;;
            log_file_path ← _get_log_file_path self;
            let log_dir := get_dir_without_last_slash log_file_path in
            try_except (os_rmdir log_dir) rmdir_handler)).
Proof.
  unfold _remove_log, _get_log_file_path, exists_, os_remove, os_rmdir.
  keeps_auto.
  intros [] h; simpl; try done. intros [= <-]. keeps_auto.
Qed.

(** X21: on a miss, a run that returns returns the post-processed
    result of the read hook, called on the asset object as the run leaves
    it: saving and cleaning up do not alter the result. *)
Theorem miss_returns_post_processed_read_result (self : Executor)
    (s s' : state) (r : Result) :
  cache_miss self s →
  _run_on_asset self s = (s', Return r) →
  ∃ m r0,
    (_read_result (cls self) (asset s') m).2 = Return r0
    ∧ _post_process_result (cls self) r0 = Return r.
Proof.
  intros Hmiss Hrun.
  assert (wp (_run_on_asset self)
            (λ s1 o, ∀ r1, o = Return r1 →
               ∃ m r0,
                 (_read_result (cls self) (asset s1) m).2 = Return r0
                 ∧ _post_process_result (cls self) r0 = Return r1) s)
    as Hwp.
  2:{ unfold wp in Hwp. rewrite Hrun in Hwp. by apply Hwp. }
  clear Hrun.
  unfold _run_on_asset.
  apply wp_bind. unfold wp at 1. cbn [get_asset fst snd].
  apply wp_bind. unfold wp at 1.
  assert (∃ sl, (if result_store self
                 then emit (EvLoad (executor_id self));;
                      st ← get_store;
                      mret (store_load (asset s) (executor_id self) st)
                 else mret None) s = (sl, Return None)) as [sl ->].
  { destruct (result_store self) eqn:Hrs; run_monad; [|by eexists].
    rewrite Hmiss by done. by eexists. }
  cbn [fst snd].
  apply wp_bind.
  do 13 (apply wp_skip; [by intros ? ? ? [=]|intros ? ?]).
  apply wp_bind. unfold wp at 1. rewrite call_read_result_run.
  cbn [fst snd].
  match goal with
  | |- context [_read_result (cls self) (asset ?s0) (fs ?s0')] =>
      destruct (_read_result (cls self) (asset s0) (fs s0')) as [m' [r0|e]]
        eqn:Hread; set (sr := s0) in *
  end; cbn [fst snd]; [|by intros ? [=]].
  assert (∃ sv, (if result_store self then _save_result self r0
                 else mret r0)
                  (set_fs m' (set_trace (trace sr ++ [EvCall "_read_result"])
                                sr))
                = (sv, Return r0) ∧ asset sv = asset sr) as (sv & Hsave & Hsv).
  { destruct (result_store self).
    - rewrite save_result_run. by eexists.
    - by eexists. }
  apply wp_bind. unfold wp at 1. rewrite Hsave. cbn [fst snd].
  apply wp_bind. apply wp_keeps; [apply keeps_cleanup_steps|].
  intros sa [[]|e] Hsa _; [|by intros ? [=]].
  unfold wp, call_post_process_result. run_monad.
  intros r1 Hpost. exists (fs sr), r0. split; [|done].
  by rewrite Hsa, Hsv, Hread.
Qed.

End result_facts.

(** ** What a run logs *)

Section log_frame_facts.
Context `{Environment}.

Implicit Types (Q : event → Prop).

Lemma logs_silent {A} Q (m : M A) :
  (∀ s, trace (m s).1 = trace s) → logs Q m.
Proof. intros Hm s. exists []. by rewrite app_nil_r, Hm. Qed.

Lemma logs_emit Q e : Q e → logs Q (emit e).
Proof. intros He s. exists [e]. by repeat constructor. Qed.

Lemma logs_bind {A B} Q (m : M A) (f : A → M B) :
  logs Q m → (∀ a, logs Q (f a)) → logs Q (m ≫= f).
Proof.
  intros Hm Hf s. unfold mbind, M_bind.
  destruct (Hm s) as (evs1 & Ht1 & HQ1).
  destruct (m s) as [s1 [a|e]]; simpl in *; [|by exists evs1].
  destruct (Hf a s1) as (evs2 & Ht2 & HQ2).
  exists (evs1 ++ evs2).
  split; [by rewrite Ht2, Ht1, app_assoc|by apply Forall_app].
Qed.

Lemma logs_when Q (b : bool) (m : M unit) : logs Q m → logs Q (when b m).
Proof. destruct b; [done|]. intros _. by apply logs_silent. Qed.

Lemma logs_try_except {A} Q (body : M A) handler :
  logs Q body → (∀ e h, handler e = Some h → logs Q h) →
  logs Q (try_except body handler).
Proof.
  intros Hbody Hh s. unfold try_except.
  destruct (Hbody s) as (evs1 & Ht1 & HQ1).
  destruct (body s) as [s1 [v|e]]; simpl in *; [by exists evs1|].
  destruct (handler e) as [h|] eqn:Hhandler; simpl; [|by exists evs1].
  destruct (Hh e h Hhandler s1) as (evs2 & Ht2 & HQ2).
  exists (evs1 ++ evs2).
  split; [by rewrite Ht2, Ht1, app_assoc|by apply Forall_app].
Qed.

Lemma logs_sleep Q ms : Q (EvSleep ms) → logs Q (sleep ms).
Proof.
  intros HQ. unfold sleep. apply logs_bind; [by apply logs_emit|].
  intros _. by apply logs_silent.
Qed.

Lemma logs_poll Q n (ready : M bool) :
  Q (EvSleep 100) → logs Q ready → logs Q (poll n ready).
Proof.
  intros HQ Hready. induction n as [|n IH]; simpl.
  - by apply logs_silent.
  - apply logs_bind; [done|]. intros [|]; [by apply logs_silent|].
    apply logs_bind; [by apply logs_sleep|done].
Qed.

End log_frame_facts.

(** Decomposes a [logs] goal along the structure of the computation; the
    events met on the way are left to [tac]. *)
Ltac logs_step tac :=
  lazymatch goal with
  | |- logs _ (poll _ _) => apply logs_poll; [tac|]
  | |- logs _ (_ ≫= _) => apply logs_bind; [|intros ?]
  | |- logs _ (emit _) => apply logs_emit; tac
  | |- logs _ (when _ _) => apply logs_when
  | |- logs _ (try_except _ _) => apply logs_try_except
  | |- logs _ (if ?b then _ else _) => destruct b eqn:?
  | |- logs _ ((if ?b then _ else _) _) => destruct b eqn:?
  | |- logs _ (resolve _ _ _) => unfold resolve
  | |- logs _ (match ?x with _ => _ end) => destruct x
  | |- logs _ _ => apply logs_silent; done
  end.

Ltac logs_auto tac := repeat (cbn beta iota; logs_step tac).

Section log_kept_facts.
Context `{Environment}.

(** X12: with [delete_workdir] unset a run never enters [_remove_log]
    and never removes a directory: the log artifact and its directory are
    left for inspection. *)
Theorem log_kept_without_delete_workdir (self : Executor) (s : state) :
  delete_workdir self = false →
  ∃ evs, trace (_run_on_asset self s).1 = trace s ++ evs
    ∧ Forall not_log_removal evs.
Proof.
  intros Hkeep. revert s.
  change (logs not_log_removal (_run_on_asset self)).
  unfold _run_on_asset. rewrite Hkeep.
  unfold when, _prepare_log_file, resolve, _assert_paths, Noref_assert_paths,
    _set_asset_use_path_as_workpath, _close_workfiles, Noref_close_workfiles,
    _close_ref_workfile, _close_dis_workfile, _get_log_file_path,
    make_parent_dirs_if_nonexist, _open_workfiles_in_fifo_mode,
    Noref_open_workfiles_in_fifo_mode, open_workfiles, Noref_open_workfiles,
    _wait_for_workfiles, Noref_wait_for_workfiles, _open_ref_workfile,
    _open_dis_workfile, _get_log_file_path, when,
    call_generate_result, call_read_result, _save_result,
    call_post_process_result, process_start, call_run_process, os_mkfifo,
    os_remove, os_makedirs, open_write, exists_.
  logs_auto ltac:(by split).
Qed.

End log_kept_facts.

(** ** The log artifact *)

Section log_facts.
Context `{Environment}.

Lemma get_log_file_path_run (self : Executor) s :
  _get_log_file_path self s = (s, Return (log_file_path_of self (asset s))).
Proof. done. Qed.

(** [os.remove] that returns has removed the entry; it adds none. *)
Lemma fs_remove_returns (p : string) (m m' : FS) :
  fs_remove p m = (m', Return tt) → m' = delete p m.
Proof.
  unfold fs_remove.
  destruct (m !! p) as [[]|]; try done;
    destruct (parent_error m p); try done; by intros [= <-].
Qed.

Lemma remove_log_returns (self : Executor) (s s1 : state) :
  _remove_log self s = (s1, Return tt) →
  fs s1 !! log_file_path_of self (asset s) = None ∧ asset s1 = asset s.
Proof.
  unfold _remove_log.
  erewrite bind_return by apply emit_run.
  erewrite bind_return by apply get_log_file_path_run.
  unfold exists_, os_remove. run_monad.
  unfold os_path_exists. case_bool_decide as Hex; simpl.
  - destruct (fs_remove (log_file_path_of self (asset s)) (fs s))
      as [m' [[]|e]] eqn:Hrm; simpl; [|done].
    intros [= <-]. simpl. split; [|done].
    apply fs_remove_returns in Hrm as ->. apply lookup_delete_eq.
  - intros [= <-]. simpl. split; [|done]. by apply eq_None_not_Some.
Qed.

(** Removing the log directory, whatever it raises, adds no entry and
    leaves the asset object alone. *)
Lemma rmdir_adds_nothing (d : string) (s : state) (p : string) :
  fs s !! p = None →
  fs (try_except (os_rmdir d) rmdir_handler s).1 !! p = None
  ∧ asset (try_except (os_rmdir d) rmdir_handler s).1 = asset s.
Proof.
  intros Hnone. unfold try_except, os_rmdir.
  erewrite bind_return by apply emit_run.
  unfold fs_call, fs_rmdir. cbn [fs set_trace asset].
  assert (∀ errno s0, fs s0 !! p = None →
            fs (when (bool_decide (errno = 39)) (mret tt) s0).1 !! p = None
            ∧ asset (when (bool_decide (errno = 39)) (mret tt) s0).1
              = asset s0) as Hpass.
  { intros errno s0 Hs0. unfold when. by case_bool_decide. }
  destruct (fs s !! d) as [[]|]; simpl; try done.
  destruct (parent_error (fs s) d); simpl.
  { by apply (Hpass z (set_fs (fs s) (set_trace (trace s ++ [EvRmdir d]) s))). }
  destruct (has_entries (fs s) d); simpl; [done|].
  split; [|done]. by rewrite lookup_delete_None; right.
Qed.

(** X15: on a miss, a run with [delete_workdir] set that returns has
    removed its log artifact: no entry is left at the log file path of the
    asset. *)
Theorem run_removes_its_log_file (self : Executor) (s s' : state)
    (r : Result) :
  cache_miss self s →
  delete_workdir self = true →
  _run_on_asset self s = (s', Return r) →
  fs s' !! log_file_path_of self (asset s') = None.
Proof.
  intros Hmiss Hdw Hrun.
  assert (wp (_run_on_asset self)
            (λ s1 o, (∃ r1, o = Return r1) →
                     fs s1 !! log_file_path_of self (asset s1) = None) s)
    as Hwp.
  2:{ unfold wp in Hwp. rewrite Hrun in Hwp. apply Hwp. by eexists. }
  clear Hrun.
  unfold _run_on_asset.
  apply wp_bind. unfold wp at 1. cbn [get_asset fst snd].
  apply wp_bind. unfold wp at 1.
  assert (∃ sl, (if result_store self
                 then emit (EvLoad (executor_id self));;
                      st ← get_store;
                      mret (store_load (asset s) (executor_id self) st)
                 else mret None) s = (sl, Return None)) as [sl ->].
  { destruct (result_store self) eqn:Hrs; run_monad; [|by eexists].
    rewrite Hmiss by done. by eexists. }
  cbn [fst snd].
  apply wp_bind.
  do 15 (apply wp_skip; [by intros ? ? [? [=]]|intros ? ?]).
  rewrite Hdw. unfold when.
  apply wp_bind. apply wp_bind. unfold wp at 1.
  match goal with
  | |- context [_remove_log self ?s0] =>
      destruct (_remove_log self s0) as [sa [[]|e]] eqn:Hrm
  end; cbn [fst snd]; [|by intros [? [=]]].
  apply remove_log_returns in Hrm as [Hnone Hasset].
  apply wp_bind. unfold wp at 1. rewrite get_log_file_path_run.
  cbn [fst snd]. unfold wp at 1.
  match goal with
  | |- context [try_except (os_rmdir ?d) rmdir_handler sa] =>
      destruct (rmdir_adds_nothing d sa _ Hnone) as [Hnone2 Hasset2];
      destruct (try_except (os_rmdir d) rmdir_handler sa) as [sb [[]|e]]
  end; cbn [fst snd] in *; [|by intros [? [=]]].
  unfold wp, call_post_process_result. run_monad. intros _.
  by rewrite Hasset2, Hasset.
Qed.

End log_facts.

(** ** Removing results *)

Section removal_facts.
Context `{Environment}.

Lemma remove_result_run (self : Executor) s :
  _remove_result self s
  = (if result_store self
     then set_store (store_delete (asset s) (executor_id self) (store s)) s
     else s, Return tt).
Proof. unfold _remove_result. run_monad. by destruct (result_store self). Qed.

Lemma remove_results_from_spec (self : Executor) (l : list Asset) s :
  store_forgets →
  let s' := (remove_results_from self l s).1 in
  (remove_results_from self l s).2 = Return tt
  ∧ fs s' = fs s ∧ trace s' = trace s
  ∧ (if result_store self
     then (∀ a, a ∈ l →
             store_load a (executor_id self) (store s') = None)
          ∧ (∀ a, store_load a (executor_id self) (store s) = None →
               store_load a (executor_id self) (store s') = None)
     else store s' = store s).
Proof.
  intros [Hgone Hnew]. revert s. induction l as [|a0 rest IH]; intros s; cbv zeta.
  - simpl. split; [done|]. split; [done|]. split; [done|].
    destruct (result_store self); [|done].
    split; [by intros a Ha%elem_of_nil|done].
  - cbn [remove_results_from].
    erewrite bind_return by reflexivity.
    erewrite bind_return by apply remove_result_run.
    cbn [asset store set_asset].
    match goal with
    | |- context [remove_results_from self rest ?s0] =>
        specialize (IH s0); cbv zeta in IH;
        destruct IH as (Hout & Hfs & Htrace & Hstore)
    end.
    split; [done|].
    destruct (result_store self); cbn [fs trace store set_store set_asset] in *.
    + split; [done|]. split; [done|].
      destruct Hstore as [Hrest Hmono]. split.
      * intros a [->|Ha]%elem_of_cons; [|by apply Hrest].
        apply Hmono, Hgone.
      * intros a Ha. apply Hmono. by apply Hnew.
    + by rewrite Hfs, Htrace, Hstore.
Qed.

(** X16: [remove_results] always returns and touches neither the file
    system nor the call log; without a result store it changes nothing at
    all, and with a store whose [delete] removes the entry asked for (and
    adds none) a load misses afterwards for every asset of the executor,
    so the next run on any of them computes afresh. *)
Theorem remove_results_forgets (self : Executor) (s : state) :
  store_forgets →
  let s' := (remove_results self s).1 in
  (remove_results self s).2 = Return tt
  ∧ fs s' = fs s ∧ trace s' = trace s
  ∧ (if result_store self
     then ∀ a, a ∈ assets self →
            store_load a (executor_id self) (store s') = None
     else store s' = store s).
Proof.
  intros Hlaw.
  destruct (remove_results_from_spec self (assets self) s Hlaw)
    as (Hout & Hfs & Htrace & Hstore).
  cbv zeta. unfold remove_results. split; [done|]. split; [done|].
  split; [done|]. destruct (result_store self); [by destruct Hstore|done].
Qed.

End removal_facts.

(** ** Trained models *)

Section trained_facts.

Import train_test_model.

Lemma assert_ok (b : bool) (msg : string) : assert_ b msg = Ok tt ↔ b = true.
Proof. destruct b; simpl; split; congruence. Qed.

Lemma has_lookup (d : gmap string value) (k : string) :
  has d k = true ↔ is_Some (d !! k).
Proof. unfold has. by rewrite bool_decide_eq_true, elem_of_dom. Qed.

Lemma has_lookup_false (d : gmap string value) (k : string) :
  has d k = false ↔ d !! k = None.
Proof.
  unfold has. by rewrite bool_decide_eq_false, not_elem_of_dom.
Qed.

(** X18: [TrainTestModel._assert_trained] passes exactly when the model
    dictionary has [feature_names], [model] and a [norm_type] that is one
    of ['none'], ['normalize'], ['clip_0to1'], ['clip_minus1to1'];
    normalization parameters are never required (the two conditionals on
    ['normal'] and ['clipped'] cannot be entered), and a failure is always
    a bare assertion error, never a [KeyError]. *)
Theorem TrainTestModel_assert_trained_iff (model_dict : gmap string value) :
  (TrainTestModel._assert_trained model_dict = Ok tt ↔
     is_Some (model_dict !! "feature_names")
     ∧ is_Some (model_dict !! "model")
     ∧ ∃ t, model_dict !! "norm_type" = Some (Str t)
         ∧ t ∈ ["none"; "normalize"; "clip_0to1"; "clip_minus1to1"])
  ∧ (TrainTestModel._assert_trained model_dict = Ok tt
     ∨ TrainTestModel._assert_trained model_dict = Fail (AssertionError "")).
Proof.
  unfold TrainTestModel._assert_trained, getitem.
  rewrite <-!has_lookup.
  destruct (has model_dict "feature_names"); simpl;
    [|split; [split; [done|by intros [[=] _]]|by right]].
  destruct (has model_dict "model"); simpl;
    [|split; [split; [done|by intros (_ & [=] & _)]|by right]].
  destruct (has model_dict "norm_type") eqn:Hnt; simpl.
  2:{ split; [split; [done|]|by right].
      intros (_ & _ & t & Ht & _).
      apply has_lookup_false in Hnt. congruence. }
  apply has_lookup in Hnt as [v Hv]. rewrite Hv. simpl.
  destruct v as [t|n]; simpl.
  2:{ split; [split; [done|]|by right]. by intros (_ & _ & t & [=] & _). }
  destruct (decide (t ∈ ["none"; "normalize"; "clip_0to1"; "clip_minus1to1"]))
    as [Hin|Hout].
  - assert (t = "none" ∨ t = "normalize" ∨ t = "clip_0to1"
            ∨ t = "clip_minus1to1") as Hcases.
    { rewrite !elem_of_cons in Hin. rewrite elem_of_nil in Hin. tauto. }
    destruct Hcases as [->|[->|[->| ->]]]; simpl;
      (split; [split; [intros _|done]|by left]);
      (split; [done|]; split; [done|]; by eexists).
  - assert (bool_decide (t = "none") || bool_decide (t = "normalize")
            || bool_decide (t = "clip_0to1")
            || bool_decide (t = "clip_minus1to1") = false) as ->.
    { rewrite !orb_false_iff, !bool_decide_eq_false.
      rewrite !elem_of_cons in Hout. tauto. }
    simpl. split; [split; [done|]|by right].
    intros (_ & _ & t' & [= <-] & Hin). done.
Qed.

(** X19: [TrainTestModel2._assert_trained] passes exactly when the model
    dictionary exists and has [ordered_feature_names], [model] and a
    [norm_type] that is ['none'], or ['normal'] with [mus] and [sds]
    present, or ['clipped'] with [fmins] and [fmaxs] present; without a
    model dictionary it fails with the message that asks to train first. *)
Theorem TrainTestModel2_assert_trained_iff
    (model_dict : option (gmap string value)) :
  (TrainTestModel2._assert_trained model_dict = Ok tt ↔
     ∃ d, model_dict = Some d
       ∧ is_Some (d !! "ordered_feature_names")
       ∧ is_Some (d !! "model")
       ∧ (d !! "norm_type" = Some (Str "none")
          ∨ (d !! "norm_type" = Some (Str "normal")
             ∧ is_Some (d !! "mus") ∧ is_Some (d !! "sds"))
          ∨ (d !! "norm_type" = Some (Str "clipped")
             ∧ is_Some (d !! "fmins") ∧ is_Some (d !! "fmaxs"))))
  ∧ (model_dict = None →
     TrainTestModel2._assert_trained model_dict
     = Fail (AssertionError "Must train first to generate model_dict.")).
Proof.
  split; [|by intros ->].
  destruct model_dict as [d|]; simpl; [|split; [done|by intros (d & [=] & _)]].
  split.
  - intros Hok. exists d. split; [done|]. revert Hok. unfold getitem.
    destruct (has d "ordered_feature_names") eqn:Hnames; simpl; [|done].
    destruct (has d "model") eqn:Hmodel; simpl; [|done].
    destruct (has d "norm_type") eqn:Hnt; simpl; [|done].
    apply has_lookup in Hnames, Hmodel.
    apply has_lookup in Hnt as [v Hv]. rewrite Hv. simpl.
    split; [done|]. split; [done|]. revert Hok.
    destruct v as [t|n]; simpl; [|done].
    destruct (decide (t = "none")) as [->|Hnone]; simpl; [by left|].
    destruct (decide (t = "normal")) as [->|Hnormal]; simpl.
    { destruct (has d "mus") eqn:Hmus; simpl; [|done].
      destruct (has d "sds") eqn:Hsds; simpl; [|done].
      intros _. right; left. by rewrite <-!has_lookup. }
    destruct (decide (t = "clipped")) as [->|Hclipped]; simpl.
    { destruct (has d "fmins") eqn:Hmins; simpl; [|done].
      destruct (has d "fmaxs") eqn:Hmaxs; simpl; [|done].
      intros _. right; right. by rewrite <-!has_lookup. }
    by rewrite !bool_decide_eq_false_2.
  - intros (d' & [= <-] & Hnames%has_lookup & Hmodel%has_lookup & Hnt).
    rewrite Hnames, Hmodel. simpl.
    assert (∀ t, d !! "norm_type" = Some (Str t) →
              has d "norm_type" = true
              ∧ getitem d "norm_type" = Ok (Str t)) as Hget.
    { intros t Ht. unfold getitem. rewrite Ht. split; [|done].
      apply has_lookup. by eexists. }
    destruct Hnt as [Hn|[(Hn & Ha%has_lookup & Hb%has_lookup)
                        |(Hn & Ha%has_lookup & Hb%has_lookup)]];
      destruct (Hget _ Hn) as [-> ->]; simpl; by rewrite ?Ha, ?Hb.
Qed.

Lemma list_remove_in (x : string) (l : list string) :
  x ∈ l → ∃ l', list_remove x l = Ok l' ∧ l ≡ₚ x :: l'.
Proof.
  induction l as [|y rest IH]; [by intros ?%elem_of_nil|].
  intros Hin. simpl. case_bool_decide as Hy.
  - subst y. by exists rest.
  - apply elem_of_cons in Hin as [->|Hin]; [done|].
    destruct (IH Hin) as (l' & -> & Hperm). exists (y :: l'). simpl.
    split; [done|]. rewrite Hperm. apply perm_swap.
Qed.

Lemma list_remove_not_in (x : string) (l : list string) :
  x ∉ l →
  list_remove x l = Fail (ValueError "list.remove(x): x not in list").
Proof.
  induction l as [|y rest IH]; [done|].
  intros Hout. apply not_elem_of_cons in Hout as [Hne Hout]. simpl.
  rewrite bool_decide_eq_false_2 by done. by rewrite IH.
Qed.

Lemma sorted_keys_in (d : gmap string value) (k : string) :
  k ∈ sorted_keys d ↔ is_Some (d !! k).
Proof.
  unfold sorted_keys. rewrite merge_sort_Permutation.
  rewrite list_elem_of_fmap. split.
  - intros ([k' v] & -> & Hin). apply elem_of_map_to_list in Hin.
    by exists v.
  - intros [v Hv]. exists (k, v). split; [done|].
    by apply elem_of_map_to_list.
Qed.

(** X20: [TrainTestModel2.train] returns exactly when the training data
    has both a [label] and a [content_id] column; without [label] it
    fails its assertion, and with [label] but without [content_id] it
    raises the [ValueError] of [list.remove]. *)
Theorem TrainTestModel2_train_needs_label_and_content_id
    (xys : gmap string value) :
  (TrainTestModel2.train xys = Ok tt ↔
     is_Some (xys !! "label") ∧ is_Some (xys !! "content_id"))
  ∧ (xys !! "label" = None →
     TrainTestModel2.train xys = Fail (AssertionError ""))
  ∧ (is_Some (xys !! "label") → xys !! "content_id" = None →
     TrainTestModel2.train xys
     = Fail (ValueError "list.remove(x): x not in list")).
Proof.
  unfold TrainTestModel2.train, getitem.
  destruct (xys !! "label") as [ys_vec|] eqn:Hlabel.
  2:{ apply has_lookup_false in Hlabel. rewrite Hlabel. simpl.
      split; [split; [done|by intros [[? [=]] _]]|].
      split; [done|by intros [? [=]]]. }
  assert (has xys "label" = true) as -> by (apply has_lookup; by eexists).
  simpl.
  destruct (list_remove_in "label" (sorted_keys xys)) as (l1 & -> & Hperm1).
  { apply sorted_keys_in. by eexists. }
  simpl.
  assert ("content_id" ∈ l1 ↔ is_Some (xys !! "content_id")) as Hin.
  { rewrite <-sorted_keys_in, Hperm1, elem_of_cons. split; [by right|].
    by intros [[=]|?]. }
  destruct (xys !! "content_id") as [c|] eqn:Hcontent.
  - destruct (list_remove_in "content_id" l1) as (l2 & -> & _).
    { apply Hin. by eexists. }
    simpl. split; [split; [by split; eexists|done]|].
    split; [done|by intros _ [=]].
  - rewrite list_remove_not_in.
    2:{ intros Hc. apply Hin in Hc as [? [=]]. }
    simpl. split; [split; [done|by intros [_ [? [=]]]]|].
    split; [done|by intros _ _].
Qed.

End trained_facts.

(** * The properties on concrete runs *)

Import Scenario.

(** C5: the working directory [ro/work] lies in a directory that may not
    be modified, so [os.rmdir] fails with EACCES (errno 13, not 39); the
    run nevertheless goes on to post-processing and returns its result,
    the error having been swallowed, and the directory is still there. *)
Theorem log_dir_removal_swallows_EACCES :
  let run := @_run_on_asset env_ro ro_runner
               (start env_ro no_results scaled_ro ro_tree) in
  run.2 = Return (Scores scaled_ro "T_V1" 90)
  ∧ last (trace run.1) = Some (EvCall "_post_process_result")
  ∧ EvRmdir "ro/work" ∈ trace run.1
  ∧ (@fs_rmdir env_ro "ro/work" (fs run.1)).2 = Raise (OSError 13)
  ∧ fs run.1 !! "ro/work" = Some Dir.
Proof.
  cbv zeta. split; [|split; [|split; [|split]]].
  - vm_compute; reflexivity.
  - vm_compute; reflexivity.
  - vm_compute.
    repeat first [apply list_elem_of_here | apply list_elem_of_further].
  - vm_compute; reflexivity.
  - vm_compute; reflexivity.
Qed.

(** The tolerated case: the generate hook leaves a note in the log
    directory; cleanup removes the log file, keeps the directory and the
    note, and the run returns. *)
Lemma log_dir_not_empty_tolerated :
  let run := @_run_on_asset env_idle noting_runner fresh in
  run.2 = Return (Scores scaled "T_V1" 90)
  ∧ fs run.1 !! "w/T_V1_0beec7b5" = None
  ∧ fs run.1 !! "w" = Some Dir
  ∧ fs run.1 !! "w/notes.txt" = Some File
  ∧ (@fs_rmdir env_idle "w" (fs run.1)).2 = Raise (OSError 39).
Proof. cbv zeta. repeat apply conj; vm_compute; reflexivity. Qed.

(** The base class's format resolution on a compressed reference against a
    raw distorted clip. *)
Lemma workfile_yuv_type_resolution_witness :
  _get_workfile_yuv_type mixed = Return "yuv422p"
  ∧ Noref_get_workfile_yuv_type mixed = Return "yuv422p".
Proof.
  destruct (workfile_yuv_type_resolution mixed)
    as (Hother & _ & _ & _ & _ & _ & Hnoref).
  split; [by apply Hother|by apply Hnoref].
Defined.

(** A crop without explicit quality dimensions is refused at construction. *)
Lemma crop_or_pad_requires_explicit_quality_size_witness :
  assertion_failure
    (@_assert_an_asset env_idle (cls direct_runner) cropped)
  ∧ assertion_failure
      (@Noref_assert_an_asset env_idle (cls direct_runner) cropped)
  ∧ assertion_failure
      (@__init__ env_idle (cls direct_runner) [scaled; cropped]
         true true true true None None).
Proof.
  apply (@crop_or_pad_requires_explicit_quality_size env_idle).
  - by intros e [=].
  - by left.
  - intros [Hwidth _]. apply elem_of_dom in Hwidth as [v Hv].
    vm_compute in Hv. discriminate.
  - apply list_elem_of_further, list_elem_of_here.
Defined.

(** Two executors with permuted impacts-result parameters and different
    does-not-impact-result parameters share one identity. *)
Lemma executor_id_ignores_optional_dict2_witness :
  optional_dict2 tuned_runner ≠ optional_dict2 retuned_runner
  ∧ @executor_id env_idle tuned_runner = @executor_id env_idle retuned_runner.
Proof.
  split; [done|].
  apply (@executor_id_ignores_optional_dict2 env_idle); try reflexivity.
  - simpl. by apply (bool_decide_unpack (NoDup _)).
  - simpl. apply perm_swap.
Defined.

(** In the batch [scaled; mixed; scaled] the first and the last entry hold
    the same lock. *)
Lemma locks_shared_by_equal_strings_witness :
  ∃ list_args li lj,
    @run_list_args env_idle batch_runner = Return list_args
    ∧ @run_executors_in_parallel_list_args env_idle (cls batch_runner)
        (assets batch_runner) true true false false None None
      = Return list_args
    ∧ length list_args = length (assets batch_runner)
    ∧ list_args !! 0%nat = Some (scaled, li)
    ∧ list_args !! 2%nat = Some (scaled, lj)
    ∧ (@asset_str env_idle scaled = @asset_str env_idle scaled → li = lj)
    ∧ (li = lj → @asset_str env_idle scaled = @asset_str env_idle scaled).
Proof.
  apply (@locks_shared_by_equal_strings env_idle batch_runner 0 2);
    [reflexivity|reflexivity|vm_compute; reflexivity].
Defined.

Lemma scenario_store_lawful : @lawful_store env_idle.
Proof. intros r st. simpl. apply lookup_insert_eq. Qed.

Lemma scenario_read_hook_tags : @read_hook_tags env_idle direct_runner.
Proof. intros a m m' r [= _ <-]. by split. Qed.

(** A stored result is returned without any work, and a second run after a
    first one that computed the result is such a hit. *)
Lemma cache_hit_short_circuits_witness :
  @_run_on_asset env_idle direct_runner cached_state
  = (set_trace (trace cached_state ++ @hit_events env_idle direct_runner)
       cached_state,
     Return (Scores scaled "T_V1" 90))
  ∧ ∃ r, @_run_on_asset env_idle direct_runner
           (@_run_on_asset env_idle direct_runner fresh).1
         = (set_trace
              (trace (@_run_on_asset env_idle direct_runner fresh).1
               ++ @hit_events env_idle direct_runner)
              (@_run_on_asset env_idle direct_runner fresh).1,
            Return r).
Proof.
  destruct (@cache_hit_short_circuits env_idle direct_runner eq_refl)
    as (Hhit & _ & _ & Hagain).
  split.
  - apply (Hhit cached_state (Scores scaled "T_V1" 90)).
    vm_compute; reflexivity.
  - assert ((@_run_on_asset env_idle direct_runner fresh).2
            = Return (Scores scaled "T_V1" 90)) as Hout
      by (vm_compute; reflexivity).
    destruct (Hagain scenario_store_lawful scenario_read_hook_tags fresh
                (@_run_on_asset env_idle direct_runner fresh).1
                (Scores scaled "T_V1" 90)) as [r Hr].
    { etrans; [apply surjective_pairing|]. by rewrite Hout. }
    exists r. exact Hr.
Defined.

(** C2, as stated, fails where the reference workfile path is the
    reference itself: teardown of that side is not skipped, it raises the
    assertion error (and deletes nothing). *)
Lemma close_ref_workfile_raises_on_equal_paths :
  ref_path aliased = ref_workfile_path aliased
  ∧ (@_close_ref_workfile env_idle
       (start env_idle no_results aliased sources)).2
    = Raise (AssertionError "")
  ∧ fs (@_close_ref_workfile env_idle
          (start env_idle no_results aliased sources)).1
    = sources.
Proof. repeat apply conj; vm_compute; reflexivity. Qed.

(** The assertion compares a workfile path with the source of its own side
    only: a reference workfile path that is the distorted source passes
    it, and that source is removed. *)
Lemma close_ref_workfile_removes_other_source :
  ref_workfile_path crossed = dis_path crossed
  ∧ (@_close_ref_workfile env_idle
       (start env_idle no_results crossed sources)).2 = Return tt
  ∧ fs (@_close_ref_workfile env_idle
          (start env_idle no_results crossed sources)).1 !! "dis.yuv" = None
  ∧ fs (@_close_ref_workfile env_idle
          (start env_idle no_results crossed sources)).1 !! "ref.yuv"
    = Some File.
Proof. repeat apply conj; vm_compute; reflexivity. Qed.

(** Teardown of the reference side removes a stale workfile and leaves the
    reference in place. *)
Lemma close_workfile_asserts_before_deleting_witness :
  fs (@_close_ref_workfile env_idle
        (start env_idle no_results scaled stale)).1 !! "ref.yuv"
  = Some File
  ∧ deletes_at_most "w/ref" stale
      (fs (@_close_ref_workfile env_idle
             (start env_idle no_results scaled stale)).1).
Proof.
  destruct (@close_workfile_asserts_before_deleting env_idle
              (start env_idle no_results scaled stale))
    as [(Hdel & Hsrc & _) _].
  split; [|exact Hdel].
  etrans; [exact Hsrc|]. vm_compute; reflexivity.
Defined.

(** With nothing to transcode the flag is set and the run touches no
    workfile. *)
Lemma use_path_as_workpath_iff_no_transcode_witness :
  use_path_as_workpath
    (asset (@_run_on_asset env_idle direct_runner
              (start env_idle no_results native sources)).1) = true
  ∧ ∃ evs,
      trace (@_run_on_asset env_idle direct_runner
               (start env_idle no_results native sources)).1
      = [] ++ evs
      ∧ Forall (λ e, is_workfile_event e = false) evs.
Proof.
  destruct (@use_path_as_workpath_iff_no_transcode env_idle direct_runner
              (start env_idle no_results native sources))
    as (_ & Hrun & _).
  assert (use_path_as_workpath
            (asset (@_run_on_asset env_idle direct_runner
                      (start env_idle no_results native sources)).1) = true)
    as Hflag by (vm_compute; reflexivity).
  split; [exact Hflag|exact (Hrun Hflag)].
Defined.

Lemma returned_pair {E : Environment} {A} (x : @state E * outcome A) (v : A) :
  x.2 = Return v → x = (x.1, Return v).
Proof. destruct x as [s o]. simpl. by intros ->. Qed.

(** Producers that never create their pipes: the run is aborted by the
    timeout of the wait and nothing is saved. *)
Lemma pipe_wait_times_out_witness :
  (@_run_on_asset env_idle fifo_runner fresh).2
  = Raise (RuntimeError
             "ref or dis video workfile path w/ref or w/dis is missing.")
  ∧ store (@_run_on_asset env_idle fifo_runner fresh).1 = no_results
  ∧ EvSave ∉ trace (@_run_on_asset env_idle fifo_runner fresh).1.
Proof.
  pose (s2 := (@_assert_paths env_idle
                 (@after_lookup env_idle fifo_runner fresh)).1).
  pose (s4 := (@_close_workfiles env_idle
                 (set_trace
                    (trace s2 ++ [EvCall "_set_asset_use_path_as_workpath"])
                    s2)).1).
  pose (s5 := (@make_parent_dirs_if_nonexist env_idle
                 (@log_file_path_of env_idle fifo_runner scaled) s4).1).
  destruct (@pipe_wait_times_out env_idle fifo_runner fresh s2 s4 s5)
    as (Hrun & _ & _ & Hstore & evs & Htrace & Hsave).
  - reflexivity.
  - intros _. vm_compute; reflexivity.
  - apply returned_pair. vm_compute; reflexivity.
  - reflexivity.
  - vm_compute; reflexivity.
  - apply returned_pair. vm_compute; reflexivity.
  - apply returned_pair. vm_compute; reflexivity.
  - intros k Hk.
    do 10 (destruct k as [|k]; [vm_compute; reflexivity|]). lia.
  - rewrite Hrun. split; [reflexivity|]. split; [exact Hstore|].
    cbn [fst]. rewrite Htrace. exact Hsave.
Defined.

(** ** Further concrete runs *)

Lemma validated_asset_has_workfile_format_witness :
  ∃ t,
    @_get_workfile_yuv_type mixed = Return t
    ∧ t = "yuv422p".
Proof.
  destruct (@validated_asset_has_workfile_format env_idle
              (cls direct_runner) mixed) as (t & Hrun & Hdis & _).
  { vm_compute; reflexivity. }
  exists t. split; [exact Hrun|]. by apply Hdis.
Defined.

Lemma full_reference_acceptance_is_stricter_witness :
  @Noref_assert_an_asset env_idle noref_class scaled = Return tt.
Proof.
  apply (@full_reference_acceptance_is_stricter env_idle (cls direct_runner)
           noref_class scaled).
  - reflexivity.
  - vm_compute; reflexivity.
Defined.

Lemma open_workfile_asserts_first_witness :
  @_open_ref_workfile env_idle direct_runner false
    (start env_idle no_results aliased sources)
  = (set_trace [EvCall "_open_ref_workfile"]
       (start env_idle no_results aliased sources),
     Raise (AssertionError "")).
Proof.
  destruct (@open_workfile_asserts_first env_idle direct_runner false
              (start env_idle no_results aliased sources)) as [Href _].
  apply Href. by right.
Defined.

Lemma fifo_open_refuses_existing_path_witness :
  @_open_ref_workfile env_idle fifo_runner true
    (start env_idle no_results scaled stale)
  = (set_trace [EvCall "_open_ref_workfile"; EvMkfifo "w/ref"]
       (start env_idle no_results scaled stale),
     Raise (OSError 17)).
Proof.
  destruct (@fifo_open_refuses_existing_path env_idle fifo_runner
              (start env_idle no_results scaled stale) eq_refl) as [Href _].
  apply Href.
  - done.
  - done.
  - exists File. vm_compute; reflexivity.
Defined.

Lemma wait_returns_at_first_sight_witness :
  @_wait_for_workfiles env_pipes waiting
  = (@after_sleeps env_pipes 1
       (set_trace [EvCall "_wait_for_workfiles"] waiting), Return tt)
  ∧ clock (@after_sleeps env_pipes 1
             (set_trace [EvCall "_wait_for_workfiles"] waiting)) = 100.
Proof.
  destruct (@wait_returns_at_first_sight env_pipes
              (quality_runner env_pipes false generate_quietly read_scores)
              waiting 1) as (Hrun & Hclock & _).
  - lia.
  - intros j Hj. destruct j as [|j]; [vm_compute; reflexivity|lia].
  - vm_compute; reflexivity.
  - split; [exact Hrun|exact Hclock].
Defined.

Lemma close_workfiles_clears_and_is_idempotent_witness :
  fs (@_close_workfiles env_idle
        (start env_idle no_results scaled stale)).1 !! "w/ref" = None
  ∧ (@_close_workfiles env_idle
       (@_close_workfiles env_idle
          (start env_idle no_results scaled stale)).1).2 = Return tt.
Proof.
  destruct (@close_workfiles_clears_and_is_idempotent env_idle
              (cls direct_runner) (start env_idle no_results scaled stale)
              (@_close_workfiles env_idle
                 (start env_idle no_results scaled stale)).1)
    as (_ & Href & Hagain & _).
  - apply returned_pair. vm_compute; reflexivity.
  - split; [by apply Href|exact Hagain].
Defined.

Lemma missing_source_aborts_before_any_work_witness :
  @_run_on_asset env_idle direct_runner
    (start env_idle no_results scaled ∅)
  = (@after_assert_paths env_idle direct_runner
       (start env_idle no_results scaled ∅),
     Raise (AssertionError "Reference path ref.yuv does not exist.")).
Proof.
  destruct (@missing_source_aborts_before_any_work env_idle direct_runner
              (start env_idle no_results scaled ∅)) as [Href _].
  - intros _. vm_compute; reflexivity.
  - apply Href; [reflexivity|vm_compute; reflexivity].
Defined.

Lemma log_kept_without_delete_workdir_witness :
  ∃ evs,
    trace (@_run_on_asset env_idle keeping_runner fresh).1 = [] ++ evs
    ∧ Forall not_log_removal evs.
Proof.
  apply (@log_kept_without_delete_workdir env_idle keeping_runner fresh).
  reflexivity.
Defined.

Lemma set_flag_is_sticky_witness :
  @_need_ffmpeg marked = true
  ∧ asset (@_run_on_asset env_idle direct_runner
             (start env_idle no_results marked sources)).1 = marked
  ∧ ∃ evs,
      trace (@_run_on_asset env_idle direct_runner
               (start env_idle no_results marked sources)).1 = [] ++ evs
      ∧ Forall (λ e, is_workfile_event e = false) evs.
Proof.
  split; [vm_compute; reflexivity|].
  apply (@set_flag_is_sticky env_idle direct_runner
           (start env_idle no_results marked sources)).
  reflexivity.
Defined.

Lemma run_removes_its_log_file_witness :
  fs (@_run_on_asset env_idle direct_runner fresh).1
  !! @log_file_path_of env_idle direct_runner
       (asset (@_run_on_asset env_idle direct_runner fresh).1) = None.
Proof.
  apply (@run_removes_its_log_file env_idle direct_runner fresh
           (@_run_on_asset env_idle direct_runner fresh).1
           (Scores scaled "T_V1" 90)).
  - intros _. vm_compute; reflexivity.
  - reflexivity.
  - apply returned_pair. vm_compute; reflexivity.
Defined.

Lemma scenario_store_forgets : @store_forgets env_idle.
Proof.
  split.
  - intros a id st. simpl. apply lookup_delete_eq.
  - intros a a' id id' st Hnone. simpl in *.
    rewrite lookup_delete_None. by right.
Qed.

Lemma remove_results_forgets_witness :
  (@remove_results env_idle direct_runner cached_state).2 = Return tt
  ∧ @store_load env_idle scaled "T_V1"
      (store (@remove_results env_idle direct_runner cached_state).1) = None.
Proof.
  destruct (@remove_results_forgets env_idle direct_runner cached_state
              scenario_store_forgets) as (Hout & _ & _ & Hstore).
  split; [exact Hout|].
  apply (Hstore scaled). apply list_elem_of_here.
Defined.

Lemma miss_returns_post_processed_read_result_witness :
  ∃ m r0,
    (read_scores
       (asset (@_run_on_asset env_idle direct_runner fresh).1) m).2
    = Return r0
    ∧ Return r0 = Return (Scores scaled "T_V1" 90).
Proof.
  apply (@miss_returns_post_processed_read_result env_idle direct_runner
           fresh (@_run_on_asset env_idle direct_runner fresh).1
           (Scores scaled "T_V1" 90)).
  - intros _. vm_compute; reflexivity.
  - apply returned_pair. vm_compute; reflexivity.
Defined.
